(** * Title-search engine: record normalisation, classification, chain of
      title, text-signal extraction, satisfaction matching, flags and summary.

    A shallow embedding of the JavaScript sources
    [src/api/hillsborough.js], [src/search/titleSearch.js] and
    [src/documents/pdfExtractor.js], followed by the properties the
    specification states about them.

    Conventions of the embedding.
    - JavaScript strings are [string] (one [ascii] per code unit; text outside
      the ASCII range is not interpreted by the case and whitespace helpers).
    - Record timestamps are integers ([Z]); amounts read by [parseFloat] are
      rationals ([Q]) and are compared as such; the one amount the code
      computes and stores, the price derived from documentary stamps, is
      rounded to binary64 after each operation ([Js.toDouble]).
    - A number held in a loosely typed field is an integer of absolute value
      at most [Js.maxSafeInteger]; [String(n)] is its decimal rendering.
    - Loosely typed fields that the code only tests for truthiness, converts
      with [String(...)] or passes through are values of [JsVal].
    - [Array.prototype.sort] is stable; with the subtraction comparators used
      here its result is the unique stable ordering, computed below by a
      stable insertion sort. *)

From Stdlib Require Import List String Ascii ZArith QArith Qabs Qround Lia Bool.
From Stdlib Require Import Qpower Lqa.
From Stdlib Require Import Permutation Sorted DecimalString.
Import ListNotations.
Open Scope string_scope.
Open Scope Z_scope.

(** ** JavaScript string primitives *)

Module Js.

(** [hay.includes(needle)] *)
Fixpoint includes (hay needle : string) : bool :=
if String.prefix needle hay then true
else match hay with
     | EmptyString => false
     | String _ rest => includes rest needle
     end.

(** [s.split(' ')[0]] : the text before the first space. *)
Fixpoint firstToken (s : string) : string :=
match s with
| EmptyString => EmptyString
| String c rest =>
    if Ascii.eqb c " "%char then EmptyString else String c (firstToken rest)
end.

Definition lowerChar (c : ascii) : ascii :=
let n := nat_of_ascii c in
if (andb (Nat.leb 65 n) (Nat.leb n 90)) then ascii_of_nat (n + 32) else c.

Definition upperChar (c : ascii) : ascii :=
let n := nat_of_ascii c in
if (andb (Nat.leb 97 n) (Nat.leb n 122)) then ascii_of_nat (n - 32) else c.

Fixpoint mapChars (f : ascii -> ascii) (s : string) : string :=
match s with
| EmptyString => EmptyString
| String c rest => String (f c) (mapChars f rest)
end.

Definition toLowerCase : string -> string := mapChars lowerChar.
Definition toUpperCase : string -> string := mapChars upperChar.

(** [parts.join(sep)] *)
Fixpoint join (sep : string) (parts : list string) : string :=
match parts with
| [] => EmptyString
| [p] => p
| p :: rest => p ++ sep ++ join sep rest
end.

Definition isSpace (c : ascii) : bool :=
let n := nat_of_ascii c in
orb (Nat.eqb n 32) (andb (Nat.leb 9 n) (Nat.leb n 13)).

Fixpoint trimStart (s : string) : string :=
match s with
| EmptyString => EmptyString
| String c rest => if isSpace c then trimStart rest else s
end.

(** Drops the white space at the end: a character is kept when it is not
  white space or when something is kept after it. *)
Fixpoint trimEnd (s : string) : string :=
match s with
| EmptyString => EmptyString
| String c rest =>
    match trimEnd rest with
    | EmptyString => if isSpace c then EmptyString else String c EmptyString
    | kept => String c kept
    end
end.

(** [s.trim()] *)
Definition trim (s : string) : string := trimEnd (trimStart s).

(** [s.substring(0, n)] *)
Fixpoint take (n : nat) (s : string) : string :=
match n, s with
| O, _ => EmptyString
| _, EmptyString => EmptyString
| S k, String c rest => String c (take k rest)
end.

(** [s.replace(/,/g, '')] *)
Fixpoint dropCommas (s : string) : string :=
match s with
| EmptyString => EmptyString
| String c rest =>
    if Ascii.eqb c ","%char then dropCommas rest else String c (dropCommas rest)
end.

(** [s.replace(/\s+/g, ' ')] : every run of white space becomes one space. *)
Fixpoint collapseSpaces (s : string) : string :=
match s with
| EmptyString => EmptyString
| String c rest =>
    if isSpace c
    then match rest with
         | String d _ =>
             if isSpace d then collapseSpaces rest
             else String " "%char (collapseSpaces rest)
         | EmptyString => String " "%char EmptyString
         end
    else String c (collapseSpaces rest)
end.

(** Whether the character occurs in the string. *)
Fixpoint hasChar (c : ascii) (s : string) : bool :=
match s with
| EmptyString => false
| String d rest => orb (Ascii.eqb d c) (hasChar c rest)
end.

(** Decimal rendering of an integer, as template literals and [String(n)]
  produce it for the integers up to [maxSafeInteger] in absolute value. *)
Definition showZ (n : Z) : string := NilZero.string_of_int (Z.to_int n).

Definition showNat (n : nat) : string := showZ (Z.of_nat n).

(** [Number.MAX_SAFE_INTEGER], 2^53 - 1: up to it every integer is a number
  of its own and [String(n)] prints all its digits; beyond it [String(n)]
  prints the digits of the nearest binary64 number, in exponent form from
  1e21. *)
Definition maxSafeInteger : Z := 9007199254740991.

(** *** Binary64 arithmetic *)

(** The integer nearest to [x], the even one when two are equally near. *)
Definition roundHalfEven (x : Q) : Z :=
  let low := Qfloor x in
  match (x - inject_Z low ?= 1 # 2)%Q with
  | Lt => low
  | Gt => low + 1
  | Eq => if Z.even low then low else low + 1
  end.

(** For [x > 0], the exponent [e] with [2^52 <= x / 2^e < 2^53]: the first
  guess is at most one too large. *)
Definition binaryExponent (x : Q) : Z :=
  let e := Z.log2 (Qnum x) - Z.log2 (Zpos (Qden x)) - 52 in
  if Qle_bool (inject_Z (2 ^ 52)) (x / (2 # 1) ^ e)%Q then e else e - 1.

(** For [x > 0], the nearest number with a significand of 53 bits. *)
Definition roundPositive (x : Q) : Q :=
  let e := binaryExponent x in
  (inject_Z (roundHalfEven (x / (2 # 1) ^ e)) * (2 # 1) ^ e)%Q.

(** The binary64 number nearest to [x], ties to even: the value of a decimal
  literal and the result of one arithmetic operation.  The exponent is not
  bounded: results beyond 2^1024 ([Infinity] in the code) and below 2^-1022
  (subnormal) are outside the model. *)
Definition toDouble (x : Q) : Q :=
  Qred (match (x ?= 0)%Q with
        | Eq => 0
        | Gt => roundPositive x
        | Lt => - roundPositive (- x)
        end)%Q.

(** [a / b] and [a * b] on numbers. *)
Definition fdiv (a b : Q) : Q := toDouble (a / b)%Q.

Definition fmul (a b : Q) : Q := toDouble (a * b)%Q.

End Js.

Open Scope list_scope.

(** ** Loosely typed values *)

Inductive JsVal : Type :=
| VUndefined
| VNull
| VBool (b : bool)
| VNum (n : Z)
| VStr (s : string)
| VArr (items : list string).

Definition JsVal_eq_dec (a b : JsVal) : {a = b} + {a <> b}.
Proof.
  decide equality;
    first [ apply Bool.bool_dec | apply Z.eq_dec | apply string_dec
          | apply (list_eq_dec string_dec) ].
Defined.

(** Strict equality / SameValueZero on the values above (arrays are compared
    by content here; the code never stores two arrays as keys). *)
Definition sameValue (a b : JsVal) : bool :=
  if JsVal_eq_dec a b then true else false.

Definition truthy (v : JsVal) : bool :=
  match v with
  | VUndefined | VNull => false
  | VBool b => b
  | VNum n => negb (n =? 0)
  | VStr s => negb (String.eqb s "")
  | VArr _ => true
  end.

Definition nullish (v : JsVal) : bool :=
  match v with
  | VUndefined | VNull => true
  | _ => false
  end.

(** [String(v)]; a number is an integer of absolute value at most
    [Js.maxSafeInteger], printed with all its digits. *)
Definition toStr (v : JsVal) : string :=
  match v with
  | VUndefined => "undefined"
  | VNull => "null"
  | VBool true => "true"
  | VBool false => "false"
  | VNum n => Js.showZ n
  | VStr s => s
  | VArr items => Js.join "," items
  end.

Definition strTruthy (s : option string) : bool :=
  match s with
  | Some t => negb (String.eqb t "")
  | None => false
  end.

Definition numTruthy (q : option Q) : bool :=
  match q with
  | Some x => negb (Qeq_bool x 0)
  | None => false
  end.

(** ** [Array.prototype.sort] with a numeric comparator *)

Section JsSort.
Context {A : Type}.
Variable cmp : A -> A -> Z.

(** [x] stood before every element of [l] in the input, so it moves to the
    right only past elements that compare strictly smaller. *)
Fixpoint sortInsert (x : A) (l : list A) : list A :=
  match l with
  | [] => [x]
  | y :: rest => if cmp x y <=? 0 then x :: l else y :: sortInsert x rest
  end.

Fixpoint jsSort (l : list A) : list A :=
  match l with
  | [] => []
  | x :: rest => sortInsert x (jsSort rest)
  end.
End JsSort.

(** ** Data model *)

(** Fields read from a mortgage text ([parseMortgageText]). *)
Module MortgageInfo.
Record t : Type := mk {
  principalAmount : option Q;
  lenderName : option string;
  instrumentReferences : list string;
  isModification : bool;
  isRefinance : bool;
  maturityDate : option string;
  interestRate : option Q;
  propertyAddress : option string;
  confidence : string
}.
End MortgageInfo.

(** Fields read from a deed text ([parseDeedText]). *)
Module DeedInfo.
Record t : Type := mk {
  consideration : option Q;
  legalDescription : option string;
  propertyAddress : option string;
  deedType : option string;
  grantors : list string;
  grantees : list string;
  confidence : string
}.
End DeedInfo.

(** Fields read from a satisfaction text ([parseSatisfactionText]). *)
Module SatisfactionInfo.
Record t : Type := mk {
  satisfiedInstrumentNumber : option string;
  satisfiedBookPage : option string;
  originalLender : option string;
  originalAmount : option Q;
  satisfiedDate : option string;
  confidence : string
}.
End SatisfactionInfo.

Inductive ExtractedData : Type :=
| MortgageData (info : MortgageInfo.t)
| DeedData (info : DeedInfo.t)
| SatisfactionData (info : SatisfactionInfo.t).

(** The canonical record the engine works on. *)
Record Document : Type := mkDocument {
  instrumentNumber : JsVal;
  grantors : list string;
  grantees : list string;
  recordDate : string;
  recordTimestamp : Z;
  docType : string;
  docTypeShort : string;
  legalDescription : JsVal;
  salesPrice : JsVal;
  pageCount : JsVal;
  documentId : JsVal;
  uuid : JsVal;
  bookNum : JsVal;
  pageNum : JsVal;
  extractedData : option ExtractedData
}.

Inductive Result (A : Type) : Type :=
| Ok (value : A)
| Throw (error : string).
Arguments Ok {A} value.
Arguments Throw {A} error.

(** ** Record normaliser ([src/api/hillsborough.js]) *)

Module DOC_TYPES.
Definition DEED := "(D) DEED".
Definition MORTGAGE := "(MTG) MORTGAGE".
Definition SATISFACTION := "(SAT) SATISFACTION".
Definition LIEN := "(LN) LIEN".
Definition LIS_PENDENS := "(LP) LIS PENDENS".
Definition EASEMENT := "(EAS) EASEMENT".
Definition RESTRICTIONS := "(RES) RESTRICTIONS".
Definition JUDGMENT := "(JUD) JUDGMENT".
Definition RELEASE := "(REL) RELEASE".
Definition ASSIGNMENT := "(ASG) ASSIGNMENT".
Definition MODIFICATION := "(MOD) MODIFICATION".
Definition TAX_DEED := "(TAXDEED) TAX DEED".
Definition MEDICAID_LIEN := "(MEDLN) MEDICAID LIEN".
Definition CORP_TAX_LIEN := "(LNCORPTX) CORP TAX LIEN FOR STATE OF FLORIDA".
Definition AFFIDAVIT := "(AFF) AFFIDAVIT".
Definition NOTICE_COMMENCEMENT := "(NOC) NOTICE OF COMMENCEMENT".
Definition COURT_PAPER := "(CP) COURT PAPER".
End DOC_TYPES.

Definition TITLE_DOC_TYPES : list string :=
  [ DOC_TYPES.DEED; DOC_TYPES.MORTGAGE; DOC_TYPES.SATISFACTION; DOC_TYPES.LIEN;
    DOC_TYPES.LIS_PENDENS; DOC_TYPES.EASEMENT; DOC_TYPES.RESTRICTIONS;
    DOC_TYPES.JUDGMENT; DOC_TYPES.RELEASE; DOC_TYPES.ASSIGNMENT;
    DOC_TYPES.TAX_DEED ].

(** The text after the first character up to the next closing parenthesis;
    [None] when there is no closing parenthesis. *)
Fixpoint untilClose (s : string) : option string :=
  match s with
  | EmptyString => None
  | String c rest =>
      if Ascii.eqb c ")"%char then Some EmptyString
      else option_map (String c) (untilClose rest)
  end.

(** [s.match(/\(([^)]+)\)/)?.[1]] : the leftmost opening parenthesis that is
    followed by at least one character other than [)] and then by [)]. *)
Fixpoint firstParenthesized (s : string) : option string :=
  match s with
  | EmptyString => None
  | String c rest =>
      if Ascii.eqb c "("%char
      then match untilClose rest with
           | Some (String _ _ as captured) => Some captured
           | _ => firstParenthesized rest
           end
      else firstParenthesized rest
  end.

(** [docType.match(...)?.[1] || docType] on a string. *)
Definition shortCode (label : string) : string :=
  match firstParenthesized label with
  | Some captured => captured
  | None => label
  end.

(** A raw registry record: a field that is missing reads as [VUndefined]. *)
Module Raw.
Record t : Type := mk {
  Instrument : JsVal;
  PartiesOne : JsVal;
  PartiesTwo : JsVal;
  RecordDate : JsVal;
  DocType : JsVal;
  Legal : JsVal;
  SalesPrice : JsVal;
  PageCount : JsVal;
  ID : JsVal;
  UUID : JsVal;
  BookNum : JsVal;
  PageNum : JsVal
}.
End Raw.

(** What [parseRecord] returns, field by field, before any typing. *)
Module Parsed.
Record t : Type := mk {
  instrumentNumber : JsVal;
  grantors : JsVal;
  grantees : JsVal;
  recordDate : string;
  recordTimestamp : JsVal;
  docType : JsVal;
  docTypeShort : JsVal;
  legalDescription : JsVal;
  salesPrice : JsVal;
  pageCount : JsVal;
  documentId : JsVal;
  uuid : JsVal;
  bookNum : JsVal;
  pageNum : JsVal
}.
End Parsed.

(** [a || b] *)
Definition jsOr (a b : JsVal) : JsVal := if truthy a then a else b.

(** [record.DocType?.match(/\(([^)]+)\)/)?.[1] || record.DocType].  The
    optional chain stops on [undefined] and [null] only; any other value
    without a [match] method makes the call throw. *)
Definition deriveDocTypeShort (docTypeField : JsVal) : Result JsVal :=
  match docTypeField with
  | VUndefined | VNull => Ok (jsOr VUndefined docTypeField)
  | VStr label =>
      match firstParenthesized label with
      | Some captured => Ok (jsOr (VStr captured) docTypeField)
      | None => Ok (jsOr VUndefined docTypeField)
      end
  | VBool _ | VNum _ | VArr _ =>
      Throw "TypeError: record.DocType?.match is not a function"
  end.

Section Normalizer.
(** [formatDate] renders the timestamp with the host's locale and time
    zone; it returns a string for every argument. *)
Variable formatDate : JsVal -> string.

Definition parseRecord (record : Raw.t) : Result Parsed.t :=
  match deriveDocTypeShort (Raw.DocType record) with
  | Throw e => Throw e
  | Ok short =>
      Ok {| Parsed.instrumentNumber := Raw.Instrument record;
            Parsed.grantors := jsOr (Raw.PartiesOne record) (VArr []);
            Parsed.grantees := jsOr (Raw.PartiesTwo record) (VArr []);
            Parsed.recordDate := formatDate (Raw.RecordDate record);
            Parsed.recordTimestamp := Raw.RecordDate record;
            Parsed.docType := Raw.DocType record;
            Parsed.docTypeShort := short;
            Parsed.legalDescription := Raw.Legal record;
            Parsed.salesPrice := Raw.SalesPrice record;
            Parsed.pageCount := Raw.PageCount record;
            Parsed.documentId := Raw.ID record;
            Parsed.uuid := Raw.UUID record;
            Parsed.bookNum := Raw.BookNum record;
            Parsed.pageNum := Raw.PageNum record |}
  end.
End Normalizer.

(** ** Classifier ([groupByDocType]) *)

Inductive Category : Type :=
| Deeds | Mortgages | Satisfactions | Liens | LisPendens | Easements
| Restrictions | Judgments | Releases | Assignments | Modifications | Other.

Definition Category_eq_dec (a b : Category) : {a = b} + {a <> b}.
Proof. decide equality. Defined.

Definition Category_eqb (a b : Category) : bool :=
  if Category_eq_dec a b then true else false.

(** The keys of the [groups] object, in insertion order. *)
Definition allCategories : list Category :=
  [ Deeds; Mortgages; Satisfactions; Liens; LisPendens; Easements;
    Restrictions; Judgments; Releases; Assignments; Modifications; Other ].

Definition oneOf (code : string) (codes : list string) : bool :=
  existsb (String.eqb code) codes.

(** The [switch (type)] of [groupByDocType]: strict, case-sensitive
    comparison against each label in turn. *)
Definition categoryOf (type : string) : Category :=
  if oneOf type ["D"] then Deeds
  else if oneOf type ["MTG"; "MTGREV"; "MTGNDOC"; "MTGNT"; "MTGNIT"] then Mortgages
  else if oneOf type ["SAT"; "SATCORPTX"] then Satisfactions
  else if oneOf type ["LN"; "MEDLN"; "LNCORPTX"] then Liens
  else if oneOf type ["LP"] then LisPendens
  else if oneOf type ["EAS"] then Easements
  else if oneOf type ["RES"] then Restrictions
  else if oneOf type ["JUD"] then Judgments
  else if oneOf type ["REL"; "RELLP"] then Releases
  else if oneOf type ["ASG"; "ASGT"; "ASINT"] then Assignments
  else if oneOf type ["MOD"] then Modifications
  else Other.

(** The labels of the [switch], each with the key of the array it feeds. *)
Definition codeTable : list (string * Category) :=
  [ ("D", Deeds);
    ("MTG", Mortgages); ("MTGREV", Mortgages); ("MTGNDOC", Mortgages);
    ("MTGNT", Mortgages); ("MTGNIT", Mortgages);
    ("SAT", Satisfactions); ("SATCORPTX", Satisfactions);
    ("LN", Liens); ("MEDLN", Liens); ("LNCORPTX", Liens);
    ("LP", LisPendens); ("EAS", Easements); ("RES", Restrictions);
    ("JUD", Judgments);
    ("REL", Releases); ("RELLP", Releases);
    ("ASG", Assignments); ("ASGT", Assignments); ("ASINT", Assignments);
    ("MOD", Modifications) ].

(** Whether the [switch] sends [d] to the array under key [c]. *)
Definition inBucket (c : Category) (d : Document) : bool :=
  Category_eqb c (categoryOf (docTypeShort d)).

(** The elements of [l] that [label] sends to [c], in their order in [l]. *)
Definition labelled {A : Type} (label : A -> Category) (l : list A)
           (c : Category) : list A :=
  filter (fun d => Category_eqb c (label d)) l.

(** The [groups] object: one array per key. *)
Definition Groups : Type := Category -> list Document.

Definition emptyGroups : Groups := fun _ => [].

(** [groups.<key>.push(doc)] *)
Definition push (key : Category) (doc : Document) (groups : Groups) : Groups :=
  fun k => if Category_eqb k key then groups k ++ [doc] else groups k.

Definition newestFirst (a b : Document) : Z :=
  recordTimestamp b - recordTimestamp a.

Definition oldestFirst (a b : Document) : Z :=
  recordTimestamp a - recordTimestamp b.

Definition groupByDocType (documents : list Document) : Groups :=
  let groups :=
    fold_left (fun g doc => push (categoryOf (docTypeShort doc)) doc g)
              documents emptyGroups in
  fun key => jsSort newestFirst (groups key).

(** ** Chain of title ([buildChainOfTitle]) *)

Module ChainEntry.
Record t : Type := mk {
  sequence : nat;
  date : string;
  instrumentNumber : JsVal;
  grantors : string;
  grantees : string;
  salesPrice : JsVal;
  legalDescription : JsVal;
  documentId : JsVal
}.
End ChainEntry.

Definition chainEntry (index : nat) (deed : Document) : ChainEntry.t :=
  {| ChainEntry.sequence := index + 1;
     ChainEntry.date := recordDate deed;
     ChainEntry.instrumentNumber := instrumentNumber deed;
     ChainEntry.grantors := Js.join ", " (grantors deed);
     ChainEntry.grantees := Js.join ", " (grantees deed);
     ChainEntry.salesPrice := salesPrice deed;
     ChainEntry.legalDescription := legalDescription deed;
     ChainEntry.documentId := documentId deed |}.

(** [array.map((x, index) => f(index, x))], counting from [start]. *)
Fixpoint mapIndexed {A B : Type} (f : nat -> A -> B) (start : nat) (l : list A)
  : list B :=
  match l with
  | [] => []
  | x :: rest => f start x :: mapIndexed f (S start) rest
  end.

Definition buildChainOfTitle (deeds : list Document) : list ChainEntry.t :=
  if Nat.eqb (List.length deeds) 0 then []
  else
    let sorted := jsSort oldestFirst deeds in
    mapIndexed chainEntry 0 sorted.

(** ** Text-signal extractor ([src/documents/pdfExtractor.js]) *)

Definition Qltb (x y : Q) : bool := negb (Qle_bool y x).

(** [score >= 4 ? 'high' : score >= 2 ? 'medium' : 'low'] *)
Definition confidenceTier (score : Z) : string :=
  if score >=? 4 then "high" else if score >=? 2 then "medium" else "low".

(** [!text || text.trim().length < 50] *)
Definition tooShort (text : string) : bool :=
  orb (String.eqb text "") (Nat.ltb (String.length (Js.trim text)) 50).

Section Extractor.
(** The regular-expression engine and [parseFloat] belong to the host.
    [reMatch pattern text] is [text.match(pattern)] (equally the first
    [pattern.exec(text)] of a fresh global pattern): [None] for [null],
    otherwise the groups, the whole match first.  [reMatchAll] lists the
    successive [exec] results of a global pattern until [null].
    [parseFloat] returns [None] for [NaN]. *)
Variable reMatch : string -> string -> option (list (option string)).
Variable reMatchAll : string -> string -> list (list (option string)).
Variable parseFloat : string -> option Q.

(** [match[i]]; every group read by the rules below takes part in its
    pattern whenever the pattern matches. *)
Definition group (i : nat) (m : list (option string)) : string :=
  match nth i m None with
  | Some s => s
  | None => ""
  end.

Definition groupTruthy (i : nat) (m : list (option string)) : bool :=
  strTruthy (nth i m None).

Definition reTest (pattern text : string) : bool :=
  match reMatch pattern text with
  | Some _ => true
  | None => false
  end.

(** The rule loop: the first pattern that matches and whose value passes
    the filter sets the field and ends the loop. *)
Fixpoint firstAccepted {B : Type} (patterns : list string) (text : string)
         (accept : list (option string) -> option B) : option B :=
  match patterns with
  | [] => None
  | pattern :: rest =>
      match reMatch pattern text with
      | Some m =>
          match accept m with
          | Some v => Some v
          | None => firstAccepted rest text accept
          end
      | None => firstAccepted rest text accept
      end
  end.

(** [parseFloat(match[1].replace(/,/g, ''))] kept when the test holds. *)
Definition amountWhere (ok : Q -> bool) (m : list (option string)) : option Q :=
  match parseFloat (Js.dropCommas (group 1 m)) with
  | Some amount => if ok amount then Some amount else None
  | None => None
  end.

Definition cleanName (m : list (option string)) : string :=
  Js.collapseSpaces (Js.trim (group 1 m)).

Definition bookPage (m : list (option string)) : string :=
  ("Book " ++ group 1 m ++ ", Page " ++ group 2 m)%string.

Definition addReference (refs : list string) (m : list (option string))
  : list string :=
  let ref := if groupTruthy 2 m then bookPage m else group 1 m in
  if existsb (String.eqb ref) refs then refs else refs ++ [ref].

Definition collectReferences (patterns : list string) (text : string)
  : list string :=
  fold_left (fun refs pattern => fold_left addReference (reMatchAll pattern text) refs)
            patterns [].

Definition bump (present : bool) (weight : Z) : Z :=
  if present then weight else 0.

(** *** Mortgages *)

Definition mortgageAmountPatterns : list string :=
  [ "/PRINCIPAL\s+(?:SUM|AMOUNT)\s+(?:OF\s+)?\$[\s,]*([0-9,]+(?:\.[0-9]{2})?)/i";
    "/IN\s+THE\s+AMOUNT\s+OF\s+\$[\s,]*([0-9,]+(?:\.[0-9]{2})?)/i";
    "/\$[\s,]*([0-9,]+(?:\.[0-9]{2})?)\s*(?:\(|DOLLARS)/i";
    "/FACE\s+AMOUNT\s*(?:OF\s+)?\$[\s,]*([0-9,]+(?:\.[0-9]{2})?)/i";
    "/LOAN\s+AMOUNT\s*(?:OF\s+)?\$[\s,]*([0-9,]+(?:\.[0-9]{2})?)/i";
    "/\$[\s,]*([1-9][0-9]{4,}(?:\.[0-9]{2})?)/i" ].

Definition mortgageLenderPatterns : list string :=
  [ "/(?:MORTGAGEE|LENDER)\s*[:\s]+([A-Z][A-Z0-9\s,\.&'-]+?)(?:\s*[,\n]|$)/i";
    "/IN\s+FAVOR\s+OF\s+([A-Z][A-Z0-9\s,\.&'-]+?)(?:\s*[,\n]|ITS|A\s+)/i";
    "/(WELLS\s+FARGO[A-Z\s,\.&'-]*BANK|BANK\s+OF\s+AMERICA[A-Z\s,\.&'-]*|CHASE\s+[A-Z\s,\.&'-]*BANK|JPMORGAN[A-Z\s,\.&'-]*|QUICKEN\s+LOANS|ROCKET\s+MORTGAGE|UNITED\s+SHORE|CALIBER\s+HOME|FREEDOM\s+MORTGAGE|PENNYMAC|GUILD\s+MORTGAGE|CROSSCOUNTRY\s+MORTGAGE|MOVEMENT\s+MORTGAGE|LOAN\s*DEPOT|NAVY\s+FEDERAL|USAA|FIFTH\s+THIRD|PNC\s+BANK|REGIONS\s+BANK|SUNTRUST|TRUIST|CITIZENS\s+BANK)/i";
    "/([A-Z][A-Z\s&'-]+,?\s*N\.?A\.?)/i" ].

Definition mortgageRefPatterns : list string :=
  [ "/INSTRUMENT\s*(?:NO\.?|NUMBER|#)\s*:?\s*([0-9]{6,})/gi";
    "/(?:RECORDED\s+IN\s+)?(?:OR\s+)?BOOK\s+([0-9]+)\s*,?\s*PAGE\s+([0-9]+)/gi";
    "/CFN\s*(?:#|NO\.?)?\s*([0-9]{6,})/gi";
    "/DOCUMENT\s*(?:NO\.?|NUMBER|#)\s*:?\s*([0-9]{6,})/gi" ].

Definition emptyMortgageInfo : MortgageInfo.t :=
  {| MortgageInfo.principalAmount := None;
     MortgageInfo.lenderName := None;
     MortgageInfo.instrumentReferences := [];
     MortgageInfo.isModification := false;
     MortgageInfo.isRefinance := false;
     MortgageInfo.maturityDate := None;
     MortgageInfo.interestRate := None;
     MortgageInfo.propertyAddress := None;
     MortgageInfo.confidence := "low" |}.

Definition parseMortgageText (text : string) : MortgageInfo.t :=
  let info := emptyMortgageInfo in
  if tooShort text then info
  else
    let normalizedText := Js.toUpperCase text in
    let principal :=
      firstAccepted mortgageAmountPatterns text
        (amountWhere (fun amount =>
           andb (Qle_bool (inject_Z 10000) amount)
                (Qle_bool amount (inject_Z 50000000)))) in
    let lender :=
      firstAccepted mortgageLenderPatterns text
        (fun m =>
           let name := cleanName m in
           if andb (Nat.ltb 3 (String.length name))
                   (negb (reTest "/^(THE|AND|FOR|THIS|THAT)$/i" name))
           then Some name else None) in
    let refs := collectReferences mortgageRefPatterns normalizedText in
    let modification := reTest "/MODIFICATION|LOAN\s+MOD/i" normalizedText in
    let refinance := reTest "/REFINANC|REFI\s/i" normalizedText in
    let rate :=
      match reMatch "/(?:INTEREST\s+RATE|RATE\s+OF)\s*[:\s]+([0-9]+\.?[0-9]*)\s*%/i" text with
      | Some m => parseFloat (group 1 m)
      | None => None
      end in
    let maturity :=
      match reMatch "/MATUR(?:ITY|ES?)\s*(?:DATE)?\s*[:\s]+([0-9]{1,2}[\/\-][0-9]{1,2}[\/\-][0-9]{2,4})/i" text with
      | Some m => Some (group 1 m)
      | None => None
      end in
    let confidenceScore :=
      bump (numTruthy principal) 3 + bump (strTruthy lender) 2
      + bump (numTruthy rate) 1 + bump (strTruthy maturity) 1 in
    {| MortgageInfo.principalAmount := principal;
       MortgageInfo.lenderName := lender;
       MortgageInfo.instrumentReferences := refs;
       MortgageInfo.isModification := modification;
       MortgageInfo.isRefinance := refinance;
       MortgageInfo.maturityDate := maturity;
       MortgageInfo.interestRate := rate;
       MortgageInfo.propertyAddress := None;
       MortgageInfo.confidence := confidenceTier confidenceScore |}.

(** *** Deeds *)

Definition considerationPatterns : list string :=
  [ "/FOR\s+AND\s+IN\s+CONSIDERATION\s+OF\s+\$[\s,]*([0-9,]+(?:\.[0-9]{2})?)/i";
    "/CONSIDERATION\s+(?:OF\s+)?\$[\s,]*([0-9,]+(?:\.[0-9]{2})?)/i";
    "/SUM\s+OF\s+\$[\s,]*([0-9,]+(?:\.[0-9]{2})?)/i";
    "/DOCUMENTARY\s+STAMP(?:S)?\s+\$[\s,]*([0-9,]+(?:\.[0-9]{2})?)/i" ].

Definition legalPatterns : list string :=
  [ "/(LOT\s+[0-9A-Z]+,?\s*(?:OF\s+)?BLOCK\s+[0-9A-Z]+[^.]*)/i";
    "/(UNIT\s+(?:NO\.?\s*)?[0-9A-Z-]+[^.]*(?:CONDOMINIUM|CONDO)[^.]*)/i";
    "/(SEC(?:TION)?\s+[0-9]+[^.]*TOWNSHIP\s+[0-9]+[^.]*RANGE\s+[0-9]+[^.]*)/i";
    "/PARCEL\s+(?:ID|IDENTIFICATION|NUMBER|NO\.?)?\s*:?\s*([0-9-]+)/i" ].

Definition emptyDeedInfo : DeedInfo.t :=
  {| DeedInfo.consideration := None;
     DeedInfo.legalDescription := None;
     DeedInfo.propertyAddress := None;
     DeedInfo.deedType := None;
     DeedInfo.grantors := [];
     DeedInfo.grantees := [];
     DeedInfo.confidence := "low" |}.

Definition deedTypeOf (normalizedText : string) : option string :=
  if reTest "/WARRANTY\s+DEED/i" normalizedText then Some "WARRANTY"
  else if reTest "/QUIT\s*CLAIM/i" normalizedText then Some "QUIT CLAIM"
  else if reTest "/SPECIAL\s+WARRANTY/i" normalizedText then Some "SPECIAL WARRANTY"
  else if reTest "/TAX\s+DEED/i" normalizedText then Some "TAX DEED"
  else if reTest "/PERSONAL\s+REPRESENTATIVE/i" normalizedText then Some "PR DEED"
  else if reTest "/TRUSTEE/i" normalizedText then Some "TRUSTEE DEED"
  else None.

Definition stampAmountPattern : string :=
  "/\$[\s,]*([0-9,]+(?:\.[0-9]{2})?)\s*(?:DOC|DOCUMENTARY)/i".

(** [(stamps / 0.70) * 100] : the literal, the quotient and the product are
    binary64 numbers. *)
Definition priceFromStamps (stamps : Q) : Q :=
  Js.fmul (Js.fdiv stamps (Js.toDouble (70 # 100))) (inject_Z 100).

Definition parseDeedText (text : string) : DeedInfo.t :=
  let info := emptyDeedInfo in
  if tooShort text then info
  else
    let normalizedText := Js.toUpperCase text in
    let stated :=
      firstAccepted considerationPatterns text
        (amountWhere (fun amount => Qle_bool (inject_Z 1000) amount)) in
    let consideration :=
      if andb (negb (numTruthy stated)) (reTest "/DOCUMENTARY\s+STAMP/i" text)
      then match reMatch stampAmountPattern text with
           | Some m =>
               match parseFloat (Js.dropCommas (group 1 m)) with
               | Some stamps => Some (priceFromStamps stamps)
               | None => None
               end
           | None => stated
           end
      else stated in
    let legal :=
      firstAccepted legalPatterns text
        (fun m => Some (Js.take 200 (Js.trim (group 1 m)))) in
    let kind := deedTypeOf normalizedText in
    let confidenceScore :=
      bump (numTruthy consideration) 2 + bump (strTruthy legal) 2
      + bump (strTruthy kind) 1 in
    {| DeedInfo.consideration := consideration;
       DeedInfo.legalDescription := legal;
       DeedInfo.propertyAddress := None;
       DeedInfo.deedType := kind;
       DeedInfo.grantors := [];
       DeedInfo.grantees := [];
       DeedInfo.confidence := confidenceTier confidenceScore |}.

(** *** Satisfactions *)

Definition satisfiedInstrumentPatterns : list string :=
  [ "/(?:MORTGAGE|INSTRUMENT|DOCUMENT)\s*(?:NO\.?|NUMBER|#)\s*:?\s*([0-9]{6,})/gi";
    "/(?:RECORDED\s+)?(?:IN\s+)?(?:O\.?R\.?\s+)?BOOK\s+([0-9]+)\s*,?\s*PAGE\s+([0-9]+)/gi";
    "/CFN\s*(?:#|NO\.?)?\s*([0-9]{6,})/gi" ].

Definition originalLenderPatterns : list string :=
  [ "/(?:ORIGINALLY\s+)?(?:MADE|EXECUTED)\s+(?:BY\s+.+?\s+)?(?:TO|IN\s+FAVOR\s+OF)\s+([A-Z][A-Z0-9\s,\.&'-]+?)(?:\s*[,\n]|$)/i";
    "/(?:MORTGAGEE|LENDER)\s*(?:WAS|:)\s*([A-Z][A-Z0-9\s,\.&'-]+?)(?:\s*[,\n]|$)/i";
    "/(WELLS\s+FARGO|BANK\s+OF\s+AMERICA|CHASE|JPMORGAN|QUICKEN|ROCKET|PENNYMAC|CALIBER|FREEDOM\s+MORTGAGE)[A-Z\s,\.&'-]*/i" ].

Definition originalAmountPatterns : list string :=
  [ "/(?:ORIGINAL|PRINCIPAL)\s+(?:AMOUNT|SUM)\s*(?:OF|:)?\s*\$[\s,]*([0-9,]+)/i";
    "/\$[\s,]*([0-9,]+(?:\.[0-9]{2})?)\s*(?:MORTGAGE|LOAN)/i" ].

Definition emptySatisfactionInfo : SatisfactionInfo.t :=
  {| SatisfactionInfo.satisfiedInstrumentNumber := None;
     SatisfactionInfo.satisfiedBookPage := None;
     SatisfactionInfo.originalLender := None;
     SatisfactionInfo.originalAmount := None;
     SatisfactionInfo.satisfiedDate := None;
     SatisfactionInfo.confidence := "low" |}.

Definition parseSatisfactionText (text : string) : SatisfactionInfo.t :=
  let info := emptySatisfactionInfo in
  if tooShort text then info
  else
    let normalizedText := Js.toUpperCase text in
    let reference :=
      firstAccepted satisfiedInstrumentPatterns normalizedText
        (fun m => Some m) in
    let instrument :=
      match reference with
      | Some m => if groupTruthy 2 m then None else Some (group 1 m)
      | None => None
      end in
    let bookAndPage :=
      match reference with
      | Some m => if groupTruthy 2 m then Some (bookPage m) else None
      | None => None
      end in
    let lender :=
      firstAccepted originalLenderPatterns text
        (fun m =>
           let name := cleanName m in
           if Nat.ltb 3 (String.length name) then Some name else None) in
    let amount :=
      firstAccepted originalAmountPatterns text
        (amountWhere (fun amount => Qle_bool (inject_Z 10000) amount)) in
    let dated :=
      match reMatch "/(?:DATED|RECORDED)\s*:?\s*([A-Z]+\s+[0-9]{1,2},?\s*[0-9]{4}|[0-9]{1,2}[\/\-][0-9]{1,2}[\/\-][0-9]{2,4})/i" text with
      | Some m => Some (group 1 m)
      | None => None
      end in
    let confidenceScore :=
      bump (orb (strTruthy instrument) (strTruthy bookAndPage)) 3
      + bump (strTruthy lender) 2 + bump (numTruthy amount) 1 in
    {| SatisfactionInfo.satisfiedInstrumentNumber := instrument;
       SatisfactionInfo.satisfiedBookPage := bookAndPage;
       SatisfactionInfo.originalLender := lender;
       SatisfactionInfo.originalAmount := amount;
       SatisfactionInfo.satisfiedDate := dated;
       SatisfactionInfo.confidence := confidenceTier confidenceScore |}.
End Extractor.

(** ** Multi-signal matcher ([matchSatisfactionsToMortgages]) *)

(** The two copies of the matcher differ in one comparison: the extractor
    module compares the extracted number with [String(mtg.instrumentNumber)],
    the browser scanner with [mtg.instrumentNumber] itself. *)
Inductive Variant : Type := NodeExtractor | BrowserScanner.

(** [(doc.extractedData || {}).field] : a field the attached record does not
    have reads as [undefined]. *)
Definition satisfactionField {B : Type} (field : SatisfactionInfo.t -> option B)
           (doc : Document) : option B :=
  match extractedData doc with
  | Some (SatisfactionData info) => field info
  | _ => None
  end.

Definition mortgageField {B : Type} (field : MortgageInfo.t -> option B)
           (doc : Document) : option B :=
  match extractedData doc with
  | Some (MortgageData info) => field info
  | _ => None
  end.

Definition instrumentMatches (v : Variant) (sat mtg : Document) : bool :=
  match satisfactionField SatisfactionInfo.satisfiedInstrumentNumber sat with
  | Some wanted =>
      andb (andb (negb (String.eqb wanted "")) (truthy (instrumentNumber mtg)))
           (match v with
            | NodeExtractor => String.eqb wanted (toStr (instrumentNumber mtg))
            | BrowserScanner => sameValue (VStr wanted) (instrumentNumber mtg)
            end)
  | None => false
  end.

Definition bookPageMatches (sat mtg : Document) : bool :=
  match satisfactionField SatisfactionInfo.satisfiedBookPage sat with
  | Some reference =>
      andb (andb (negb (String.eqb reference ""))
                 (andb (truthy (bookNum mtg)) (truthy (pageNum mtg))))
           (andb (Js.includes reference (toStr (bookNum mtg)))
                 (Js.includes reference (toStr (pageNum mtg))))
  | None => false
  end.

(** [Math.abs(a - p) / p < 0.01] when both amounts are truthy. *)
Definition amountMatches (sat mtg : Document) : bool :=
  let original := satisfactionField SatisfactionInfo.originalAmount sat in
  let principal := mortgageField MortgageInfo.principalAmount mtg in
  match original, principal with
  | Some a, Some p =>
      andb (andb (numTruthy original) (numTruthy principal))
           (let diff := Qabs (a - p) in
            let pct := (diff / p)%Q in
            Qltb pct (1 # 100))
  | _, _ => false
  end.

Definition lenderMatches (sat mtg : Document) : bool :=
  let original := satisfactionField SatisfactionInfo.originalLender sat in
  let lender := mortgageField MortgageInfo.lenderName mtg in
  match original, lender with
  | Some a, Some b =>
      andb (andb (strTruthy original) (strTruthy lender))
           (let satLender := Js.toLowerCase a in
            let mtgLender := Js.toLowerCase b in
            orb (Js.includes satLender (Js.firstToken mtgLender))
                (Js.includes mtgLender (Js.firstToken satLender)))
  | _, _ => false
  end.

Definition grantorMatches (sat mtg : Document) : bool :=
  let satGrantors := Js.toLowerCase (Js.join " " (grantors sat)) in
  let mtgGrantors := Js.toLowerCase (Js.join " " (grantors mtg)) in
  andb (andb (negb (String.eqb satGrantors "")) (negb (String.eqb mtgGrantors "")))
       (String.eqb (Js.firstToken satGrantors) (Js.firstToken mtgGrantors)).

(** [score += weight; matchReasons.push(reason)] when the signal fires. *)
Definition signal (fires : bool) (weight : Z) (reason : string)
           (acc : Z * list string) : Z * list string :=
  if fires then (fst acc + weight, snd acc ++ [reason]) else acc.

(** Methods 1 to 5: the score and the reasons before the date rule. *)
Definition signalScore (v : Variant) (sat mtg : Document) : Z * list string :=
  signal (grantorMatches sat mtg) 10 "Grantor name match"
    (signal (lenderMatches sat mtg) 20 "Lender name partial match"
       (signal (amountMatches sat mtg) 30 "Amount match"
          (signal (bookPageMatches sat mtg) 90 "Book/Page match"
             (signal (instrumentMatches v sat mtg) 100 "Instrument # exact match"
                (0, []))))).

(** Method 6: the date rule. *)
Definition dateAdjust (sat mtg : Document) (score : Z) : Z :=
  if recordTimestamp sat >? recordTimestamp mtg then score + 5 else score - 20.

Definition pairScore (v : Variant) (sat mtg : Document) : Z :=
  dateAdjust sat mtg (fst (signalScore v sat mtg)).

Module BestMatch.
Record t : Type := mk {
  mortgage : Document;
  index : nat;
  matchReasons : list string
}.
End BestMatch.

(** The inner loop over [unmatchedMortgages], from position [i] on. *)
Fixpoint scanMortgages (v : Variant) (sat : Document) (i : nat)
         (pool : list Document) (bestMatch : option BestMatch.t) (bestScore : Z)
  : option BestMatch.t * Z :=
  match pool with
  | [] => (bestMatch, bestScore)
  | mtg :: rest =>
      let score := pairScore v sat mtg in
      if score >? bestScore
      then scanMortgages v sat (S i) rest
             (Some {| BestMatch.mortgage := mtg;
                      BestMatch.index := i;
                      BestMatch.matchReasons := snd (signalScore v sat mtg) |})
             score
      else scanMortgages v sat (S i) rest bestMatch bestScore
  end.

Module Matched.
Record t : Type := mk {
  satisfaction : Document;
  mortgage : Document;
  score : Z;
  confidence : string;
  matchReasons : list string
}.
End Matched.

(** [array.splice(index, 1)] *)
Fixpoint removeAt {A : Type} (index : nat) (l : list A) : list A :=
  match l, index with
  | [], _ => []
  | _ :: rest, O => rest
  | x :: rest, S k => x :: removeAt k rest
  end.

Module MatcherState.
Record t : Type := mk {
  matches : list Matched.t;
  unmatchedMortgages : list Document;
  usedSatisfactions : list JsVal
}.
End MatcherState.

(** [set.has(key)] *)
Definition setHas (set : list JsVal) (key : JsVal) : bool :=
  existsb (sameValue key) set.

(** [set.add(key)] *)
Definition setAdd (key : JsVal) (set : list JsVal) : list JsVal :=
  if setHas set key then set else set ++ [key].

(** One turn of the outer loop. *)
Definition matchStep (v : Variant) (st : MatcherState.t) (sat : Document)
  : MatcherState.t :=
  let '(bestMatch, bestScore) :=
    scanMortgages v sat 0 (MatcherState.unmatchedMortgages st) None 0 in
  match bestMatch with
  | Some best =>
      if bestScore >=? 30
      then {| MatcherState.matches :=
                MatcherState.matches st ++
                  [ {| Matched.satisfaction := sat;
                       Matched.mortgage := BestMatch.mortgage best;
                       Matched.score := bestScore;
                       Matched.confidence :=
                         if bestScore >=? 90 then "high"
                         else if bestScore >=? 50 then "medium" else "low";
                       Matched.matchReasons := BestMatch.matchReasons best |} ];
              MatcherState.unmatchedMortgages :=
                removeAt (BestMatch.index best) (MatcherState.unmatchedMortgages st);
              MatcherState.usedSatisfactions :=
                setAdd (instrumentNumber sat) (MatcherState.usedSatisfactions st) |}
      else st
  | None => st
  end.

Module MatchResult.
Record t : Type := mk {
  matches : list Matched.t;
  unmatchedMortgages : list Document;
  unmatchedSatisfactions : list Document
}.
End MatchResult.

Definition matcherStart (mortgages : list Document) : MatcherState.t :=
  {| MatcherState.matches := [];
     MatcherState.unmatchedMortgages := mortgages;
     MatcherState.usedSatisfactions := [] |}.

Definition matchSatisfactionsToMortgages (v : Variant)
           (mortgages satisfactions : list Document) : MatchResult.t :=
  let final := fold_left (matchStep v) satisfactions (matcherStart mortgages) in
  {| MatchResult.matches := MatcherState.matches final;
     MatchResult.unmatchedMortgages := MatcherState.unmatchedMortgages final;
     MatchResult.unmatchedSatisfactions :=
       filter (fun s => negb (setHas (MatcherState.usedSatisfactions final)
                                     (instrumentNumber s)))
              satisfactions |}.

(** ** Name-based analysis ([analyzeMortgages], [identifyOpenLiens]) *)

Module SatisfiedEntry.
Record t : Type := mk {
  mortgage : Document;
  satisfaction : Document;
  confidence : string;
  matchMethod : option string;
  matchReasons : option (list string)
}.
End SatisfiedEntry.

(** What the batch extraction hands back ([results] of
    [batchExtractDocuments]). *)
Module ScanResults.
Record t : Type := mk {
  scanned : nat;
  successful : nat;
  failed : nat;
  needsManualReview : nat;
  usedOCR : nat;
  documents : list Document
}.
End ScanResults.

Module MortgageAnalysis.
Record t : Type := mk {
  total : nat;
  satisfied : nat;
  open : list Document;
  satisfiedList : list SatisfiedEntry.t;
  unmatchedSatisfactions : option (list Document);
  scanData : option ScanResults.t
}.
End MortgageAnalysis.

(** [satName.includes(firstName) || firstName.includes(satName.split(' ')[0])] *)
Definition namesOverlap (name other : string) : bool :=
  let firstName := Js.firstToken name in
  orb (Js.includes other firstName) (Js.includes firstName (Js.firstToken other)).

Definition nameScore (mtg sat : Document) : Z :=
  let mtgGrantors := map Js.toLowerCase (grantors mtg) in
  let satGrantors := map Js.toLowerCase (grantors sat) in
  let dated := if recordTimestamp sat >? recordTimestamp mtg then 10 else 0 in
  fold_left
    (fun score mtgName =>
       fold_left
         (fun score satName =>
            if namesOverlap mtgName satName then score + 5 else score)
         satGrantors score)
    mtgGrantors dated.

(** The inner loop of [analyzeMortgages]; [None] stands for the index -1. *)
Fixpoint scanSatisfactions (mtg : Document) (i : nat) (pool : list Document)
         (bestMatchIndex : option nat) (bestMatchScore : Z) : option nat * Z :=
  match pool with
  | [] => (bestMatchIndex, bestMatchScore)
  | sat :: rest =>
      let score := nameScore mtg sat in
      if score >? bestMatchScore
      then scanSatisfactions mtg (S i) rest (Some i) score
      else scanSatisfactions mtg (S i) rest bestMatchIndex bestMatchScore
  end.

Definition analyzeStep (acc : MortgageAnalysis.t * list Document) (mtg : Document)
  : MortgageAnalysis.t * list Document :=
  let '(analysis, availableSats) := acc in
  let '(bestMatchIndex, bestMatchScore) :=
    scanSatisfactions mtg 0 availableSats None 0 in
  let asOpen :=
    ({| MortgageAnalysis.total := MortgageAnalysis.total analysis;
        MortgageAnalysis.satisfied := MortgageAnalysis.satisfied analysis;
        MortgageAnalysis.open := MortgageAnalysis.open analysis ++ [mtg];
        MortgageAnalysis.satisfiedList := MortgageAnalysis.satisfiedList analysis;
        MortgageAnalysis.unmatchedSatisfactions := None;
        MortgageAnalysis.scanData := None |}, availableSats) in
  match bestMatchIndex with
  | Some i =>
      match nth_error availableSats i with
      | Some matchedSat =>
          if bestMatchScore >=? 10
          then ({| MortgageAnalysis.total := MortgageAnalysis.total analysis;
                   MortgageAnalysis.satisfied := S (MortgageAnalysis.satisfied analysis);
                   MortgageAnalysis.open := MortgageAnalysis.open analysis;
                   MortgageAnalysis.satisfiedList :=
                     MortgageAnalysis.satisfiedList analysis ++
                       [ {| SatisfiedEntry.mortgage := mtg;
                            SatisfiedEntry.satisfaction := matchedSat;
                            SatisfiedEntry.confidence := "low";
                            SatisfiedEntry.matchMethod := Some "name";
                            SatisfiedEntry.matchReasons := None |} ];
                   MortgageAnalysis.unmatchedSatisfactions := None;
                   MortgageAnalysis.scanData := None |},
                removeAt i availableSats)
          else asOpen
      | None => asOpen
      end
  | None => asOpen
  end.

Definition analyzeMortgages (mortgages satisfactions : list Document)
  : MortgageAnalysis.t :=
  fst (fold_left analyzeStep mortgages
         ({| MortgageAnalysis.total := List.length mortgages;
             MortgageAnalysis.satisfied := 0;
             MortgageAnalysis.open := [];
             MortgageAnalysis.satisfiedList := [];
             MortgageAnalysis.unmatchedSatisfactions := None;
             MortgageAnalysis.scanData := None |}, satisfactions)).

(** The release that discharges [lien]: the first one still available that
    is recorded later and shares a name. *)
Fixpoint findRelease (lien : Document) (i : nat) (pool : list Document)
  : option nat :=
  match pool with
  | [] => None
  | rel :: rest =>
      let lienGrantors := map Js.toLowerCase (grantors lien) in
      let relGrantors := map Js.toLowerCase (grantors rel) in
      if andb (recordTimestamp rel >? recordTimestamp lien)
              (existsb (fun lienName =>
                          existsb (fun relName => namesOverlap lienName relName)
                                  relGrantors)
                       lienGrantors)
      then Some i
      else findRelease lien (S i) rest
  end.

Definition identifyOpenLiens (liens releases : list Document) : list Document :=
  fst (fold_left
         (fun (acc : list Document * list Document) lien =>
            let '(openLiens, availableReleases) := acc in
            match findRelease lien 0 availableReleases with
            | Some i => (openLiens, removeAt i availableReleases)
            | None => (openLiens ++ [lien], availableReleases)
            end)
         liens ([], releases)).

(** ** Risk flags ([identifyFlags]) *)

Module Flag.
Record t : Type := mk {
  severity : string;
  type : string;
  message : string;
  documents : list Document
}.
End Flag.

Definition isTaxLien (d : Document) : bool :=
  orb (String.eqb (docTypeShort d) "LNCORPTX") (Js.includes (docType d) "TAX").

(** [(recent.recordTimestamp - previous.recordTimestamp) / 86400], as an
    exact quotient.  A quotient of integers by 86400 is either a multiple of
    one half or at least 1/86400 away from one, so for timestamps of any
    realistic size the double the code computes compares with 90 and rounds
    in the same way. *)
Definition daysBetween (recentDeed previousDeed : Document) : Q :=
  (inject_Z (recordTimestamp recentDeed - recordTimestamp previousDeed)
   / inject_Z 86400)%Q.

(** [Math.round(x)] : the nearest integer, halves upwards. *)
Definition mathRound (x : Q) : Z := Qfloor (x + (1 # 2))%Q.

Definition quickFlipFlag (recentDeed previousDeed : Document) : Flag.t :=
  {| Flag.severity := "medium";
     Flag.type := "quick_flip";
     Flag.message :=
       ("Property sold twice within "
          ++ Js.showZ (mathRound (daysBetween recentDeed previousDeed))
          ++ " days")%string;
     Flag.documents := [recentDeed; previousDeed] |}.

(** What the quick-flip rule adds to [flags]. *)
Definition quickFlipPart (documents : list Document) : list Flag.t :=
  let deeds := filter (fun d => String.eqb (docTypeShort d) "D") documents in
  if Nat.leb 2 (List.length deeds)
  then match jsSort newestFirst deeds with
       | recentDeed :: previousDeed :: _ =>
           if Qltb (daysBetween recentDeed previousDeed) (inject_Z 90)
           then [quickFlipFlag recentDeed previousDeed]
           else []
       | _ => []
       end
  else [].

Definition identifyFlags (documents : list Document) : list Flag.t :=
  let flags := [] in
  let lisPendens := filter (fun d => String.eqb (docTypeShort d) "LP") documents in
  let flags :=
    if Nat.ltb 0 (List.length lisPendens)
    then flags ++
         [ {| Flag.severity := "high";
              Flag.type := "lis_pendens";
              Flag.message :=
                ("Found " ++ Js.showNat (List.length lisPendens)
                   ++ " lis pendens (pending litigation)")%string;
              Flag.documents := lisPendens |} ]
    else flags in
  let judgments := filter (fun d => String.eqb (docTypeShort d) "JUD") documents in
  let flags :=
    if Nat.ltb 0 (List.length judgments)
    then flags ++
         [ {| Flag.severity := "high";
              Flag.type := "judgment";
              Flag.message :=
                ("Found " ++ Js.showNat (List.length judgments) ++ " judgment(s)")%string;
              Flag.documents := judgments |} ]
    else flags in
  let taxLiens := filter isTaxLien documents in
  let flags :=
    if Nat.ltb 0 (List.length taxLiens)
    then flags ++
         [ {| Flag.severity := "high";
              Flag.type := "tax_lien";
              Flag.message :=
                ("Found " ++ Js.showNat (List.length taxLiens)
                   ++ " tax-related lien(s)")%string;
              Flag.documents := taxLiens |} ]
    else flags in
  let deeds := filter (fun d => String.eqb (docTypeShort d) "D") documents in
  let flags :=
    if Nat.leb 2 (List.length deeds)
    then match jsSort newestFirst deeds with
         | recentDeed :: previousDeed :: _ =>
             if Qltb (daysBetween recentDeed previousDeed) (inject_Z 90)
             then flags ++ [quickFlipFlag recentDeed previousDeed]
             else flags
         | _ => flags
         end
    else flags in
  flags.

(** ** Summary ([generateSummary]) *)

Module Summary.
Record t : Type := mk {
  totalDocuments : nat;
  chainOfTitleLength : nat;
  totalMortgages : nat;
  satisfiedMortgages : nat;
  openMortgages : nat;
  openLiens : nat;
  highSeverityFlags : nat;
  mediumSeverityFlags : nat;
  riskLevel : string
}.
End Summary.

Definition generateSummary (documents : list Document)
           (chainOfTitle : list ChainEntry.t)
           (mortgageAnalysis : MortgageAnalysis.t)
           (openLiens : list Document) (flags : list Flag.t) : Summary.t :=
  let highFlags := filter (fun f => String.eqb (Flag.severity f) "high") flags in
  let mediumFlags := filter (fun f => String.eqb (Flag.severity f) "medium") flags in
  {| Summary.totalDocuments := List.length documents;
     Summary.chainOfTitleLength := List.length chainOfTitle;
     Summary.totalMortgages := MortgageAnalysis.total mortgageAnalysis;
     Summary.satisfiedMortgages := MortgageAnalysis.satisfied mortgageAnalysis;
     Summary.openMortgages := List.length (MortgageAnalysis.open mortgageAnalysis);
     Summary.openLiens := List.length openLiens;
     Summary.highSeverityFlags := List.length highFlags;
     Summary.mediumSeverityFlags := List.length mediumFlags;
     Summary.riskLevel :=
       if Nat.ltb 0 (List.length highFlags) then "HIGH"
       else if orb (orb (Nat.ltb 0 (List.length mediumFlags))
                        (Nat.ltb 0 (List.length openLiens)))
                   (Nat.ltb 1 (List.length (MortgageAnalysis.open mortgageAnalysis)))
            then "MEDIUM" else "LOW" |}.

(** ** The search pipeline after the registry query ([performTitleSearch]) *)

Module TitlePackage.
Record t : Type := mk {
  scanned : bool;
  documents : list Document;
  grouped : Groups;
  chainOfTitle : list ChainEntry.t;
  mortgageAnalysis : MortgageAnalysis.t;
  openLiens : list Document;
  flags : list Flag.t;
  scanResults : option ScanResults.t;
  summary : Summary.t
}.
End TitlePackage.

Definition codeIncludes (code : string) (d : Document) : bool :=
  orb (String.eqb (docTypeShort d) code) (Js.includes (docTypeShort d) code).

Section Pipeline.
(** The batch extraction downloads and reads the documents; its outcome is
    an input here. *)
Variable batchExtractDocuments : list Document -> ScanResults.t.

Definition scannedAnalysis (grouped : Groups) (scanResults : ScanResults.t)
  : MortgageAnalysis.t :=
  let scannedMortgages :=
    filter (codeIncludes "MTG") (ScanResults.documents scanResults) in
  let scannedSatisfactions :=
    filter (codeIncludes "SAT") (ScanResults.documents scanResults) in
  let matchResults :=
    matchSatisfactionsToMortgages NodeExtractor scannedMortgages scannedSatisfactions in
  {| MortgageAnalysis.total := List.length (grouped Mortgages);
     MortgageAnalysis.satisfied := List.length (MatchResult.matches matchResults);
     MortgageAnalysis.open := MatchResult.unmatchedMortgages matchResults;
     MortgageAnalysis.satisfiedList :=
       map (fun m => {| SatisfiedEntry.mortgage := Matched.mortgage m;
                        SatisfiedEntry.satisfaction := Matched.satisfaction m;
                        SatisfiedEntry.confidence := Matched.confidence m;
                        SatisfiedEntry.matchMethod := None;
                        SatisfiedEntry.matchReasons := Some (Matched.matchReasons m) |})
           (MatchResult.matches matchResults);
     MortgageAnalysis.unmatchedSatisfactions :=
       Some (MatchResult.unmatchedSatisfactions matchResults);
     MortgageAnalysis.scanData := Some scanResults |}.

(** [performTitleSearch] from the parsed documents on. *)
Definition titlePackage (scanDocuments : bool) (documents : list Document)
  : TitlePackage.t :=
  let grouped := groupByDocType documents in
  let chainOfTitle := buildChainOfTitle (grouped Deeds) in
  let nameBased := analyzeMortgages (grouped Mortgages) (grouped Satisfactions) in
  let scanResults :=
    if andb scanDocuments
            (orb (Nat.ltb 0 (List.length (grouped Mortgages)))
                 (Nat.ltb 0 (List.length (grouped Satisfactions))))
    then Some (batchExtractDocuments (grouped Mortgages ++ grouped Satisfactions))
    else None in
  let mortgageAnalysis :=
    match scanResults with
    | Some results => scannedAnalysis grouped results
    | None => nameBased
    end in
  let openLiens := identifyOpenLiens (grouped Liens) (grouped Releases) in
  let flags := identifyFlags documents in
  {| TitlePackage.scanned := scanDocuments;
     TitlePackage.documents := documents;
     TitlePackage.grouped := grouped;
     TitlePackage.chainOfTitle := chainOfTitle;
     TitlePackage.mortgageAnalysis := mortgageAnalysis;
     TitlePackage.openLiens := openLiens;
     TitlePackage.flags := flags;
     TitlePackage.scanResults := scanResults;
     TitlePackage.summary :=
       generateSummary documents chainOfTitle mortgageAnalysis openLiens flags |}.
End Pipeline.

(** ** Reading the documents of a batch ([extractTextFromDocument],
    [batchExtractDocuments]) *)

(** What [pdfParse] returns, as far as the code reads it. *)
Module PdfData.
Record t : Type := mk {
  text : string;
  numpages : nat
}.
End PdfData.

(** What [extractTextFromDocument] resolves to.  On failure the fields other
    than [success], [error] and [needsManualReview] are missing; they read as
    the empty string and [false]. *)
Module Extraction.
Record t : Type := mk {
  success : bool;
  text : string;
  numPages : nat;
  hasText : bool;
  usedOCR : bool;
  needsManualReview : bool;
  error : option string
}.
End Extraction.

Definition newline : string := String (ascii_of_nat 10) EmptyString.

(** [text && text.trim().length > 100] *)
Definition meaningful (text : string) : bool :=
  andb (negb (String.eqb text "")) (Nat.ltb 100 (String.length (Js.trim text))).

(** The loop [for (i = first; ...) text += pageText + '\n'] over [count]
    pages; the flag tells whether every page was read, that is whether the
    statement after the loop was reached. *)
Fixpoint ocrPages (ocr : nat -> Result string) (first count : nat) (text : string)
  : string * bool :=
  match count with
  | O => (text, true)
  | S rest =>
      match ocr first with
      | Ok pageText =>
          ocrPages ocr (S first) rest (text ++ pageText ++ newline)%string
      | Throw _ => (text, false)
      end
  end.

(** The [extraction] object attached to each document of the batch. *)
Definition ExtractionNote : Type := (bool * bool * bool * bool)%type.

Definition noteOf (extraction : Extraction.t) : ExtractionNote :=
  (Extraction.success extraction, Extraction.hasText extraction,
   Extraction.usedOCR extraction, Extraction.needsManualReview extraction).

(** [{ ...doc, extractedData: data }] *)
Definition withExtractedData (data : option ExtractedData) (doc : Document)
  : Document :=
  {| instrumentNumber := instrumentNumber doc;
     grantors := grantors doc;
     grantees := grantees doc;
     recordDate := recordDate doc;
     recordTimestamp := recordTimestamp doc;
     docType := docType doc;
     docTypeShort := docTypeShort doc;
     legalDescription := legalDescription doc;
     salesPrice := salesPrice doc;
     pageCount := pageCount doc;
     documentId := documentId doc;
     uuid := uuid doc;
     bookNum := bookNum doc;
     pageNum := pageNum doc;
     extractedData := data |}.

Module BatchResults.
Record t : Type := mk {
  scanned : nat;
  successful : nat;
  failed : nat;
  needsManualReview : nat;
  usedOCR : nat;
  documents : list (Document * ExtractionNote)
}.
End BatchResults.

Section Reader.
(** Downloading and parsing a PDF, and rendering and recognising one of its
    pages, are done by the host; either may fail. *)
Variable readPdf : JsVal -> Result PdfData.t.
Variable ocrPage : JsVal -> nat -> Result string.

Definition extractTextFromDocument (enableOCR : bool) (maxOCRPages : nat)
           (documentId : JsVal) : Extraction.t :=
  match readPdf documentId with
  | Throw message =>
      {| Extraction.success := false;
         Extraction.text := "";
         Extraction.numPages := 0;
         Extraction.hasText := false;
         Extraction.usedOCR := false;
         Extraction.needsManualReview := true;
         Extraction.error := Some message |}
  | Ok data =>
      let hasText := meaningful (PdfData.text data) in
      let '(text, usedOCR) :=
        if andb (negb hasText) enableOCR
        then ocrPages (ocrPage documentId) 1
                      (Nat.min (PdfData.numpages data) maxOCRPages) ""
        else (PdfData.text data, false) in
      let finalHasText := meaningful text in
      {| Extraction.success := true;
         Extraction.text := text;
         Extraction.numPages := PdfData.numpages data;
         Extraction.hasText := finalHasText;
         Extraction.usedOCR := usedOCR;
         Extraction.needsManualReview := negb finalHasText;
         Extraction.error := None |}
  end.

Variable reMatch : string -> string -> option (list (option string)).
Variable reMatchAll : string -> string -> list (list (option string)).
Variable parseFloat : string -> option Q.

(** The parser chosen by the short code; a document of any other kind keeps
    what it had. *)
Definition parseByType (doc : Document) (text : string) : option ExtractedData :=
  let docType := docTypeShort doc in
  if orb (String.eqb docType "MTG") (Js.includes docType "MTG")
  then Some (MortgageData (parseMortgageText reMatch reMatchAll parseFloat text))
  else if orb (String.eqb docType "SAT") (Js.includes docType "SAT")
  then Some (SatisfactionData (parseSatisfactionText reMatch parseFloat text))
  else if String.eqb docType "D"
  then Some (DeedData (parseDeedText reMatch parseFloat text))
  else extractedData doc.

(** One turn of the loop of [batchExtractDocuments].  Neither
    [extractTextFromDocument] nor a parser throws, so the [catch] branch, the
    only place that counts a failure, is never entered. *)
Definition batchStep (enableOCR : bool) (maxOCRPages : nat)
           (results : BatchResults.t) (doc : Document) : BatchResults.t :=
  let extraction := extractTextFromDocument enableOCR maxOCRPages (documentId doc) in
  let read := andb (Extraction.success extraction) (Extraction.hasText extraction) in
  let result :=
    if read
    then withExtractedData (parseByType doc (Extraction.text extraction)) doc
    else doc in
  {| BatchResults.scanned := S (BatchResults.scanned results);
     BatchResults.successful :=
       if read then S (BatchResults.successful results)
       else BatchResults.successful results;
     BatchResults.failed := BatchResults.failed results;
     BatchResults.needsManualReview :=
       if read then BatchResults.needsManualReview results
       else S (BatchResults.needsManualReview results);
     BatchResults.usedOCR :=
       if andb read (Extraction.usedOCR extraction)
       then S (BatchResults.usedOCR results)
       else BatchResults.usedOCR results;
     BatchResults.documents :=
       BatchResults.documents results ++ [(result, noteOf extraction)] |}.

Definition batchStart : BatchResults.t :=
  {| BatchResults.scanned := 0;
     BatchResults.successful := 0;
     BatchResults.failed := 0;
     BatchResults.needsManualReview := 0;
     BatchResults.usedOCR := 0;
     BatchResults.documents := [] |}.

Definition batchExtractDocuments (enableOCR : bool) (maxOCRPages : nat)
           (documents : list Document) : BatchResults.t :=
  fold_left (batchStep enableOCR maxOCRPages) documents batchStart.

(** The batch as [performTitleSearch] calls it, with the default options,
    seen through the fields the pipeline reads. *)
Definition scanBatch (documents : list Document) : ScanResults.t :=
  let results := batchExtractDocuments true 3 documents in
  {| ScanResults.scanned := BatchResults.scanned results;
     ScanResults.successful := BatchResults.successful results;
     ScanResults.failed := BatchResults.failed results;
     ScanResults.needsManualReview := BatchResults.needsManualReview results;
     ScanResults.usedOCR := BatchResults.usedOCR results;
     ScanResults.documents := map fst (BatchResults.documents results) |}.
End Reader.

(** ** Property appraiser lookups ([src/api/propertyAppraiser.js]) *)

Definition singleQuote : ascii := ascii_of_nat 39.
Definition doubleQuote : ascii := ascii_of_nat 34.

(** The [replace] call of [searchByAddress]: every single and every double
    quote character is removed. *)
Fixpoint dropQuotes (s : string) : string :=
  match s with
  | EmptyString => EmptyString
  | String c rest =>
      if orb (Ascii.eqb c singleQuote) (Ascii.eqb c doubleQuote)
      then dropQuotes rest
      else String c (dropQuotes rest)
  end.

Definition isDigit (c : ascii) : bool :=
  let n := nat_of_ascii c in andb (Nat.leb 48 n) (Nat.leb n 57).

(** [s.replace(/[^0-9]/g, '')] *)
Fixpoint keepDigits (s : string) : string :=
  match s with
  | EmptyString => EmptyString
  | String c rest =>
      if isDigit c then String c (keepDigits rest) else keepDigits rest
  end.

Definition cleanAddress (address : string) : string :=
  dropQuotes (Js.toUpperCase (Js.trim address)).

(** The [where] parameter that [searchByAddress] sends, or the error it
    throws before any request. *)
Definition addressWhereClause (address : string) : Result string :=
  if orb (String.eqb address "") (Nat.ltb (String.length (Js.trim address)) 3)
  then Throw "Address must be at least 3 characters"
  else Ok ("UPPER(SITEADD) LIKE " ++ String singleQuote "%"
             ++ cleanAddress address ++ "%" ++ String singleQuote "")%string.

(** The [where] parameter of [getParcelByFolio]. *)
Definition folioWhereClause (folio : string) : Result string :=
  if String.eqb folio ""
  then Throw "Folio number is required"
  else Ok ("FOLIONUM = " ++ String singleQuote (keepDigits folio)
             ++ String singleQuote "")%string.

(** [[...new Set(items)]] : the first occurrence of each string, in order. *)
Fixpoint distinct (seen items : list string) : list string :=
  match items with
  | [] => []
  | item :: rest =>
      if existsb (String.eqb item) seen then distinct seen rest
      else item :: distinct (seen ++ [item]) rest
  end.

(** [getOwnersByAddress] on the owner names of the parcels found. *)
Definition uniqueOwners (ownerNames : list string) : list string :=
  distinct []
    (filter (fun name =>
               andb (negb (String.eqb name ""))
                    (Nat.ltb 0 (String.length (Js.trim name))))
            ownerNames).

(** ** Names for the loops and parts of the functions above *)

(** The state [analyzeMortgages] starts from: the empty analysis and the
    pool [availableSats]. *)
Definition analysisStart (mortgages satisfactions : list Document)
  : MortgageAnalysis.t * list Document :=
  ({| MortgageAnalysis.total := List.length mortgages;
      MortgageAnalysis.satisfied := 0;
      MortgageAnalysis.open := [];
      MortgageAnalysis.satisfiedList := [];
      MortgageAnalysis.unmatchedSatisfactions := None;
      MortgageAnalysis.scanData := None |}, satisfactions).

(** [availableSats] when [analyzeMortgages] returns. *)
Definition remainingSatisfactions (mortgages satisfactions : list Document)
  : list Document :=
  snd (fold_left analyzeStep mortgages (analysisStart mortgages satisfactions)).

(** Whether [rel] discharges [lien]: recorded later and sharing a name. *)
Definition releases (lien rel : Document) : bool :=
  andb (recordTimestamp rel >? recordTimestamp lien)
       (existsb (fun lienName =>
                   existsb (fun relName => namesOverlap lienName relName)
                           (map Js.toLowerCase (grantors rel)))
                (map Js.toLowerCase (grantors lien))).

(** One turn of the loop of [identifyOpenLiens]. *)
Definition lienStep (acc : list Document * list Document) (lien : Document)
  : list Document * list Document :=
  let '(openLiens, availableReleases) := acc in
  match findRelease lien 0 availableReleases with
  | Some i => (openLiens, removeAt i availableReleases)
  | None => (openLiens ++ [lien], availableReleases)
  end.

(** [availableReleases] when [identifyOpenLiens] returns. *)
Definition remainingReleases (liens releasesFound : list Document) : list Document :=
  snd (fold_left lienStep liens ([], releasesFound)).

(** What one of the first three rules of [identifyFlags] adds to [flags]. *)
Definition highFlagPart (type : string) (describe : nat -> string)
           (found : list Document) : list Flag.t :=
  if Nat.ltb 0 (List.length found)
  then [ {| Flag.severity := "high";
            Flag.type := type;
            Flag.message := describe (List.length found);
            Flag.documents := found |} ]
  else [].

Definition lisPendensMessage (count : nat) : string :=
  ("Found " ++ Js.showNat count ++ " lis pendens (pending litigation)")%string.

Definition judgmentMessage (count : nat) : string :=
  ("Found " ++ Js.showNat count ++ " judgment(s)")%string.

Definition taxLienMessage (count : nat) : string :=
  ("Found " ++ Js.showNat count ++ " tax-related lien(s)")%string.

Definition hasCode (code : string) (d : Document) : bool :=
  String.eqb (docTypeShort d) code.

(** Whether every character of the string passes the test. *)
Fixpoint allChars (test : ascii -> bool) (s : string) : bool :=
  match s with
  | EmptyString => true
  | String c rest => andb (test c) (allChars test rest)
  end.

(** The four signals that come from extracted text. *)
Definition textSignals (v : Variant) (sat mtg : Document) : bool :=
  orb (orb (instrumentMatches v sat mtg) (bookPageMatches sat mtg))
      (orb (amountMatches sat mtg) (lenderMatches sat mtg)).

(** The evidence that outweighs the date penalty. *)
Definition strongSignals (v : Variant) (sat mtg : Document) : bool :=
  orb (orb (instrumentMatches v sat mtg) (bookPageMatches sat mtg))
      (andb (amountMatches sat mtg) (lenderMatches sat mtg)).

(** [score >= 90 ? 'high' : score >= 50 ? 'medium' : 'low'] *)
Definition matchConfidence (score : Z) : string :=
  if score >=? 90 then "high" else if score >=? 50 then "medium" else "low".

(** What holds of every entry the matcher reports, for satisfactions taken
    from [sats] and mortgages taken from [mtgs]. *)
Definition soundEntry (v : Variant) (sats mtgs : list Document)
           (entry : Matched.t) : Prop :=
  In (Matched.satisfaction entry) sats
  /\ In (Matched.mortgage entry) mtgs
  /\ Matched.score entry
     = pairScore v (Matched.satisfaction entry) (Matched.mortgage entry)
  /\ 30 <= Matched.score entry
  /\ Matched.confidence entry = matchConfidence (Matched.score entry)
  /\ Matched.matchReasons entry
     = snd (signalScore v (Matched.satisfaction entry) (Matched.mortgage entry)).

(** What the loop of [analyzeMortgages] keeps true, for the mortgages
    [processed] so far and the satisfactions [sats] it started with. *)
Definition analysisInvariant (processed sats : list Document)
           (state : MortgageAnalysis.t * list Document) : Prop :=
  let analysis := fst state in
  let pool := snd state in
  Permutation (map SatisfiedEntry.mortgage (MortgageAnalysis.satisfiedList analysis)
                 ++ MortgageAnalysis.open analysis)
              processed
  /\ Permutation (map SatisfiedEntry.satisfaction
                      (MortgageAnalysis.satisfiedList analysis) ++ pool)
                 sats
  /\ MortgageAnalysis.satisfied analysis
     = List.length (MortgageAnalysis.satisfiedList analysis)
  /\ Forall (fun entry =>
               SatisfiedEntry.confidence entry = "low"
               /\ SatisfiedEntry.matchMethod entry = Some "name"
               /\ 10 <= nameScore (SatisfiedEntry.mortgage entry)
                                  (SatisfiedEntry.satisfaction entry))
            (MortgageAnalysis.satisfiedList analysis)
  /\ Forall (fun m => Forall (fun s => nameScore m s < 10) pool)
            (MortgageAnalysis.open analysis).

(** What the loop of [identifyOpenLiens] keeps true. *)
Definition lienInvariant (processed found : list Document)
           (state : list Document * list Document) : Prop :=
  let openLiens := fst state in
  let pool := snd state in
  (List.length openLiens + List.length found
   = List.length processed + List.length pool)%nat
  /\ (List.length openLiens <= List.length processed)%nat
  /\ incl openLiens processed
  /\ incl pool found
  /\ Forall (fun lien => Forall (fun rel => releases lien rel = false) pool)
            openLiens.

(** What one turn of the loop of [batchExtractDocuments] pushes onto
    [results.documents]. *)
Definition scannedDocument
           (readPdf : JsVal -> Result PdfData.t)
           (ocrPage : JsVal -> nat -> Result string)
           (reMatch : string -> string -> option (list (option string)))
           (reMatchAll : string -> string -> list (list (option string)))
           (parseFloat : string -> option Q)
           (enableOCR : bool) (maxOCRPages : nat) (doc : Document)
  : Document * ExtractionNote :=
  let extraction :=
    extractTextFromDocument readPdf ocrPage enableOCR maxOCRPages (documentId doc) in
  (if andb (Extraction.success extraction) (Extraction.hasText extraction)
   then withExtractedData
          (parseByType reMatch reMatchAll parseFloat doc (Extraction.text extraction))
          doc
   else doc,
   noteOf extraction).

(** The fields of the note attached to a scanned document. *)
Definition noteSuccess (note : ExtractionNote) : bool := fst (fst (fst note)).
Definition noteHasText (note : ExtractionNote) : bool := snd (fst (fst note)).
Definition noteUsedOCR (note : ExtractionNote) : bool := snd (fst note).
Definition noteNeedsReview (note : ExtractionNote) : bool := snd note.

(** One when the test holds, zero otherwise: what [counter++] under an
    [if] adds. *)
Definition countIf (b : bool) : nat := if b then 1%nat else 0%nat.

(** A page reader that fails on every page, one that returns a fixed line,
    and a PDF reader that finds a short text layer on three pages. *)
Definition blankPage (documentId : JsVal) (page : nat) : Result string :=
  Throw "no text recognised".

Definition stampedPage (documentId : JsVal) (page : nat) : Result string :=
  if Nat.leb page 3 then Ok "SATISFACTION OF MORTGAGE" else Ok "APPENDIX".

Definition otherStampedPage (documentId : JsVal) (page : nat) : Result string :=
  if Nat.leb page 3 then Ok "SATISFACTION OF MORTGAGE" else Throw "unreadable".

Definition thinPdf (documentId : JsVal) : Result PdfData.t :=
  Ok {| PdfData.text := "scan"; PdfData.numpages := 5 |}.

(** A pattern engine that finds instrument number 2020123456 with the first
    satisfaction pattern and nothing else, a satisfaction text, and the
    satisfaction document that carries what the parser reads from it. *)
Definition citingEngine (pattern text : string) : option (list (option string)) :=
  if String.eqb pattern (nth 0 satisfiedInstrumentPatterns "")
  then Some [Some "INSTRUMENT NO. 2020123456"; Some "2020123456"]
  else None.

Definition citingText : string :=
  "Satisfaction of mortgage recorded as Instrument No. 2020123456, Hillsborough County".

Definition parsedSatisfaction : Document :=
  {| instrumentNumber := VStr "2021000003";
     grantors := ["SMITH JOHN"];
     grantees := [];
     recordDate := "";
     recordTimestamp := 4000;
     docType := DOC_TYPES.SATISFACTION;
     docTypeShort := "SAT";
     legalDescription := VUndefined;
     salesPrice := VUndefined;
     pageCount := VUndefined;
     documentId := VUndefined;
     uuid := VUndefined;
     bookNum := VUndefined;
     pageNum := VUndefined;
     extractedData :=
       Some (SatisfactionData
               (parseSatisfactionText citingEngine (fun _ => None) citingText)) |}.

(** ** Sample records *)

Module Sample.
Definition document (code label : string) (instrument : JsVal) (time : Z)
           (parties : list string) (data : option ExtractedData) : Document :=
  {| instrumentNumber := instrument;
     grantors := parties;
     grantees := [];
     recordDate := "";
     recordTimestamp := time;
     docType := label;
     docTypeShort := code;
     legalDescription := VUndefined;
     salesPrice := VUndefined;
     pageCount := VUndefined;
     documentId := VUndefined;
     uuid := VUndefined;
     bookNum := VUndefined;
     pageNum := VUndefined;
     extractedData := data |}.

Definition lenderOnly (name : string) : ExtractedData :=
  SatisfactionData
    {| SatisfactionInfo.satisfiedInstrumentNumber := None;
       SatisfactionInfo.satisfiedBookPage := None;
       SatisfactionInfo.originalLender := Some name;
       SatisfactionInfo.originalAmount := None;
       SatisfactionInfo.satisfiedDate := None;
       SatisfactionInfo.confidence := "medium" |}.

Definition instrumentOnly (number : string) : ExtractedData :=
  SatisfactionData
    {| SatisfactionInfo.satisfiedInstrumentNumber := Some number;
       SatisfactionInfo.satisfiedBookPage := None;
       SatisfactionInfo.originalLender := None;
       SatisfactionInfo.originalAmount := None;
       SatisfactionInfo.satisfiedDate := None;
       SatisfactionInfo.confidence := "medium" |}.

Definition lentBy (name : string) : ExtractedData :=
  MortgageData
    {| MortgageInfo.principalAmount := None;
       MortgageInfo.lenderName := Some name;
       MortgageInfo.instrumentReferences := [];
       MortgageInfo.isModification := false;
       MortgageInfo.isRefinance := false;
       MortgageInfo.maturityDate := None;
       MortgageInfo.interestRate := None;
       MortgageInfo.propertyAddress := None;
       MortgageInfo.confidence := "medium" |}.

(** A mortgage of John Smith with Wells Fargo, instrument 2020123456. *)
Definition mortgage : Document :=
  document "MTG" DOC_TYPES.MORTGAGE (VStr "2020123456") 1000 ["SMITH JOHN"]
           (Some (lentBy "WELLS FARGO BANK")).

(** A later satisfaction whose text gave the lender only. *)
Definition satisfactionByLender : Document :=
  document "SAT" DOC_TYPES.SATISFACTION (VStr "2021000001") 2000 ["SMITH JOHN"]
           (Some (lenderOnly "WELLS FARGO")).

(** A still later satisfaction whose text cites instrument 2020123456. *)
Definition satisfactionByNumber : Document :=
  document "SAT" DOC_TYPES.SATISFACTION (VStr "2021000002") 3000 ["SMITH JOHN"]
           (Some (instrumentOnly "2020123456")).

(** A satisfaction of another owner recorded under the instrument number
    of [satisfactionByLender]. *)
Definition satisfactionSameNumber : Document :=
  document "SAT" DOC_TYPES.SATISFACTION (VStr "2021000001") 3000 ["JONES MARY"]
           None.

(** Two satisfactions whose raw records had no [Instrument] field. *)
Definition unnumberedByLender : Document :=
  document "SAT" DOC_TYPES.SATISFACTION VUndefined 2000 ["SMITH JOHN"]
           (Some (lenderOnly "WELLS FARGO")).

Definition unnumberedOther : Document :=
  document "SAT" DOC_TYPES.SATISFACTION VUndefined 3000 ["JONES MARY"] None.

(** The same mortgage as the registry delivers it when [Instrument] is a
    number. *)
Definition numberedMortgage : Document :=
  document "MTG" DOC_TYPES.MORTGAGE (VNum 2020123456) 1000 ["SMITH JOHN"]
           (Some (lentBy "WELLS FARGO BANK")).

(** A second mortgage, of another owner. *)
Definition otherMortgage : Document :=
  document "MTG" DOC_TYPES.MORTGAGE (VStr "2019000777") 500 ["JONES MARY"] None.

Definition taxDeed : Document :=
  document "TAXDEED" DOC_TYPES.TAX_DEED (VStr "2018000042") 100 ["COUNTY CLERK"] None.

(** A raw record whose [DocType] is a number, and one that only has a
    label. *)
Definition rawWith (label : JsVal) : Raw.t :=
  {| Raw.Instrument := VUndefined;
     Raw.PartiesOne := VUndefined;
     Raw.PartiesTwo := VUndefined;
     Raw.RecordDate := VUndefined;
     Raw.DocType := label;
     Raw.Legal := VUndefined;
     Raw.SalesPrice := VUndefined;
     Raw.PageCount := VUndefined;
     Raw.ID := VUndefined;
     Raw.UUID := VUndefined;
     Raw.BookNum := VUndefined;
     Raw.PageNum := VUndefined |}.

Definition invalidDate (timestamp : JsVal) : string := "Invalid Date".

(** An extraction that read nothing. *)
Definition nothingScanned (documents : list Document) : ScanResults.t :=
  {| ScanResults.scanned := List.length documents;
     ScanResults.successful := 0;
     ScanResults.failed := 0;
     ScanResults.needsManualReview := List.length documents;
     ScanResults.usedOCR := 0;
     ScanResults.documents := documents |}.

(** A pattern engine that never matches. *)
Definition noMatch (pattern text : string) : option (list (option string)) := None.
Definition noMatches (pattern text : string) : list (list (option string)) := [].
Definition notANumber (text : string) : option Q := None.
End Sample.

(** * Properties *)

(** ** Facts about the stable sort *)

Section SortFacts.
Context {A : Type}.
Variable key : A -> Z.
Variable cmp : A -> A -> Z.
Hypothesis cmp_key : forall a b, cmp a b = key a - key b.

Lemma sortInsert_perm (x : A) (l : list A) :
  Permutation (sortInsert cmp x l) (x :: l).
Proof.
  induction l as [|y rest IH]; simpl.
  - apply Permutation_refl.
  - destruct (cmp x y <=? 0).
    + apply Permutation_refl.
    + apply perm_trans with (y :: x :: rest).
      * now apply perm_skip.
      * apply perm_swap.
Qed.

Lemma jsSort_perm (l : list A) : Permutation (jsSort cmp l) l.
Proof.
  induction l as [|x rest IH]; simpl.
  - apply perm_nil.
  - apply perm_trans with (x :: jsSort cmp rest).
    + apply sortInsert_perm.
    + now apply perm_skip.
Qed.

Lemma jsSort_length (l : list A) : List.length (jsSort cmp l) = List.length l.
Proof. apply Permutation_length, jsSort_perm. Qed.

Lemma sortInsert_sorted (x : A) (l : list A) :
  StronglySorted (fun a b => key a <= key b) l ->
  StronglySorted (fun a b => key a <= key b) (sortInsert cmp x l).
Proof.
  induction 1 as [|y rest Hrest IH Hy]; simpl.
  - constructor; constructor.
  - rewrite cmp_key.
    destruct (Z.leb_spec (key x - key y) 0) as [Hle|Hgt].
    + constructor.
      * now constructor.
      * constructor; [lia|].
        rewrite Forall_forall in *. intros z Hz. specialize (Hy z Hz). lia.
    + constructor; [exact IH|].
      rewrite Forall_forall in *. intros z Hz.
      apply (Permutation_in _ (sortInsert_perm x rest)) in Hz.
      destruct Hz as [<-|Hz]; [lia|now apply Hy].
Qed.

Lemma jsSort_sorted (l : list A) :
  StronglySorted (fun a b => key a <= key b) (jsSort cmp l).
Proof.
  induction l as [|x rest IH]; simpl.
  - constructor.
  - now apply sortInsert_sorted.
Qed.

(** Elements with one and the same key are never reordered. *)
Lemma sortInsert_stable (t : Z) (x : A) (l : list A) :
  filter (fun a => key a =? t) (sortInsert cmp x l)
  = filter (fun a => key a =? t) (x :: l).
Proof.
  induction l as [|y rest IH]; [reflexivity|].
  cbn [sortInsert]. rewrite cmp_key.
  destruct (Z.leb_spec (key x - key y) 0) as [Hle|Hgt]; [reflexivity|].
  cbn [filter] in *. rewrite IH.
  destruct (Z.eqb_spec (key x) t), (Z.eqb_spec (key y) t);
    try reflexivity; lia.
Qed.

Lemma jsSort_stable (t : Z) (l : list A) :
  filter (fun a => key a =? t) (jsSort cmp l) = filter (fun a => key a =? t) l.
Proof.
  induction l as [|x rest IH]; [reflexivity|].
  cbn [jsSort]. rewrite sortInsert_stable. cbn [filter]. now rewrite IH.
Qed.
End SortFacts.

Lemma oldestFirst_sorted (l : list Document) :
  StronglySorted (fun a b => recordTimestamp a <= recordTimestamp b)
                 (jsSort oldestFirst l).
Proof. apply (jsSort_sorted recordTimestamp oldestFirst); reflexivity. Qed.

Lemma oldestFirst_stable (t : Z) (l : list Document) :
  filter (fun d => recordTimestamp d =? t) (jsSort oldestFirst l)
  = filter (fun d => recordTimestamp d =? t) l.
Proof. apply (jsSort_stable recordTimestamp oldestFirst); reflexivity. Qed.

Lemma newestFirst_sorted (l : list Document) :
  StronglySorted (fun a b => recordTimestamp b <= recordTimestamp a)
                 (jsSort newestFirst l).
Proof.
  pose proof (jsSort_sorted (fun d => - recordTimestamp d) newestFirst) as H.
  eapply StronglySorted_ind with
    (P := StronglySorted (fun a b => recordTimestamp b <= recordTimestamp a));
    [constructor| |apply H; intros; unfold newestFirst; lia].
  intros a l0 _ IH Hall. constructor; [exact IH|].
  rewrite Forall_forall in *. intros z Hz. specialize (Hall z Hz). lia.
Qed.

Lemma newestFirst_stable (t : Z) (l : list Document) :
  filter (fun d => recordTimestamp d =? t) (jsSort newestFirst l)
  = filter (fun d => recordTimestamp d =? t) l.
Proof.
  pose proof (jsSort_stable (fun d => - recordTimestamp d) newestFirst) as H.
  assert (E : forall l0 : list Document,
             filter (fun d => recordTimestamp d =? t) l0
             = filter (fun d => - recordTimestamp d =? - t) l0).
  { intro l0. apply filter_ext. intro d.
    destruct (Z.eqb_spec (recordTimestamp d) t),
             (Z.eqb_spec (- recordTimestamp d) (- t)); try reflexivity; lia. }
  rewrite !E. apply H. intros; unfold newestFirst; lia.
Qed.

(** ** Classifier *)

Lemma Category_eqb_eq (a b : Category) : Category_eqb a b = true <-> a = b.
Proof.
  unfold Category_eqb. destruct (Category_eq_dec a b); split; congruence.
Qed.

Lemma push_fold (documents : list Document) (groups : Groups) (c : Category) :
  fold_left (fun g doc => push (categoryOf (docTypeShort doc)) doc g)
            documents groups c
  = groups c ++ filter (inBucket c) documents.
Proof.
  revert groups. induction documents as [|d rest IH]; intro groups; simpl.
  - now rewrite app_nil_r.
  - rewrite IH. unfold push, inBucket.
    destruct (Category_eqb c (categoryOf (docTypeShort d))).
    + now rewrite <- app_assoc.
    + reflexivity.
Qed.

Lemma groupByDocType_bucket (documents : list Document) (c : Category) :
  groupByDocType documents c = jsSort newestFirst (filter (inBucket c) documents).
Proof. unfold groupByDocType. now rewrite push_fold. Qed.

Lemma groupByDocType_In (documents : list Document) (c : Category) (d : Document) :
  In d (groupByDocType documents c)
  <-> In d documents /\ categoryOf (docTypeShort d) = c.
Proof.
  rewrite groupByDocType_bucket. split.
  - intro H. apply (Permutation_in _ (jsSort_perm newestFirst _)) in H.
    apply filter_In in H. destruct H as [H1 H2].
    apply Category_eqb_eq in H2. now split.
  - intros [H1 H2].
    apply (Permutation_in _ (Permutation_sym (jsSort_perm newestFirst _))).
    apply filter_In. split; [exact H1|]. now apply Category_eqb_eq.
Qed.

Lemma allCategories_NoDup : NoDup allCategories.
Proof.
  unfold allCategories.
  repeat (constructor; [simpl; intuition discriminate|]). constructor.
Qed.

Lemma allCategories_complete (c : Category) : In c allCategories.
Proof. destruct c; simpl; tauto. Qed.

Section Buckets.
Context {A : Type}.
Variable label : A -> Category.

Abbreviation bucket := (labelled label).

Lemma buckets_cons (a : A) (l : list A) (cats : list Category) :
  NoDup cats ->
  (In (label a) cats ->
   Permutation (flat_map (bucket (a :: l)) cats) (a :: flat_map (bucket l) cats))
  /\ (~ In (label a) cats ->
      flat_map (bucket (a :: l)) cats = flat_map (bucket l) cats).
Proof.
  induction 1 as [|c cats Hc Hnd [IHin IHout]]; split; simpl; try tauto.
  - intros [Heq|Hin]; unfold labelled at 1; simpl.
    + subst c. destruct (Category_eqb_eq (label a) (label a)) as [_ ->]; [|reflexivity].
      rewrite (IHout Hc). apply Permutation_refl.
    + destruct (Category_eqb c (label a)) eqn:E.
      * apply Category_eqb_eq in E. subst c. contradiction.
      * apply perm_trans with (bucket l c ++ a :: flat_map (bucket l) cats).
        -- apply Permutation_app_head. now apply IHin.
        -- apply Permutation_sym, Permutation_middle.
  - intro Hnot. unfold labelled at 1; simpl.
    destruct (Category_eqb c (label a)) eqn:E.
    + apply Category_eqb_eq in E. subst c. tauto.
    + rewrite IHout by tauto. reflexivity.
Qed.

Lemma buckets_cover (l : list A) :
  Permutation (flat_map (bucket l) allCategories) l.
Proof.
  induction l as [|a l IH].
  - apply Permutation_refl.
  - destruct (buckets_cons a l allCategories allCategories_NoDup) as [Hin _].
    apply perm_trans with (a :: flat_map (bucket l) allCategories).
    + apply Hin, allCategories_complete.
    + now apply perm_skip.
Qed.
End Buckets.

Lemma flat_map_perm {A B : Type} (f g : A -> list B) (l : list A) :
  (forall a, Permutation (f a) (g a)) ->
  Permutation (flat_map f l) (flat_map g l).
Proof.
  intro H. induction l as [|a l IH]; simpl.
  - apply perm_nil.
  - now apply Permutation_app.
Qed.

Lemma categoryOf_unlisted (code : string) :
  ~ In code (map fst codeTable) -> categoryOf code = Other.
Proof.
  intro H. unfold categoryOf, oneOf. simpl in *.
  repeat match goal with
         | |- context [String.eqb code ?lit] =>
             destruct (String.eqb_spec code lit) as [->|_]; [exfalso; tauto|]
         end.
  reflexivity.
Qed.

(** C5. Classification is total and exhaustive: a document sits in the
    bucket its [docTypeShort] selects through the fixed, case-sensitive table
    and in no other, codes outside the table go to [Other], and the buckets
    taken together are the input as a multiset. *)
Theorem groupByDocType_partitions (documents : list Document) :
  (forall c d, In d (groupByDocType documents c)
               <-> In d documents /\ categoryOf (docTypeShort d) = c)
  /\ (forall d, In d documents ->
                exists! c, In d (groupByDocType documents c))
  /\ Permutation (flat_map (groupByDocType documents) allCategories) documents
  /\ Forall (fun entry => categoryOf (fst entry) = snd entry) codeTable
  /\ (forall code, ~ In code (map fst codeTable) -> categoryOf code = Other)
  /\ categoryOf "d" = Other /\ categoryOf "Mtg" = Other /\ categoryOf "sat" = Other.
Proof.
  pose proof (groupByDocType_In documents) as Hin.
  split; [exact Hin|]. split; [|split; [|split; [|split]]].
  - intros d Hd. exists (categoryOf (docTypeShort d)). split.
    + now apply Hin.
    + intros c Hc. apply Hin in Hc. now destruct Hc.
  - apply perm_trans with
      (flat_map (fun c => filter (inBucket c) documents) allCategories).
    + apply flat_map_perm. intro c. rewrite groupByDocType_bucket.
      apply jsSort_perm.
    + apply (buckets_cover (fun d => categoryOf (docTypeShort d))).
  - unfold codeTable. repeat constructor.
  - exact categoryOf_unlisted.
  - repeat split.
Qed.

(** C6. Every bucket is in descending [recordTimestamp] order, and the
    documents of a bucket that share a timestamp stand in their input
    order. *)
Theorem groupByDocType_sorted_stable (documents : list Document) (c : Category) :
  StronglySorted (fun a b => recordTimestamp b <= recordTimestamp a)
                 (groupByDocType documents c)
  /\ forall t,
       filter (fun d => recordTimestamp d =? t) (groupByDocType documents c)
       = filter (fun d => recordTimestamp d =? t)
                (filter (inBucket c) documents).
Proof.
  rewrite groupByDocType_bucket. split.
  - apply newestFirst_sorted.
  - intro t. apply newestFirst_stable.
Qed.

(** ** Chain of title *)

Lemma mapIndexed_length {A B : Type} (f : nat -> A -> B) (start : nat) (l : list A) :
  List.length (mapIndexed f start l) = List.length l.
Proof.
  revert start. induction l as [|x rest IH]; intro start; simpl; [reflexivity|].
  now rewrite IH.
Qed.

Lemma mapIndexed_nth {A B : Type} (f : nat -> A -> B) (start : nat) (l : list A)
      (i : nat) (x : A) :
  nth_error l i = Some x ->
  nth_error (mapIndexed f start l) i = Some (f (start + i)%nat x).
Proof.
  revert start i. induction l as [|y rest IH]; intros start i H.
  - destruct i; discriminate.
  - destruct i as [|i]; simpl in *.
    + injection H as ->. now rewrite Nat.add_0_r.
    + rewrite (IH (S start) i H).
      now replace (S start + i)%nat with (start + S i)%nat by lia.
Qed.

Lemma chain_sequence (start : nat) (l : list Document) :
  map ChainEntry.sequence (mapIndexed chainEntry start l)
  = seq (start + 1) (List.length l).
Proof.
  revert start. induction l as [|d rest IH]; intro start; simpl; [reflexivity|].
  rewrite IH. reflexivity.
Qed.

Lemma buildChainOfTitle_unfold (deeds : list Document) :
  buildChainOfTitle deeds = mapIndexed chainEntry 0 (jsSort oldestFirst deeds).
Proof.
  unfold buildChainOfTitle. destruct deeds; reflexivity.
Qed.

(** C4. A bucket of N deeds gives N chain entries numbered 1..N, the
    entries being the deeds in ascending [recordTimestamp] order with deeds of
    equal timestamp in their input order; no deed gives the empty chain. *)
Theorem buildChainOfTitle_numbered (deeds : list Document) :
  List.length (buildChainOfTitle deeds) = List.length deeds
  /\ map ChainEntry.sequence (buildChainOfTitle deeds) = seq 1 (List.length deeds)
  /\ (exists sorted,
        Permutation sorted deeds
        /\ StronglySorted (fun a b => recordTimestamp a <= recordTimestamp b) sorted
        /\ (forall t, filter (fun d => recordTimestamp d =? t) sorted
                      = filter (fun d => recordTimestamp d =? t) deeds)
        /\ forall i deed,
             nth_error sorted i = Some deed ->
             nth_error (buildChainOfTitle deeds) i = Some (chainEntry i deed))
  /\ buildChainOfTitle [] = [].
Proof.
  rewrite buildChainOfTitle_unfold. repeat split.
  - now rewrite mapIndexed_length, jsSort_length.
  - now rewrite chain_sequence, jsSort_length.
  - exists (jsSort oldestFirst deeds). repeat split.
    + apply jsSort_perm.
    + apply oldestFirst_sorted.
    + intro t. apply oldestFirst_stable.
    + intros i deed H. now apply (mapIndexed_nth chainEntry 0).
Qed.

(** ** Flags and summary *)

Lemma filter_nonempty {A : Type} (p : A -> bool) (l : list A) :
  Nat.ltb 0 (List.length (filter p l)) = true <-> exists x, In x l /\ p x = true.
Proof.
  rewrite Nat.ltb_lt. split.
  - destruct (filter p l) as [|x rest] eqn:E; simpl; [lia|]. intros _.
    exists x. apply filter_In. rewrite E. now left.
  - intros [x Hx]. apply filter_In in Hx.
    destruct (filter p l); simpl; [contradiction|lia].
Qed.

Lemma nonempty_length {A : Type} (l : list A) :
  Nat.ltb 0 (List.length l) = true <-> l <> [].
Proof.
  rewrite Nat.ltb_lt. destruct l; simpl; split; intro H; try lia; congruence.
Qed.

(** Turns [b = true <-> P], once [b] is known, into [P] or [~ P]. *)
Ltac decide_flag H :=
  match type of H with
  | true = true <-> ?P =>
      let HP := fresh "Hyes" in
      assert (HP : P) by (apply H; reflexivity); clear H
  | false = true <-> ?P =>
      let HP := fresh "Hno" in
      assert (HP : ~ P) by (let h := fresh in intro h; apply H in h; discriminate h);
      clear H
  end.

Lemma riskLevel_high (documents : list Document) (chainOfTitle : list ChainEntry.t)
      (mortgageAnalysis : MortgageAnalysis.t) (openLiens : list Document)
      (flags : list Flag.t) :
  (exists f, In f flags /\ Flag.severity f = "high") ->
  Summary.riskLevel
    (generateSummary documents chainOfTitle mortgageAnalysis openLiens flags)
  = "HIGH".
Proof.
  intros [f [Hin Hsev]]. unfold generateSummary; simpl.
  destruct (Nat.ltb 0 _) eqn:E; [reflexivity|].
  assert (H : Nat.ltb 0 (List.length
                (filter (fun f => String.eqb (Flag.severity f) "high") flags)) = true).
  { apply filter_nonempty. exists f. split; [exact Hin|]. now apply String.eqb_eq. }
  congruence.
Qed.

(** C3, as the code has it. The risk level is HIGH exactly when some flag has
    severity high; otherwise it is MEDIUM exactly when some flag has severity
    medium, or a lien is open, or more than one mortgage is open, whether or
    not the documents were scanned; otherwise it is LOW.  Of the mortgage
    analysis only the list of open mortgages matters. *)
Theorem riskLevel_rule (documents : list Document) (chainOfTitle : list ChainEntry.t)
        (mortgageAnalysis : MortgageAnalysis.t) (openLiens : list Document)
        (flags : list Flag.t) :
  let level :=
    Summary.riskLevel
      (generateSummary documents chainOfTitle mortgageAnalysis openLiens flags) in
  let high := exists f, In f flags /\ Flag.severity f = "high" in
  let elevated :=
    (exists f, In f flags /\ Flag.severity f = "medium")
    \/ openLiens <> []
    \/ (1 < List.length (MortgageAnalysis.open mortgageAnalysis))%nat in
  (level = "HIGH" <-> high)
  /\ (level = "MEDIUM" <-> ~ high /\ elevated)
  /\ (level = "LOW" <-> ~ high /\ ~ elevated)
  /\ (forall other,
        MortgageAnalysis.open other = MortgageAnalysis.open mortgageAnalysis ->
        Summary.riskLevel
          (generateSummary documents chainOfTitle other openLiens flags) = level).
Proof.
  intros level high elevated.
  assert (Hmode : forall other,
             MortgageAnalysis.open other = MortgageAnalysis.open mortgageAnalysis ->
             Summary.riskLevel
               (generateSummary documents chainOfTitle other openLiens flags) = level).
  { intros other Hsame. unfold level, generateSummary. simpl. now rewrite Hsame. }
  cut ((level = "HIGH" <-> high)
       /\ (level = "MEDIUM" <-> ~ high /\ elevated)
       /\ (level = "LOW" <-> ~ high /\ ~ elevated)); [tauto|]. clear Hmode.
  assert (Hhigh : Nat.ltb 0 (List.length
             (filter (fun f => String.eqb (Flag.severity f) "high") flags)) = true
           <-> high).
  { rewrite filter_nonempty. unfold high.
    split; intros [f [H1 H2]]; exists f; split; auto; now apply String.eqb_eq. }
  assert (Hmed : Nat.ltb 0 (List.length
             (filter (fun f => String.eqb (Flag.severity f) "medium") flags)) = true
           <-> exists f, In f flags /\ Flag.severity f = "medium").
  { rewrite filter_nonempty.
    split; intros [f [H1 H2]]; exists f; split; auto; now apply String.eqb_eq. }
  pose proof (nonempty_length openLiens) as Hliens.
  assert (Hopen : Nat.ltb 1 (List.length (MortgageAnalysis.open mortgageAnalysis)) = true
                  <-> (1 < List.length (MortgageAnalysis.open mortgageAnalysis))%nat)
    by apply Nat.ltb_lt.
  unfold level, generateSummary, elevated; cbn [Summary.riskLevel].
  destruct (Nat.ltb 0 (List.length (filter (fun f => String.eqb (Flag.severity f) "high") flags)));
    destruct (Nat.ltb 0 (List.length (filter (fun f => String.eqb (Flag.severity f) "medium") flags)));
    destruct (Nat.ltb 0 (List.length openLiens));
    destruct (Nat.ltb 1 (List.length (MortgageAnalysis.open mortgageAnalysis)));
    decide_flag Hhigh; decide_flag Hmed; decide_flag Hliens; decide_flag Hopen;
    simpl; repeat split; intros; try discriminate; tauto.
Qed.

Lemma quick_flip_test (recentDeed previousDeed : Document) :
  Qltb (daysBetween recentDeed previousDeed) (inject_Z 90) = true
  <-> recordTimestamp recentDeed - recordTimestamp previousDeed < 90 * 86400.
Proof.
  unfold Qltb, daysBetween.
  set (gap := recordTimestamp recentDeed - recordTimestamp previousDeed).
  rewrite negb_true_iff.
  destruct (Qle_bool (inject_Z 90) (inject_Z gap / inject_Z 86400)) eqn:E.
  - apply Qle_bool_iff in E. unfold Qle, Qdiv, Qmult, Qinv, inject_Z in E.
    simpl in E. split; [discriminate|]. lia.
  - split; [intros _|reflexivity].
    assert (H : ~ (inject_Z 90 <= inject_Z gap / inject_Z 86400)%Q).
    { rewrite <- Qle_bool_iff. congruence. }
    unfold Qle, Qdiv, Qmult, Qinv, inject_Z in H. simpl in H. lia.
Qed.

(** The flags are the high-severity flags of the first three rules, followed
    by what the quick-flip rule adds. *)
Lemma identifyFlags_shape (documents : list Document) :
  exists pre,
    identifyFlags documents = pre ++ quickFlipPart documents
    /\ (forall f, In f pre ->
                  Flag.severity f = "high" /\ Flag.type f <> "quick_flip")
    /\ (forall d, In d documents -> isTaxLien d = true ->
                  exists f, In f pre /\ Flag.type f = "tax_lien"
                            /\ In d (Flag.documents f)).
Proof.
  unfold identifyFlags, quickFlipPart.
  set (lisPendens := filter (fun d => String.eqb (docTypeShort d) "LP") documents).
  set (judgments := filter (fun d => String.eqb (docTypeShort d) "JUD") documents).
  set (deeds := filter (fun d => String.eqb (docTypeShort d) "D") documents).
  set (tail := fun flags : list Flag.t =>
                 if Nat.leb 2 (List.length deeds)
                 then match jsSort newestFirst deeds with
                      | recentDeed :: previousDeed :: _ =>
                          if Qltb (daysBetween recentDeed previousDeed) (inject_Z 90)
                          then flags ++ [quickFlipFlag recentDeed previousDeed]
                          else flags
                      | _ => flags
                      end
                 else flags).
  assert (Htail : forall flags,
             tail flags
             = flags ++ (if Nat.leb 2 (List.length deeds)
                         then match jsSort newestFirst deeds with
                              | recentDeed :: previousDeed :: _ =>
                                  if Qltb (daysBetween recentDeed previousDeed) (inject_Z 90)
                                  then [quickFlipFlag recentDeed previousDeed]
                                  else []
                              | _ => []
                              end
                         else [])).
  { intro flags. unfold tail.
    destruct (Nat.leb 2 (List.length deeds)); [|now rewrite app_nil_r].
    destruct (jsSort newestFirst deeds) as [|r [|p rest]];
      try now rewrite app_nil_r.
    destruct (Qltb _ _); [reflexivity|now rewrite app_nil_r]. }
  destruct (Nat.ltb 0 (List.length (filter isTaxLien documents))) eqn:Etax.
  - destruct (Nat.ltb 0 (List.length lisPendens));
      destruct (Nat.ltb 0 (List.length judgments)); cbn [app];
      (eexists; split; [apply Htail|]; split;
       [ intros f Hf; simpl in Hf;
         repeat (destruct Hf as [<-|Hf]; [split; [reflexivity|discriminate]|]);
         contradiction
       | intros d Hd Ht;
         exists {| Flag.severity := "high";
                   Flag.type := "tax_lien";
                   Flag.message :=
                     ("Found "
                        ++ Js.showNat (List.length (filter isTaxLien documents))
                        ++ " tax-related lien(s)")%string;
                   Flag.documents := filter isTaxLien documents |};
         split; [simpl; intuition|split; [reflexivity|]];
         apply filter_In; split; [exact Hd|exact Ht] ]).
  - destruct (Nat.ltb 0 (List.length lisPendens));
      destruct (Nat.ltb 0 (List.length judgments)); cbn [app];
      (eexists; split; [apply Htail|]; split;
       [ intros f Hf; simpl in Hf;
         repeat (destruct Hf as [<-|Hf]; [split; [reflexivity|discriminate]|]);
         contradiction
       | intros d Hd Ht; exfalso;
         assert (Hne : Nat.ltb 0 (List.length (filter isTaxLien documents)) = true)
           by (apply filter_nonempty; exists d; split; assumption);
         congruence ]).
Qed.

Lemma quickFlipPart_spec (documents : list Document) (f : Flag.t) :
  let deeds := filter (fun d => String.eqb (docTypeShort d) "D") documents in
  In f (quickFlipPart documents)
  <-> exists recentDeed previousDeed rest,
        jsSort newestFirst deeds = recentDeed :: previousDeed :: rest
        /\ recordTimestamp recentDeed - recordTimestamp previousDeed < 90 * 86400
        /\ f = quickFlipFlag recentDeed previousDeed.
Proof.
  intro deeds. unfold quickFlipPart. fold deeds.
  pose proof (jsSort_length newestFirst deeds) as Hlen.
  destruct (Nat.leb_spec 2 (List.length deeds)) as [Hge|Hlt].
  - destruct (jsSort newestFirst deeds) as [|r [|p rest]] eqn:E.
    + split; [contradiction|]. intros (r & p & rest & H & _). discriminate.
    + split; [contradiction|]. intros (r' & p & rest & H & _). discriminate.
    + destruct (Qltb (daysBetween r p) (inject_Z 90)) eqn:Q.
      * apply quick_flip_test in Q. split.
        -- intros [<-|[]]. now exists r, p, rest.
        -- intros (r' & p' & rest' & H & _ & ->). injection H as <- <- _.
           now left.
      * split; [contradiction|].
        intros (r' & p' & rest' & H & Hgap & _). injection H as <- <- _.
        apply quick_flip_test in Hgap. congruence.
  - split; [contradiction|].
    intros (r & p & rest & H & _). rewrite H in Hlen. simpl in Hlen. lia.
Qed.

Lemma identifyFlags_quick_flip (documents : list Document) (f : Flag.t) :
  In f (identifyFlags documents) /\ Flag.type f = "quick_flip"
  <-> In f (quickFlipPart documents).
Proof.
  destruct (identifyFlags_shape documents) as (pre & -> & Hpre & _). split.
  - intros [Hin Hty]. apply in_app_or in Hin. destruct Hin as [Hin|Hin]; [|exact Hin].
    destruct (Hpre f Hin) as [_ Hne]. contradiction.
  - intro Hin. split; [apply in_or_app; now right|].
    apply (quickFlipPart_spec documents f) in Hin.
    destruct Hin as (r & p & rest & _ & _ & ->). reflexivity.
Qed.

(** [Math.round] gives the integer nearest to its argument, the upper one
    when two are equally near. *)
Lemma mathRound_nearest (x : Q) :
  (inject_Z (mathRound x) - (1 # 2) <= x /\ x < inject_Z (mathRound x) + (1 # 2))%Q.
Proof.
  unfold mathRound.
  pose proof (Qfloor_le (x + (1 # 2))) as Hlow.
  pose proof (Qlt_floor (x + (1 # 2))) as Hhigh.
  rewrite inject_Z_plus in Hhigh. change (inject_Z 1) with 1%Q in Hhigh.
  split; lra.
Qed.

(** The same for a gap in seconds counted in days, without fractions. *)
Lemma mathRound_days (gap : Z) :
  let days := mathRound (inject_Z gap / inject_Z 86400) in
  86400 * (2 * days - 1) <= 2 * gap < 86400 * (2 * days + 1).
Proof.
  intro days.
  destruct (mathRound_nearest (inject_Z gap / inject_Z 86400)) as [Hlow Hhigh].
  fold days in Hlow, Hhigh.
  assert (Hgap : (inject_Z gap / inject_Z 86400 == gap # 86400)%Q).
  { unfold Qeq, Qdiv, Qmult, Qinv, inject_Z. simpl. lia. }
  rewrite Hgap in Hlow, Hhigh.
  unfold Qle, Qminus, Qplus, Qopp, inject_Z in Hlow. simpl in Hlow.
  unfold Qlt, Qplus, inject_Z in Hhigh. simpl in Hhigh.
  lia.
Qed.

(** C7. The quick-flip flag is raised exactly when there are at least two
    documents with code D and the two newest of them lie strictly less than
    90 days apart; at exactly 90 days it is not raised; a raised flag has
    severity medium, carries the two deeds and states the rounded number of
    days: the integer nearest to the gap in seconds divided by 86400, the
    upper one when the gap lies half-way between two, which is between 0
    and 90. *)
Theorem quick_flip_rule (documents : list Document) :
  let deeds := filter (fun d => String.eqb (docTypeShort d) "D") documents in
  let newest := jsSort newestFirst deeds in
  let raised := exists f, In f (identifyFlags documents) /\ Flag.type f = "quick_flip" in
  Permutation newest deeds
  /\ StronglySorted (fun a b => recordTimestamp b <= recordTimestamp a) newest
  /\ (raised <->
      (2 <= List.length deeds)%nat
      /\ exists recentDeed previousDeed rest,
           newest = recentDeed :: previousDeed :: rest
           /\ recordTimestamp recentDeed - recordTimestamp previousDeed < 90 * 86400)
  /\ (forall recentDeed previousDeed rest,
        newest = recentDeed :: previousDeed :: rest ->
        recordTimestamp recentDeed - recordTimestamp previousDeed = 90 * 86400 ->
        ~ raised)
  /\ (forall f, In f (identifyFlags documents) -> Flag.type f = "quick_flip" ->
        exists recentDeed previousDeed rest days,
          newest = recentDeed :: previousDeed :: rest
          /\ Flag.severity f = "medium"
          /\ Flag.documents f = [recentDeed; previousDeed]
          /\ Flag.message f
             = ("Property sold twice within " ++ Js.showZ days ++ " days")%string
          /\ 86400 * (2 * days - 1)
             <= 2 * (recordTimestamp recentDeed - recordTimestamp previousDeed)
             < 86400 * (2 * days + 1)
          /\ 0 <= recordTimestamp recentDeed - recordTimestamp previousDeed
          /\ 0 <= days <= 90).
Proof.
  intros deeds newest raised.
  assert (Hraised : raised <->
            exists recentDeed previousDeed rest,
              newest = recentDeed :: previousDeed :: rest
              /\ recordTimestamp recentDeed - recordTimestamp previousDeed < 90 * 86400).
  { unfold raised. split.
    - intros (f & Hin & Hty).
      assert (H : In f (quickFlipPart documents))
        by (apply identifyFlags_quick_flip; now split).
      apply (quickFlipPart_spec documents f) in H.
      destruct H as (r & p & rest & H1 & H2 & _). now exists r, p, rest.
    - intros (r & p & rest & H1 & H2).
      exists (quickFlipFlag r p). apply identifyFlags_quick_flip.
      apply (quickFlipPart_spec documents). now exists r, p, rest. }
  split; [apply jsSort_perm|]. split; [apply newestFirst_sorted|].
  split; [|split].
  - rewrite Hraised. split.
    + intros (r & p & rest & H1 & H2). split; [|now exists r, p, rest].
      rewrite <- (jsSort_length newestFirst deeds). fold newest. rewrite H1.
      simpl. lia.
    + intros [_ H]. exact H.
  - intros r p rest H1 Hgap Hr. apply Hraised in Hr.
    destruct Hr as (r' & p' & rest' & H1' & H2). rewrite H1 in H1'.
    injection H1' as <- <- _. lia.
  - intros f Hin Hty.
    assert (H : In f (quickFlipPart documents))
      by (apply identifyFlags_quick_flip; now split).
    apply (quickFlipPart_spec documents f) in H.
    destruct H as (r & p & rest & H1 & Hgap & ->).
    pose proof (mathRound_days (recordTimestamp r - recordTimestamp p)) as Hdays.
    cbv zeta in Hdays.
    assert (Horder : 0 <= recordTimestamp r - recordTimestamp p).
    { assert (Hsorted : StronglySorted
                          (fun a b => recordTimestamp b <= recordTimestamp a)
                          (r :: p :: rest))
        by (rewrite <- H1; apply newestFirst_sorted).
      inversion Hsorted as [|? ? _ Hall]. subst.
      inversion Hall as [|? ? Hle _]. subst. lia. }
    exists r, p, rest,
      (mathRound (inject_Z (recordTimestamp r - recordTimestamp p) / inject_Z 86400)).
    split; [exact H1|]. split; [reflexivity|]. split; [reflexivity|].
    split; [reflexivity|]. split; [exact Hdays|]. split; [exact Horder|]. lia.
Qed.

(** C10. A document whose [docType] label contains TAX makes the flag
    engine raise a high-severity [tax_lien] flag that lists it, and the
    summary's risk level is then HIGH whatever the other inputs are.  The tax
    deed label belongs to the default search set, its code TAXDEED is not in
    the classifier's table, so such a document is put in [Other], not in
    [Deeds]. *)
Theorem tax_label_forces_high (documents : list Document) (d : Document) :
  In d documents ->
  Js.includes (docType d) "TAX" = true ->
  (exists f, In f (identifyFlags documents)
             /\ Flag.severity f = "high" /\ Flag.type f = "tax_lien"
             /\ In d (Flag.documents f))
  /\ (forall chainOfTitle mortgageAnalysis openLiens,
        Summary.riskLevel
          (generateSummary documents chainOfTitle mortgageAnalysis openLiens
                           (identifyFlags documents)) = "HIGH")
  /\ In DOC_TYPES.TAX_DEED TITLE_DOC_TYPES
  /\ Js.includes DOC_TYPES.TAX_DEED "TAX" = true
  /\ shortCode DOC_TYPES.TAX_DEED = "TAXDEED"
  /\ ~ In "TAXDEED" (map fst codeTable)
  /\ (docTypeShort d = "TAXDEED" ->
      In d (groupByDocType documents Other)
      /\ ~ In d (groupByDocType documents Deeds)).
Proof.
  intros Hin Htax.
  assert (Hflag : exists f, In f (identifyFlags documents)
                            /\ Flag.severity f = "high" /\ Flag.type f = "tax_lien"
                            /\ In d (Flag.documents f)).
  { destruct (identifyFlags_shape documents) as (pre & -> & Hpre & Hlien).
    destruct (Hlien d Hin) as (f & Hf & Hty & Hd).
    - unfold isTaxLien. rewrite Htax. apply orb_true_r.
    - exists f. split; [apply in_or_app; now left|].
      destruct (Hpre f Hf) as [Hsev _]. now repeat split. }
  split; [exact Hflag|]. split; [|repeat split].
  - intros chainOfTitle mortgageAnalysis openLiens. apply riskLevel_high.
    destruct Hflag as (f & Hf & Hsev & _). now exists f.
  - simpl. tauto.
  - simpl. intuition discriminate.
  - apply groupByDocType_In. split; [exact Hin|]. now rewrite H.
  - intro Hd. apply groupByDocType_In in Hd. destruct Hd as [_ Hd].
    rewrite H in Hd. discriminate.
Qed.

(** ** Record normaliser *)

Lemma untilClose_closed (captured rest : string) :
  Js.hasChar ")" captured = false ->
  untilClose (captured ++ String ")" rest) = Some captured.
Proof.
  induction captured as [|c captured IH]; simpl; [reflexivity|].
  intro H. apply orb_false_iff in H. destruct H as [Hc Hrest].
  rewrite Hc, (IH Hrest). reflexivity.
Qed.

Lemma untilClose_sound (s captured : string) :
  untilClose s = Some captured ->
  Js.hasChar ")" captured = false
  /\ exists rest, s = (captured ++ String ")" rest)%string.
Proof.
  revert captured. induction s as [|c s IH]; intros captured H; simpl in H.
  - discriminate.
  - destruct (Ascii.eqb_spec c ")") as [->|Hc].
    + injection H as <-. split; [reflexivity|]. now exists s.
    + destruct (untilClose s) as [inner|]; [|discriminate].
      injection H as <-. destruct (IH inner eq_refl) as [Hno [rest ->]].
      split.
      * simpl. rewrite Hno. destruct (Ascii.eqb_spec c ")"); [contradiction|reflexivity].
      * now exists rest.
Qed.

Lemma untilClose_unclosed (s : string) :
  Js.hasChar ")" s = false -> untilClose s = None.
Proof.
  induction s as [|c s IH]; simpl; [reflexivity|].
  intro H. apply orb_false_iff in H. destruct H as [Hc Hs].
  rewrite Hc, (IH Hs). reflexivity.
Qed.

Lemma firstParenthesized_leftmost (before captured rest : string) :
  Js.hasChar "(" before = false ->
  captured <> "" ->
  Js.hasChar ")" captured = false ->
  firstParenthesized (before ++ String "(" (captured ++ String ")" rest))
  = Some captured.
Proof.
  intros Hbefore Hne Hcap. induction before as [|c before IH]; simpl.
  - rewrite (untilClose_closed captured rest Hcap).
    destruct captured; [congruence|reflexivity].
  - simpl in Hbefore. apply orb_false_iff in Hbefore.
    destruct Hbefore as [Hc Hb]. rewrite Hc. now apply IH.
Qed.

Lemma firstParenthesized_sound (s captured : string) :
  firstParenthesized s = Some captured ->
  captured <> "" /\ Js.hasChar ")" captured = false
  /\ exists before rest,
       s = (before ++ String "(" (captured ++ String ")" rest))%string.
Proof.
  induction s as [|c s IH]; simpl; [discriminate|].
  intro H.
  assert (Hrec : firstParenthesized s = Some captured ->
                 captured <> "" /\ Js.hasChar ")" captured = false
                 /\ exists before rest,
                      String c s
                      = (before ++ String "(" (captured ++ String ")" rest))%string).
  { intro H'. destruct (IH H') as (H1 & H2 & before & rest & ->).
    split; [exact H1|]. split; [exact H2|]. now exists (String c before), rest. }
  destruct (Ascii.eqb_spec c "(") as [->|Hc]; [|now apply Hrec].
  destruct (untilClose s) as [[|c0 inner]|] eqn:E; try now apply Hrec.
  injection H as <-. destruct (untilClose_sound _ _ E) as [Hno [rest ->]].
  split; [discriminate|]. split; [exact Hno|]. now exists "", rest.
Qed.

Lemma firstParenthesized_absent (s : string) :
  Js.hasChar "(" s = false \/ Js.hasChar ")" s = false ->
  firstParenthesized s = None.
Proof.
  induction s as [|c s IH]; simpl; [reflexivity|].
  intros [H|H]; apply orb_false_iff in H; destruct H as [Hc Hs].
  - rewrite Hc. apply IH. now left.
  - destruct (Ascii.eqb c "("); [|apply IH; now right].
    rewrite (untilClose_unclosed s Hs). apply IH. now right.
Qed.

(** C9, as the code has it. For a raw record whose [DocType] is missing or
    a string, [parseRecord] returns a document: a missing party list becomes
    the empty list, the other fields are handed on as they are, so a missing
    number stays absent, and [docTypeShort] is the first parenthesised part of
    the label, or the label itself when it has none. *)
Theorem parseRecord_on_labels (formatDate : JsVal -> string) (record : Raw.t) :
  nullish (Raw.DocType record) = true
  \/ (exists label, Raw.DocType record = VStr label) ->
  exists doc,
    parseRecord formatDate record = Ok doc
    /\ (truthy (Raw.PartiesOne record) = false -> Parsed.grantors doc = VArr [])
    /\ (truthy (Raw.PartiesOne record) = true ->
        Parsed.grantors doc = Raw.PartiesOne record)
    /\ (truthy (Raw.PartiesTwo record) = false -> Parsed.grantees doc = VArr [])
    /\ (truthy (Raw.PartiesTwo record) = true ->
        Parsed.grantees doc = Raw.PartiesTwo record)
    /\ Parsed.recordTimestamp doc = Raw.RecordDate record
    /\ Parsed.salesPrice doc = Raw.SalesPrice record
    /\ Parsed.pageCount doc = Raw.PageCount record
    /\ (nullish (Raw.SalesPrice record) = true ->
        nullish (Parsed.salesPrice doc) = true)
    /\ (nullish (Raw.PageCount record) = true ->
        nullish (Parsed.pageCount doc) = true)
    /\ (nullish (Raw.DocType record) = true ->
        Parsed.docTypeShort doc = Raw.DocType record)
    /\ (forall label, Raw.DocType record = VStr label ->
        Parsed.docTypeShort doc = VStr (shortCode label)
        /\ (forall before captured rest,
              label = (before ++ String "(" (captured ++ String ")" rest))%string ->
              Js.hasChar "(" before = false ->
              captured <> "" ->
              Js.hasChar ")" captured = false ->
              Parsed.docTypeShort doc = VStr captured)
        /\ (Js.hasChar "(" label = false \/ Js.hasChar ")" label = false ->
            Parsed.docTypeShort doc = VStr label)).
Proof.
  intro Hlabel.
  assert (Hshort : exists short,
             deriveDocTypeShort (Raw.DocType record) = Ok short
             /\ (nullish (Raw.DocType record) = true -> short = Raw.DocType record)
             /\ (forall label, Raw.DocType record = VStr label ->
                               short = VStr (shortCode label))).
  { destruct Hlabel as [Hnull|[label Hstr]].
    - destruct (Raw.DocType record); try discriminate;
        (eexists; split; [reflexivity|]; split; [reflexivity|]; intros; discriminate).
    - rewrite Hstr. unfold deriveDocTypeShort, shortCode.
      destruct (firstParenthesized label) as [captured|] eqn:E.
      + destruct (firstParenthesized_sound _ _ E) as [Hne _].
        exists (VStr captured). split.
        * unfold jsOr; simpl. destruct (String.eqb_spec captured ""); [contradiction|].
          reflexivity.
        * split; [discriminate|]. intros l Hl. injection Hl as <-. now rewrite E.
      + exists (VStr label). split; [reflexivity|].
        split; [discriminate|]. intros l Hl. injection Hl as <-. now rewrite E. }
  destruct Hshort as (short & Hderive & Hnull & Hstr).
  unfold parseRecord. rewrite Hderive. eexists. split; [reflexivity|]. simpl.
  unfold jsOr.
  repeat split; try (intro H; rewrite H; reflexivity); try (intro H; exact H).
  - exact Hnull.
  - now apply Hstr.
  - intros before captured rest Hl Hb Hne Hc. rewrite (Hstr label H).
    unfold shortCode. rewrite Hl.
    now rewrite (firstParenthesized_leftmost before captured rest Hb Hne Hc).
  - intro Habs. rewrite (Hstr label H). unfold shortCode.
    now rewrite (firstParenthesized_absent label Habs).
Qed.

(** ** Text-signal extractor *)

Lemma trimStart_length (s : string) :
  (String.length (Js.trimStart s) <= String.length s)%nat.
Proof.
  induction s as [|c s IH]; simpl; [lia|].
  destruct (Js.isSpace c); simpl; lia.
Qed.

Lemma trimEnd_length (s : string) :
  (String.length (Js.trimEnd s) <= String.length s)%nat.
Proof.
  induction s as [|c s IH]; simpl; [lia|].
  destruct (Js.trimEnd s) as [|d kept]; simpl in *.
  - destruct (Js.isSpace c); simpl; lia.
  - lia.
Qed.

Lemma trim_length (s : string) :
  (String.length (Js.trim s) <= String.length s)%nat.
Proof.
  unfold Js.trim.
  pose proof (trimEnd_length (Js.trimStart s)). pose proof (trimStart_length s). lia.
Qed.

Lemma short_is_tooShort (text : string) :
  (String.length text < 50)%nat -> tooShort text = true.
Proof.
  intro H. unfold tooShort. apply orb_true_iff. right.
  apply Nat.ltb_lt. pose proof (trim_length text). lia.
Qed.

(** C8. For a text of fewer than 50 characters each of the three parsers
    returns its initial record, whatever the pattern engine would answer:
    every scalar field is null, the list fields are empty, the two flags are
    false and the confidence is low. *)
Theorem short_text_extracts_nothing
        (reMatch : string -> string -> option (list (option string)))
        (reMatchAll : string -> string -> list (list (option string)))
        (parseFloat : string -> option Q) (text : string) :
  (String.length text < 50)%nat ->
  parseMortgageText reMatch reMatchAll parseFloat text
  = {| MortgageInfo.principalAmount := None;
       MortgageInfo.lenderName := None;
       MortgageInfo.instrumentReferences := [];
       MortgageInfo.isModification := false;
       MortgageInfo.isRefinance := false;
       MortgageInfo.maturityDate := None;
       MortgageInfo.interestRate := None;
       MortgageInfo.propertyAddress := None;
       MortgageInfo.confidence := "low" |}
  /\ parseDeedText reMatch parseFloat text
     = {| DeedInfo.consideration := None;
          DeedInfo.legalDescription := None;
          DeedInfo.propertyAddress := None;
          DeedInfo.deedType := None;
          DeedInfo.grantors := [];
          DeedInfo.grantees := [];
          DeedInfo.confidence := "low" |}
  /\ parseSatisfactionText reMatch parseFloat text
     = {| SatisfactionInfo.satisfiedInstrumentNumber := None;
          SatisfactionInfo.satisfiedBookPage := None;
          SatisfactionInfo.originalLender := None;
          SatisfactionInfo.originalAmount := None;
          SatisfactionInfo.satisfiedDate := None;
          SatisfactionInfo.confidence := "low" |}.
Proof.
  intro H. apply short_is_tooShort in H.
  unfold parseMortgageText, parseDeedText, parseSatisfactionText.
  rewrite H. repeat split.
Qed.

(** ** Multi-signal matcher *)

Lemma signal_grows (fires : bool) (weight : Z) (reason : string)
      (acc : Z * list string) :
  0 <= weight ->
  fst acc <= fst (signal fires weight reason acc)
  /\ fst (signal fires weight reason acc) <= fst acc + weight.
Proof. intro H. unfold signal. destruct fires; simpl; lia. Qed.

Lemma signal_fired (weight : Z) (reason : string) (acc : Z * list string) :
  fst (signal true weight reason acc) = fst acc + weight.
Proof. reflexivity. Qed.

Lemma signalScore_bounds (v : Variant) (sat mtg : Document) :
  (instrumentMatches v sat mtg = true -> 100 <= fst (signalScore v sat mtg))
  /\ (instrumentMatches v sat mtg = false -> bookPageMatches sat mtg = false ->
      fst (signalScore v sat mtg) <= 60).
Proof.
  unfold signalScore, signal.
  destruct (instrumentMatches v sat mtg), (bookPageMatches sat mtg),
    (amountMatches sat mtg), (lenderMatches sat mtg), (grantorMatches sat mtg);
    simpl; split; intros; try discriminate; lia.
Qed.

Lemma dateAdjust_bounds (sat mtg : Document) (score : Z) :
  score - 20 <= dateAdjust sat mtg score <= score + 5.
Proof.
  unfold dateAdjust. destruct (recordTimestamp sat >? recordTimestamp mtg); lia.
Qed.

Lemma instrumentMatches_equal (v : Variant) (sat mtg : Document) (wanted : string) :
  satisfactionField SatisfactionInfo.satisfiedInstrumentNumber sat = Some wanted ->
  wanted <> "" ->
  instrumentNumber mtg = VStr wanted
  \/ (v = NodeExtractor
      /\ exists n, n <> 0 /\ Z.abs n <= Js.maxSafeInteger
                   /\ instrumentNumber mtg = VNum n /\ Js.showZ n = wanted) ->
  instrumentMatches v sat mtg = true.
Proof.
  intros Hsat Hne Hmtg. unfold instrumentMatches. rewrite Hsat.
  destruct (String.eqb_spec wanted "") as [Hempty|_]; [contradiction|]. simpl.
  destruct Hmtg as [Hmtg|(-> & z & Hz & _ & Hmtg & Hshow)]; rewrite Hmtg; simpl.
  - destruct (String.eqb_spec wanted "") as [Hempty|_]; [contradiction|]. simpl.
    destruct v.
    + apply String.eqb_refl.
    + unfold sameValue. destruct (JsVal_eq_dec (VStr wanted) (VStr wanted)); congruence.
  - destruct (Z.eqb_spec z 0) as [Hzero|_]; [contradiction|]. simpl.
    rewrite Hshow. apply String.eqb_refl.
Qed.

Lemma bookPageMatches_absent (sat mtg : Document) :
  satisfactionField SatisfactionInfo.satisfiedBookPage sat = None ->
  bookPageMatches sat mtg = false.
Proof. intro H. unfold bookPageMatches. now rewrite H. Qed.

(** The inner loop returns the first position that reaches the highest score
    above the starting score, or leaves the starting pair untouched. *)
Lemma scanMortgages_spec (v : Variant) (sat : Document) (pool : list Document) :
  forall i bestMatch bestScore found foundScore,
    scanMortgages v sat i pool bestMatch bestScore = (found, foundScore) ->
    bestScore <= foundScore
    /\ Forall (fun m => pairScore v sat m <= foundScore) pool
    /\ ((found = bestMatch /\ foundScore = bestScore)
        \/ exists k m,
             nth_error pool k = Some m
             /\ found = Some {| BestMatch.mortgage := m;
                                BestMatch.index := (i + k)%nat;
                                BestMatch.matchReasons := snd (signalScore v sat m) |}
             /\ foundScore = pairScore v sat m
             /\ bestScore < foundScore
             /\ forall j m', (j < k)%nat -> nth_error pool j = Some m' ->
                             pairScore v sat m' < foundScore).
Proof.
  induction pool as [|mtg rest IH]; intros i bestMatch bestScore found foundScore H;
    simpl in H.
  - injection H as <- <-. split; [lia|]. split; [constructor|]. now left.
  - destruct (Z.gtb_spec (pairScore v sat mtg) bestScore) as [Hgt|Hle];
      apply IH in H; destruct H as (Hmono & Hall & Hcase).
    + split; [lia|]. split; [constructor; [lia|exact Hall]|]. right.
      destruct Hcase as [[-> ->]|(k & m & Hk & -> & -> & Hlt & Hfirst)].
      * exists 0%nat, mtg. rewrite Nat.add_0_r. repeat split; lia.
      * exists (S k), m. replace (i + S k)%nat with (S i + k)%nat by lia.
        repeat split; try assumption; try lia.
        intros [|j] m' Hj Hm'; simpl in Hm'.
        -- injection Hm' as <-. lia.
        -- apply (Hfirst j m'); [lia|exact Hm'].
    + split; [lia|]. split; [constructor; [lia|exact Hall]|].
      destruct Hcase as [[-> ->]|(k & m & Hk & -> & -> & Hlt & Hfirst)].
      * now left.
      * right. exists (S k), m. replace (i + S k)%nat with (S i + k)%nat by lia.
        repeat split; try assumption; try lia.
        intros [|j] m' Hj Hm'; simpl in Hm'.
        -- injection Hm' as <-. lia.
        -- apply (Hfirst j m'); [lia|exact Hm'].
Qed.

Lemma removeAt_In {A : Type} (k : nat) (l : list A) (x : A) :
  In x (removeAt k l) -> In x l.
Proof.
  revert k. induction l as [|y rest IH]; intros k H; [destruct k; exact H|].
  destruct k as [|k]; simpl in *; [now right|].
  destruct H as [H|H]; [now left|right; now apply (IH k)].
Qed.

Lemma removeAt_perm {A : Type} (k : nat) (l : list A) (x : A) :
  nth_error l k = Some x -> Permutation (x :: removeAt k l) l.
Proof.
  revert k. induction l as [|y rest IH]; intros k H; [destruct k; discriminate|].
  destruct k as [|k]; simpl in *.
  - injection H as ->. apply Permutation_refl.
  - apply perm_trans with (y :: x :: removeAt k rest); [apply perm_swap|].
    apply perm_skip. now apply IH.
Qed.

(** What one turn of the outer loop does, by cases on the best score. *)
Lemma matchStep_cases (v : Variant) (st : MatcherState.t) (sat : Document) :
  let pool := MatcherState.unmatchedMortgages st in
  (matchStep v st sat = st
   /\ Forall (fun m => pairScore v sat m < 30) pool)
  \/ exists k chosen,
       nth_error pool k = Some chosen
       /\ 30 <= pairScore v sat chosen
       /\ Forall (fun m => pairScore v sat m <= pairScore v sat chosen) pool
       /\ (forall j m', (j < k)%nat -> nth_error pool j = Some m' ->
                        pairScore v sat m' < pairScore v sat chosen)
       /\ matchStep v st sat
          = {| MatcherState.matches :=
                 MatcherState.matches st ++
                   [ {| Matched.satisfaction := sat;
                        Matched.mortgage := chosen;
                        Matched.score := pairScore v sat chosen;
                        Matched.confidence :=
                          if pairScore v sat chosen >=? 90 then "high"
                          else if pairScore v sat chosen >=? 50 then "medium"
                               else "low";
                        Matched.matchReasons := snd (signalScore v sat chosen) |} ];
               MatcherState.unmatchedMortgages := removeAt k pool;
               MatcherState.usedSatisfactions :=
                 setAdd (instrumentNumber sat) (MatcherState.usedSatisfactions st) |}.
Proof.
  intro pool. unfold matchStep. fold pool.
  destruct (scanMortgages v sat 0 pool None 0) as [found foundScore] eqn:E.
  apply scanMortgages_spec in E. destruct E as (Hmono & Hall & Hcase).
  destruct Hcase as [[-> ->]|(k & m & Hk & -> & -> & Hlt & Hfirst)].
  - left. split; [reflexivity|].
    eapply Forall_impl; [|exact Hall]. simpl. intros; lia.
  - simpl. destruct (Z.geb_spec (pairScore v sat m) 30) as [Hge|Hlow].
    + right. exists k, m. repeat split; assumption.
    + left. split; [reflexivity|].
      eapply Forall_impl; [|exact Hall]. simpl. intros; lia.
Qed.

Lemma matchStep_pool_shrinks (v : Variant) (st : MatcherState.t) (sat m : Document) :
  In m (MatcherState.unmatchedMortgages (matchStep v st sat)) ->
  In m (MatcherState.unmatchedMortgages st).
Proof.
  destruct (matchStep_cases v st sat) as [[-> _]|(k & chosen & _ & _ & _ & _ & ->)];
    [tauto|]. simpl. apply removeAt_In.
Qed.

Lemma matchStep_matches_grow (v : Variant) (st : MatcherState.t) (sat : Document)
      (entry : Matched.t) :
  In entry (MatcherState.matches st) ->
  In entry (MatcherState.matches (matchStep v st sat)).
Proof.
  destruct (matchStep_cases v st sat) as [[-> _]|(k & chosen & _ & _ & _ & _ & ->)];
    [tauto|]. simpl. intro H. apply in_or_app. now left.
Qed.

Lemma matcher_pool_shrinks (v : Variant) (sats : list Document) :
  forall st m,
    In m (MatcherState.unmatchedMortgages (fold_left (matchStep v) sats st)) ->
    In m (MatcherState.unmatchedMortgages st).
Proof.
  induction sats as [|s sats IH]; intros st m H; simpl in H; [exact H|].
  apply IH in H. now apply matchStep_pool_shrinks in H.
Qed.

Lemma matcher_matches_grow (v : Variant) (sats : list Document) :
  forall st entry,
    In entry (MatcherState.matches st) ->
    In entry (MatcherState.matches (fold_left (matchStep v) sats st)).
Proof.
  induction sats as [|s sats IH]; intros st entry H; simpl; [exact H|].
  apply IH. now apply matchStep_matches_grow.
Qed.

Lemma matchStep_accepts (v : Variant) (st : MatcherState.t) (sat mtg : Document) :
  In mtg (MatcherState.unmatchedMortgages st) ->
  30 <= pairScore v sat mtg ->
  exists k chosen,
    nth_error (MatcherState.unmatchedMortgages st) k = Some chosen
    /\ pairScore v sat mtg <= pairScore v sat chosen
    /\ Forall (fun m => pairScore v sat m <= pairScore v sat chosen)
              (MatcherState.unmatchedMortgages st)
    /\ (forall j m', (j < k)%nat ->
                     nth_error (MatcherState.unmatchedMortgages st) j = Some m' ->
                     pairScore v sat m' < pairScore v sat chosen)
    /\ matchStep v st sat
       = {| MatcherState.matches :=
              MatcherState.matches st ++
                [ {| Matched.satisfaction := sat;
                     Matched.mortgage := chosen;
                     Matched.score := pairScore v sat chosen;
                     Matched.confidence :=
                       if pairScore v sat chosen >=? 90 then "high"
                       else if pairScore v sat chosen >=? 50 then "medium"
                            else "low";
                     Matched.matchReasons := snd (signalScore v sat chosen) |} ];
            MatcherState.unmatchedMortgages :=
              removeAt k (MatcherState.unmatchedMortgages st);
            MatcherState.usedSatisfactions :=
              setAdd (instrumentNumber sat) (MatcherState.usedSatisfactions st) |}.
Proof.
  intros Hin Hscore.
  destruct (matchStep_cases v st sat)
    as [[_ Hall]|(k & chosen & Hk & Hge & Hall & Hfirst & Hstep)].
  - rewrite Forall_forall in Hall. specialize (Hall mtg Hin). simpl in Hall. lia.
  - exists k, chosen. repeat split; try assumption.
    rewrite Forall_forall in Hall. now apply Hall.
Qed.

(** A satisfaction and a mortgage cannot both be left over when the pair
    scores at least 30. *)
Lemma matcher_leaves_no_good_pair (v : Variant) (sats : list Document)
      (sat mtg : Document) (bound : Z) :
  30 <= bound -> bound <= pairScore v sat mtg ->
  forall st,
    In sat sats ->
    In mtg (MatcherState.unmatchedMortgages (fold_left (matchStep v) sats st)) ->
    exists entry,
      In entry (MatcherState.matches (fold_left (matchStep v) sats st))
      /\ Matched.satisfaction entry = sat /\ bound <= Matched.score entry.
Proof.
  intros Hbound Hscore. induction sats as [|s sats IH]; intros st Hsat Hleft;
    [contradiction|].
  simpl in *. destruct Hsat as [->|Hsat]; [|now apply IH].
  assert (Hpool : In mtg (MatcherState.unmatchedMortgages st)).
  { apply matcher_pool_shrinks in Hleft. now apply matchStep_pool_shrinks in Hleft. }
  destruct (matchStep_accepts v st sat mtg Hpool ltac:(lia))
    as (k & chosen & _ & Hbest & _ & _ & Hstep).
  eexists. split; [|split].
  - apply matcher_matches_grow. rewrite Hstep. simpl.
    apply in_or_app. right. left. reflexivity.
  - reflexivity.
  - simpl. lia.
Qed.

(** C1, as the code has it. When the number read from the satisfaction
    equals the mortgage's instrument number (the same string, or in the
    extractor module a number other than zero, of absolute value at most
    2^53 - 1, with that decimal form), the pair scores at least 100
    before the date rule and at least 80 after it, whatever the order of the
    dates.  If the mortgage is still unmatched when the satisfaction's turn
    comes, the satisfaction is accepted with the highest-scoring remaining
    mortgage, the first one on ties, at a score of at least 80; that mortgage
    is the one with the equal number when the satisfaction carries no
    book/page reference and no other remaining mortgage has that number.  A
    mortgage still open at the end of a run means its satisfaction was
    matched. *)
Theorem instrument_equality_accepted (v : Variant) (sat mtg : Document)
        (wanted : string) :
  satisfactionField SatisfactionInfo.satisfiedInstrumentNumber sat = Some wanted ->
  wanted <> "" ->
  instrumentNumber mtg = VStr wanted
  \/ (v = NodeExtractor
      /\ exists n, n <> 0 /\ Z.abs n <= Js.maxSafeInteger
                   /\ instrumentNumber mtg = VNum n /\ Js.showZ n = wanted) ->
  100 <= fst (signalScore v sat mtg)
  /\ 80 <= pairScore v sat mtg
  /\ (forall st,
        In mtg (MatcherState.unmatchedMortgages st) ->
        exists k chosen,
          nth_error (MatcherState.unmatchedMortgages st) k = Some chosen
          /\ 80 <= pairScore v sat chosen
          /\ Forall (fun m => pairScore v sat m <= pairScore v sat chosen)
                    (MatcherState.unmatchedMortgages st)
          /\ (forall j m', (j < k)%nat ->
                nth_error (MatcherState.unmatchedMortgages st) j = Some m' ->
                pairScore v sat m' < pairScore v sat chosen)
          /\ MatcherState.matches (matchStep v st sat)
             = MatcherState.matches st ++
                 [ {| Matched.satisfaction := sat;
                      Matched.mortgage := chosen;
                      Matched.score := pairScore v sat chosen;
                      Matched.confidence :=
                        if pairScore v sat chosen >=? 90 then "high" else "medium";
                      Matched.matchReasons := snd (signalScore v sat chosen) |} ]
          /\ MatcherState.unmatchedMortgages (matchStep v st sat)
             = removeAt k (MatcherState.unmatchedMortgages st)
          /\ (forall i,
                nth_error (MatcherState.unmatchedMortgages st) i = Some mtg ->
                satisfactionField SatisfactionInfo.satisfiedBookPage sat = None ->
                (forall j m', j <> i ->
                   nth_error (MatcherState.unmatchedMortgages st) j = Some m' ->
                   instrumentMatches v sat m' = false) ->
                k = i /\ chosen = mtg))
  /\ (forall mortgages satisfactions,
        In sat satisfactions ->
        In mtg (MatchResult.unmatchedMortgages
                  (matchSatisfactionsToMortgages v mortgages satisfactions)) ->
        exists entry,
          In entry (MatchResult.matches
                      (matchSatisfactionsToMortgages v mortgages satisfactions))
          /\ Matched.satisfaction entry = sat /\ 80 <= Matched.score entry).
Proof.
  intros Hsat Hne Hmtg.
  pose proof (instrumentMatches_equal v sat mtg wanted Hsat Hne Hmtg) as Hmatch.
  assert (Hsig : 100 <= fst (signalScore v sat mtg))
    by now apply signalScore_bounds.
  assert (Hpair : 80 <= pairScore v sat mtg).
  { unfold pairScore.
    pose proof (dateAdjust_bounds sat mtg (fst (signalScore v sat mtg))). lia. }
  split; [exact Hsig|]. split; [exact Hpair|]. split.
  - intros st Hin.
    destruct (matchStep_accepts v st sat mtg Hin ltac:(lia))
      as (k & chosen & Hk & Hbest & Hall & Hfirst & Hstep).
    exists k, chosen. split; [exact Hk|]. split; [lia|]. split; [exact Hall|].
    split; [exact Hfirst|]. rewrite Hstep. simpl. split; [|split; [reflexivity|]].
    + destruct (Z.geb_spec (pairScore v sat chosen) 90); [reflexivity|].
      destruct (Z.geb_spec (pairScore v sat chosen) 50); [reflexivity|lia].
    + intros i Hi Hbook Hothers.
      destruct (Nat.eq_dec k i) as [->|Hki].
      * split; [reflexivity|congruence].
      * exfalso.
        pose proof (Hothers k chosen Hki Hk) as Hno.
        pose proof (bookPageMatches_absent sat chosen Hbook) as Hnb.
        destruct (signalScore_bounds v sat chosen) as [_ Hlow].
        specialize (Hlow Hno Hnb).
        pose proof (dateAdjust_bounds sat chosen (fst (signalScore v sat chosen))).
        unfold pairScore in Hbest, Hpair. unfold pairScore in *. lia.
  - intros mortgages satisfactions Hin Hleft.
    unfold matchSatisfactionsToMortgages in *. simpl in *.
    now apply (matcher_leaves_no_good_pair v satisfactions sat mtg 80).
Qed.

(** *** How the matcher divides its two inputs *)

Lemma matchStep_mortgages (v : Variant) (st : MatcherState.t) (sat : Document) :
  Permutation
    (map Matched.mortgage (MatcherState.matches (matchStep v st sat))
       ++ MatcherState.unmatchedMortgages (matchStep v st sat))
    (map Matched.mortgage (MatcherState.matches st)
       ++ MatcherState.unmatchedMortgages st).
Proof.
  destruct (matchStep_cases v st sat)
    as [[-> _]|(k & chosen & Hk & _ & _ & _ & ->)]; [apply Permutation_refl|].
  simpl. rewrite map_app, <- app_assoc. simpl.
  apply Permutation_app_head. now apply removeAt_perm.
Qed.

(** Every mortgage is either in exactly one match or left unmatched. *)
Lemma matcher_mortgages_partition (v : Variant) (mortgages satisfactions : list Document) :
  Permutation
    (map Matched.mortgage
         (MatchResult.matches (matchSatisfactionsToMortgages v mortgages satisfactions))
       ++ MatchResult.unmatchedMortgages
            (matchSatisfactionsToMortgages v mortgages satisfactions))
    mortgages.
Proof.
  unfold matchSatisfactionsToMortgages. simpl.
  assert (H : forall sats st,
             Permutation
               (map Matched.mortgage
                    (MatcherState.matches (fold_left (matchStep v) sats st))
                  ++ MatcherState.unmatchedMortgages (fold_left (matchStep v) sats st))
               (map Matched.mortgage (MatcherState.matches st)
                  ++ MatcherState.unmatchedMortgages st)).
  { induction sats as [|s sats IH]; intro st; simpl; [apply Permutation_refl|].
    eapply perm_trans; [apply IH|apply matchStep_mortgages]. }
  apply (H satisfactions (matcherStart mortgages)).
Qed.

Lemma sameValue_eq (a b : JsVal) : sameValue a b = true <-> a = b.
Proof. unfold sameValue. destruct (JsVal_eq_dec a b); split; congruence. Qed.

Lemma setHas_setAdd (set : list JsVal) (key other : JsVal) :
  setHas (setAdd key set) other = orb (setHas set other) (sameValue other key).
Proof.
  unfold setAdd. destruct (setHas set key) eqn:E.
  - destruct (sameValue other key) eqn:S; [|now rewrite orb_false_r].
    apply sameValue_eq in S. subst other. now rewrite E.
  - unfold setHas. rewrite existsb_app. simpl. now rewrite orb_false_r.
Qed.

Lemma filter_split {A : Type} (p : A -> bool) (l : list A) :
  Permutation (filter p l ++ filter (fun x => negb (p x)) l) l.
Proof.
  induction l as [|x l IH]; simpl; [apply perm_nil|].
  destruct (p x); simpl.
  - now apply perm_skip.
  - apply Permutation_sym, Permutation_cons_app, Permutation_sym, IH.
Qed.

(** While the instrument numbers of the satisfactions differ from one
    another, the matched satisfactions are those whose number is in the set. *)
Lemma matcher_used_satisfactions (v : Variant) (sats : list Document) :
  forall processed st,
    NoDup (map instrumentNumber (processed ++ sats)) ->
    map Matched.satisfaction (MatcherState.matches st)
    = filter (fun s => setHas (MatcherState.usedSatisfactions st) (instrumentNumber s))
             processed ->
    (forall key, setHas (MatcherState.usedSatisfactions st) key = true ->
                 In key (map instrumentNumber processed)) ->
    let final := fold_left (matchStep v) sats st in
    map Matched.satisfaction (MatcherState.matches final)
    = filter (fun s => setHas (MatcherState.usedSatisfactions final) (instrumentNumber s))
             (processed ++ sats).
Proof.
  induction sats as [|s sats IH]; intros processed st Hnd Hmatched Hused; simpl.
  - now rewrite app_nil_r.
  - assert (Hfresh : ~ In (instrumentNumber s) (map instrumentNumber processed)).
    { rewrite map_app in Hnd. simpl in Hnd. apply NoDup_remove_2 in Hnd.
      intro H. apply Hnd. apply in_or_app. now left. }
    replace (processed ++ s :: sats) with ((processed ++ [s]) ++ sats)
      by now rewrite <- app_assoc.
    apply IH.
    + now rewrite <- app_assoc.
    + rewrite filter_app. simpl.
      destruct (matchStep_cases v st s)
        as [[-> _]|(k & chosen & _ & _ & _ & _ & ->)]; simpl.
      * destruct (setHas (MatcherState.usedSatisfactions st) (instrumentNumber s)) eqn:E.
        -- apply Hused in E. contradiction.
        -- now rewrite app_nil_r.
      * rewrite map_app. simpl. rewrite setHas_setAdd.
        destruct (sameValue_eq (instrumentNumber s) (instrumentNumber s)) as [_ ->];
          [|reflexivity].
        rewrite orb_true_r. f_equal. rewrite Hmatched.
        apply filter_ext_in. intros d Hd. rewrite setHas_setAdd.
        destruct (sameValue (instrumentNumber d) (instrumentNumber s)) eqn:S;
          [|now rewrite orb_false_r].
        apply sameValue_eq in S. exfalso. apply Hfresh. rewrite <- S.
        now apply in_map.
    + intros key Hkey. rewrite map_app. apply in_or_app.
      destruct (matchStep_cases v st s)
        as [[Hsame _]|(k & chosen & _ & _ & _ & _ & Hstep)].
      * rewrite Hsame in Hkey. left. now apply Hused.
      * rewrite Hstep in Hkey. simpl in Hkey. rewrite setHas_setAdd in Hkey.
        apply orb_true_iff in Hkey. destruct Hkey as [Hkey|Hkey].
        -- left. now apply Hused.
        -- right. apply sameValue_eq in Hkey. subst key. now left.
Qed.

(** With pairwise different instrument numbers every satisfaction is either
    in exactly one match or reported unmatched. *)
Lemma matcher_satisfactions_partition (v : Variant)
      (mortgages satisfactions : list Document) :
  NoDup (map instrumentNumber satisfactions) ->
  Permutation
    (map Matched.satisfaction
         (MatchResult.matches (matchSatisfactionsToMortgages v mortgages satisfactions))
       ++ MatchResult.unmatchedSatisfactions
            (matchSatisfactionsToMortgages v mortgages satisfactions))
    satisfactions.
Proof.
  intro Hnd. unfold matchSatisfactionsToMortgages. simpl.
  rewrite (matcher_used_satisfactions v satisfactions [] (matcherStart mortgages));
    try assumption; try reflexivity.
  - apply filter_split.
  - intros key H. discriminate.
Qed.

(** The extractor never fills both references of a satisfaction. *)
Lemma parseSatisfactionText_one_reference
      (reMatch : string -> string -> option (list (option string)))
      (parseFloat : string -> option Q) (text : string) :
  SatisfactionInfo.satisfiedInstrumentNumber
    (parseSatisfactionText reMatch parseFloat text) = None
  \/ SatisfactionInfo.satisfiedBookPage
       (parseSatisfactionText reMatch parseFloat text) = None.
Proof.
  unfold parseSatisfactionText. destruct (tooShort text); [now left|].
  cbn [SatisfactionInfo.satisfiedInstrumentNumber SatisfactionInfo.satisfiedBookPage].
  match goal with
  | |- context [@firstAccepted ?e ?B ?ps ?t ?f] =>
      destruct (@firstAccepted e B ps t f) as [m|]; [|now left]
  end.
  destruct (groupTruthy 2 m); [now left|now right].
Qed.

(** ** The statements above at sample records *)

(** The pair of [Sample.satisfactionByNumber] and [Sample.mortgage] has equal
    instrument numbers and scores as stated, and so does the pair with
    [Sample.numberedMortgage], whose instrument number is the number
    2020123456. *)
Lemma instrument_equality_accepted_witness :
  (100 <= fst (signalScore NodeExtractor Sample.satisfactionByNumber Sample.mortgage)
   /\ 80 <= pairScore NodeExtractor Sample.satisfactionByNumber Sample.mortgage)
  /\ (100 <= fst (signalScore NodeExtractor Sample.satisfactionByNumber
                              Sample.numberedMortgage)
      /\ 80 <= pairScore NodeExtractor Sample.satisfactionByNumber
                         Sample.numberedMortgage).
Proof.
  split.
  - pose proof (instrument_equality_accepted
                  NodeExtractor Sample.satisfactionByNumber Sample.mortgage
                  "2020123456" eq_refl ltac:(discriminate) (or_introl eq_refl)) as H.
    exact (conj (proj1 H) (proj1 (proj2 H))).
  - assert (Hnumber :
              Sample.numberedMortgage.(instrumentNumber) = VStr "2020123456"
              \/ (NodeExtractor = NodeExtractor
                  /\ exists n, n <> 0 /\ Z.abs n <= Js.maxSafeInteger
                               /\ Sample.numberedMortgage.(instrumentNumber) = VNum n
                               /\ Js.showZ n = "2020123456")).
    { right. split; [reflexivity|]. exists 2020123456.
      split; [discriminate|]. split; [discriminate|]. split; reflexivity. }
    pose proof (instrument_equality_accepted
                  NodeExtractor Sample.satisfactionByNumber Sample.numberedMortgage
                  "2020123456" eq_refl ltac:(discriminate) Hnumber) as H.
    exact (conj (proj1 H) (proj1 (proj2 H))).
Defined.

(** With a numeric instrument number the extractor module compares through
    [String(...)] and the signal fires; the older browser copy compares the
    string with the number itself, so there the signal never fires. *)
Lemma numeric_instrument_number_by_variant :
  pairScore NodeExtractor Sample.satisfactionByNumber Sample.numberedMortgage = 115
  /\ pairScore BrowserScanner Sample.satisfactionByNumber Sample.numberedMortgage = 15.
Proof. vm_compute. split; reflexivity. Qed.

(** Against C1 as stated: the satisfaction that cites the mortgage's
    instrument number comes second; the mortgage has by then been taken by an
    earlier satisfaction that scored 35 on lender and grantor names, so the
    pair with the equal number, which scores 115, is not matched and the
    satisfaction is reported unmatched. *)
Lemma earlier_satisfaction_takes_the_mortgage :
  let run := fun v =>
    matchSatisfactionsToMortgages v [Sample.mortgage]
      [Sample.satisfactionByLender; Sample.satisfactionByNumber] in
  satisfactionField SatisfactionInfo.satisfiedInstrumentNumber
                    Sample.satisfactionByNumber = Some "2020123456"
  /\ instrumentNumber Sample.mortgage = VStr "2020123456"
  /\ pairScore NodeExtractor Sample.satisfactionByNumber Sample.mortgage = 115
  /\ map (fun entry => (Matched.satisfaction entry, Matched.mortgage entry,
                        Matched.score entry))
         (MatchResult.matches (run NodeExtractor))
     = [(Sample.satisfactionByLender, Sample.mortgage, 35)]
  /\ MatchResult.unmatchedSatisfactions (run NodeExtractor)
     = [Sample.satisfactionByNumber]
  /\ MatchResult.matches (run BrowserScanner)
     = MatchResult.matches (run NodeExtractor)
  /\ MatchResult.unmatchedSatisfactions (run BrowserScanner)
     = [Sample.satisfactionByNumber].
Proof. vm_compute. repeat split. Qed.

(** C2 at two satisfactions that share an instrument number, and at two
    whose records had none: the first is matched, the second is matched to
    nothing and yet is missing from the unmatched list. *)
Theorem shared_number_drops_satisfaction :
  let shared :=
    matchSatisfactionsToMortgages NodeExtractor [Sample.mortgage]
      [Sample.satisfactionByLender; Sample.satisfactionSameNumber] in
  let unnumbered :=
    matchSatisfactionsToMortgages NodeExtractor [Sample.mortgage]
      [Sample.unnumberedByLender; Sample.unnumberedOther] in
  map Matched.satisfaction (MatchResult.matches shared)
  = [Sample.satisfactionByLender]
  /\ MatchResult.unmatchedMortgages shared = []
  /\ MatchResult.unmatchedSatisfactions shared = []
  /\ ~ In Sample.satisfactionSameNumber
          (map Matched.satisfaction (MatchResult.matches shared)
             ++ MatchResult.unmatchedSatisfactions shared)
  /\ map Matched.satisfaction (MatchResult.matches unnumbered)
     = [Sample.unnumberedByLender]
  /\ MatchResult.unmatchedSatisfactions unnumbered = []
  /\ ~ In Sample.unnumberedOther
          (map Matched.satisfaction (MatchResult.matches unnumbered)
             ++ MatchResult.unmatchedSatisfactions unnumbered).
Proof.
  vm_compute. repeat split; intros [H|[]]; discriminate H.
Qed.

(** Against C3 as stated: a search without scanning that finds two
    mortgages and nothing else has no flag and no open lien, and its risk
    level is MEDIUM. *)
Lemma unscanned_two_open_mortgages_medium :
  let package :=
    titlePackage Sample.nothingScanned false
                 [Sample.mortgage; Sample.otherMortgage] in
  TitlePackage.scanned package = false
  /\ TitlePackage.scanResults package = None
  /\ MortgageAnalysis.scanData (TitlePackage.mortgageAnalysis package) = None
  /\ TitlePackage.flags package = []
  /\ TitlePackage.openLiens package = []
  /\ List.length (MortgageAnalysis.open (TitlePackage.mortgageAnalysis package)) = 2%nat
  /\ Summary.riskLevel (TitlePackage.summary package) = "MEDIUM"
  /\ Summary.riskLevel (TitlePackage.summary package) <> "LOW".
Proof. vm_compute. repeat split. discriminate. Qed.

(** A text of nine characters. *)
Lemma short_text_extracts_nothing_witness :
  MortgageInfo.confidence
    (parseMortgageText Sample.noMatch Sample.noMatches Sample.notANumber "too short")
  = "low"
  /\ SatisfactionInfo.satisfiedInstrumentNumber
       (parseSatisfactionText Sample.noMatch Sample.notANumber "too short")
     = None.
Proof.
  pose proof (short_text_extracts_nothing
                Sample.noMatch Sample.noMatches Sample.notANumber "too short"
                ltac:(simpl; lia)) as H.
  destruct H as (Hm & _ & Hs). rewrite Hm, Hs. split; reflexivity.
Defined.

(** A raw record that has a deed label and nothing else. *)
Lemma parseRecord_on_labels_witness :
  exists doc,
    parseRecord Sample.invalidDate (Sample.rawWith (VStr "(D) DEED")) = Ok doc
    /\ Parsed.grantors doc = VArr []
    /\ Parsed.docTypeShort doc = VStr "D".
Proof.
  destruct (parseRecord_on_labels Sample.invalidDate (Sample.rawWith (VStr "(D) DEED"))
              (or_intror (ex_intro _ "(D) DEED" eq_refl)))
    as (doc & Hok & Hg & _ & _ & _ & _ & _ & _ & _ & _ & _ & Hshort).
  exists doc. split; [exact Hok|]. split.
  - apply Hg. reflexivity.
  - destruct (Hshort "(D) DEED" eq_refl) as [H _]. exact H.
Defined.

(** Against C9 as stated: a raw record whose [DocType] is the number 5. *)
Lemma parseRecord_numeric_label_throws :
  parseRecord Sample.invalidDate (Sample.rawWith (VNum 5))
  = Throw "TypeError: record.DocType?.match is not a function"
  /\ ~ exists doc, parseRecord Sample.invalidDate (Sample.rawWith (VNum 5)) = Ok doc.
Proof.
  split; [reflexivity|]. intros [doc H]. discriminate H.
Qed.

(** A search result that consists of one tax deed. *)
Lemma tax_label_forces_high_witness :
  (exists f, In f (identifyFlags [Sample.taxDeed])
             /\ Flag.severity f = "high" /\ Flag.type f = "tax_lien"
             /\ In Sample.taxDeed (Flag.documents f))
  /\ In Sample.taxDeed (groupByDocType [Sample.taxDeed] Other).
Proof.
  pose proof (tax_label_forces_high [Sample.taxDeed] Sample.taxDeed
                (or_introl eq_refl) eq_refl) as H.
  split; [exact (proj1 H)|].
  destruct H as (_ & _ & _ & _ & _ & _ & Hother).
  exact (proj1 (Hother eq_refl)).
Defined.

(** * Further properties of the code *)

(** ** The multi-signal matcher *)

Lemma matcher_fold_entries (v : Variant) (allSats allMtgs : list Document) :
  forall sats st,
    incl sats allSats ->
    incl (MatcherState.unmatchedMortgages st) allMtgs ->
    Forall (soundEntry v allSats allMtgs) (MatcherState.matches st) ->
    Forall (soundEntry v allSats allMtgs)
           (MatcherState.matches (fold_left (matchStep v) sats st))
    /\ incl (MatcherState.unmatchedMortgages (fold_left (matchStep v) sats st))
            allMtgs.
Proof.
  induction sats as [|s sats IH]; intros st Hsats Hpool Hok; simpl; [now split|].
  apply IH.
  - intros x Hx. apply Hsats. now right.
  - intros m Hm. apply Hpool. now apply matchStep_pool_shrinks in Hm.
  - destruct (matchStep_cases v st s)
      as [[-> _]|(k & chosen & Hk & Hge & _ & _ & ->)]; [exact Hok|].
    simpl. apply Forall_app. split; [exact Hok|]. constructor; [|constructor].
    unfold soundEntry; simpl. repeat split; try assumption.
    + apply Hsats. now left.
    + apply Hpool. now apply nth_error_In in Hk.
Qed.

Lemma matcher_entries (v : Variant) (mortgages satisfactions : list Document) :
  Forall (soundEntry v satisfactions mortgages)
         (MatchResult.matches (matchSatisfactionsToMortgages v mortgages satisfactions)).
Proof.
  unfold matchSatisfactionsToMortgages. simpl.
  apply (matcher_fold_entries v satisfactions mortgages satisfactions
                              (matcherStart mortgages)).
  - apply incl_refl.
  - apply incl_refl.
  - constructor.
Qed.

(** X3. Every reported match pairs a satisfaction of the input with a
    mortgage of the input, carries the score of that pair, which is at least
    30, the confidence tier of that score and the reasons of that pair. *)
Theorem matcher_reports_sound_matches (v : Variant)
        (mortgages satisfactions : list Document) :
  Forall (fun entry =>
            In (Matched.satisfaction entry) satisfactions
            /\ In (Matched.mortgage entry) mortgages
            /\ Matched.score entry
               = pairScore v (Matched.satisfaction entry) (Matched.mortgage entry)
            /\ 30 <= Matched.score entry
            /\ (Matched.confidence entry = "high" <-> 90 <= Matched.score entry)
            /\ (Matched.confidence entry = "medium"
                <-> 50 <= Matched.score entry < 90)
            /\ (Matched.confidence entry = "low" <-> Matched.score entry < 50)
            /\ Matched.matchReasons entry
               = snd (signalScore v (Matched.satisfaction entry)
                                  (Matched.mortgage entry)))
         (MatchResult.matches (matchSatisfactionsToMortgages v mortgages satisfactions)).
Proof.
  eapply Forall_impl; [|apply matcher_entries].
  intros entry (Hs & Hm & Hscore & Hge & Hconf & Hreasons).
  split; [exact Hs|]. split; [exact Hm|]. split; [exact Hscore|].
  split; [exact Hge|].
  rewrite Hconf. unfold matchConfidence.
  destruct (Z.geb_spec (Matched.score entry) 90);
    destruct (Z.geb_spec (Matched.score entry) 50);
    repeat split; intros; try discriminate; try lia; try reflexivity;
    try assumption.
Qed.

Lemma pairScore_without_text (v : Variant) (sat mtg : Document) :
  textSignals v sat mtg = false -> pairScore v sat mtg <= 15.
Proof.
  unfold textSignals, pairScore, signalScore, signal. intro H.
  pose proof (dateAdjust_bounds sat mtg) as Hd.
  destruct (instrumentMatches v sat mtg), (bookPageMatches sat mtg),
    (amountMatches sat mtg), (lenderMatches sat mtg), (grantorMatches sat mtg);
    try discriminate; simpl;
    match goal with |- dateAdjust _ _ ?x <= _ => specialize (Hd x) end; lia.
Qed.

Lemma pairScore_misdated (v : Variant) (sat mtg : Document) :
  recordTimestamp sat <= recordTimestamp mtg ->
  strongSignals v sat mtg = false -> pairScore v sat mtg <= 20.
Proof.
  unfold strongSignals, pairScore, signalScore, signal, dateAdjust. intros Hts H.
  destruct (Z.gtb_spec (recordTimestamp sat) (recordTimestamp mtg)); [lia|].
  destruct (instrumentMatches v sat mtg), (bookPageMatches sat mtg),
    (amountMatches sat mtg), (lenderMatches sat mtg), (grantorMatches sat mtg);
    try discriminate; simpl; lia.
Qed.

Lemma textSignals_need_data (v : Variant) (sat mtg : Document) :
  extractedData sat = None -> textSignals v sat mtg = false.
Proof.
  intro H.
  unfold textSignals, instrumentMatches, bookPageMatches, amountMatches,
    lenderMatches, satisfactionField.
  rewrite H. reflexivity.
Qed.

(** X4. Names and dates alone never make a match: in every reported match
    at least one of the four signals read from text fired, so a satisfaction
    without extracted data is never matched; and when the satisfaction is not
    recorded after the mortgage, the instrument number or the book and page
    matched, or both the amount and the lender did. *)
Theorem match_needs_text_evidence (v : Variant)
        (mortgages satisfactions : list Document) :
  Forall (fun entry =>
            let sat := Matched.satisfaction entry in
            let mtg := Matched.mortgage entry in
            textSignals v sat mtg = true
            /\ extractedData sat <> None
            /\ (recordTimestamp sat <= recordTimestamp mtg ->
                strongSignals v sat mtg = true))
         (MatchResult.matches (matchSatisfactionsToMortgages v mortgages satisfactions)).
Proof.
  eapply Forall_impl; [|apply matcher_entries].
  intros entry (_ & _ & Hscore & Hge & _). simpl. rewrite Hscore in Hge.
  assert (Htext : textSignals v (Matched.satisfaction entry) (Matched.mortgage entry)
                  = true).
  { destruct (textSignals v _ _) eqn:E; [reflexivity|].
    apply pairScore_without_text in E. lia. }
  split; [exact Htext|]. split.
  - intro Hnone. rewrite (textSignals_need_data v _ _ Hnone) in Htext. discriminate.
  - intro Hts.
    destruct (strongSignals v _ _) eqn:E; [reflexivity|].
    apply (pairScore_misdated v _ _ Hts) in E. lia.
Qed.

Lemma matcher_fold_lengths (v : Variant) (sats : list Document) :
  forall st,
    (List.length (MatcherState.matches (fold_left (matchStep v) sats st))
     <= List.length (MatcherState.matches st) + List.length sats)%nat
    /\ (MatcherState.unmatchedMortgages st = [] ->
        fold_left (matchStep v) sats st = st).
Proof.
  induction sats as [|s sats IH]; intro st; simpl; [split; [lia|reflexivity]|].
  destruct (IH (matchStep v st s)) as [Hlen Hidle].
  destruct (matchStep_cases v st s)
    as [[Hsame _]|(k & chosen & Hk & _ & _ & _ & Hstep)].
  - rewrite Hsame in *. split; [lia|]. intro Hempty. now apply Hidle.
  - split.
    + assert (Hone : List.length (MatcherState.matches (matchStep v st s))
                     = S (List.length (MatcherState.matches st))).
      { rewrite Hstep. simpl. rewrite length_app. simpl. lia. }
      lia.
    + intro Hempty. rewrite Hempty in Hk. destruct k; discriminate.
Qed.

(** X5. The matcher at its borders: without mortgages nothing is matched and
    every satisfaction is reported unmatched; without satisfactions every
    mortgage is reported unmatched; and there are never more matches than
    mortgages or than satisfactions. *)
Theorem matcher_borders (v : Variant) (mortgages satisfactions : list Document) :
  matchSatisfactionsToMortgages v [] satisfactions
  = {| MatchResult.matches := [];
       MatchResult.unmatchedMortgages := [];
       MatchResult.unmatchedSatisfactions := satisfactions |}
  /\ matchSatisfactionsToMortgages v mortgages []
     = {| MatchResult.matches := [];
          MatchResult.unmatchedMortgages := mortgages;
          MatchResult.unmatchedSatisfactions := [] |}
  /\ (List.length (MatchResult.matches
                     (matchSatisfactionsToMortgages v mortgages satisfactions))
      <= List.length satisfactions)%nat
  /\ (List.length (MatchResult.matches
                     (matchSatisfactionsToMortgages v mortgages satisfactions))
      <= List.length mortgages)%nat.
Proof.
  split; [|split; [reflexivity|split]].
  - unfold matchSatisfactionsToMortgages.
    destruct (matcher_fold_lengths v satisfactions (matcherStart [])) as [_ ->];
      [|reflexivity].
    simpl. f_equal. induction satisfactions as [|s l IH]; simpl; congruence.
  - unfold matchSatisfactionsToMortgages. simpl.
    destruct (matcher_fold_lengths v satisfactions (matcherStart mortgages)) as [H _].
    simpl in H. exact H.
  - pose proof (matcher_mortgages_partition v mortgages satisfactions) as H.
    apply Permutation_length in H. rewrite length_app, length_map in H. lia.
Qed.

(** X1. Every mortgage handed to the matcher comes back exactly once:
    either as the mortgage of one match or in the unmatched list. *)
Theorem matcher_accounts_for_every_mortgage (v : Variant)
        (mortgages satisfactions : list Document) :
  let result := matchSatisfactionsToMortgages v mortgages satisfactions in
  Permutation
    (map Matched.mortgage (MatchResult.matches result)
       ++ MatchResult.unmatchedMortgages result)
    mortgages
  /\ (List.length (MatchResult.matches result)
      + List.length (MatchResult.unmatchedMortgages result)
      = List.length mortgages)%nat.
Proof.
  intro result.
  pose proof (matcher_mortgages_partition v mortgages satisfactions) as H.
  split; [exact H|].
  apply Permutation_length in H. rewrite length_app, length_map in H. exact H.
Qed.

(** X2. When the satisfactions have pairwise different instrument numbers,
    every satisfaction comes back exactly once: as the satisfaction of one
    match or in the unmatched list. *)
Theorem matcher_accounts_for_numbered_satisfactions (v : Variant)
        (mortgages satisfactions : list Document) :
  NoDup (map instrumentNumber satisfactions) ->
  let result := matchSatisfactionsToMortgages v mortgages satisfactions in
  Permutation
    (map Matched.satisfaction (MatchResult.matches result)
       ++ MatchResult.unmatchedSatisfactions result)
    satisfactions.
Proof.
  intros Hnd result. now apply matcher_satisfactions_partition.
Qed.

Lemma matcher_accounts_for_numbered_satisfactions_witness :
  Permutation
    (map Matched.satisfaction
         (MatchResult.matches
            (matchSatisfactionsToMortgages NodeExtractor [Sample.mortgage]
               [Sample.satisfactionByLender; Sample.satisfactionByNumber]))
       ++ MatchResult.unmatchedSatisfactions
            (matchSatisfactionsToMortgages NodeExtractor [Sample.mortgage]
               [Sample.satisfactionByLender; Sample.satisfactionByNumber]))
    [Sample.satisfactionByLender; Sample.satisfactionByNumber].
Proof.
  apply (matcher_accounts_for_numbered_satisfactions NodeExtractor
           [Sample.mortgage]
           [Sample.satisfactionByLender; Sample.satisfactionByNumber]).
  simpl. repeat constructor; simpl; intuition discriminate.
Defined.

(** ** The name-based analysis *)

Lemma overlap_fold_grows (name : string) (others : list string) (score : Z) :
  score <= fold_left
             (fun score satName =>
                if namesOverlap name satName then score + 5 else score)
             others score.
Proof.
  revert score. induction others as [|o others IH]; intro score; simpl; [lia|].
  destruct (namesOverlap name o).
  - specialize (IH (score + 5)). lia.
  - apply IH.
Qed.

Lemma nameScore_dated (mtg sat : Document) :
  0 <= nameScore mtg sat
  /\ (recordTimestamp sat > recordTimestamp mtg -> 10 <= nameScore mtg sat).
Proof.
  unfold nameScore.
  set (others := map Js.toLowerCase (grantors sat)).
  assert (H : forall names score,
             score <= fold_left
                        (fun score mtgName =>
                           fold_left
                             (fun score satName =>
                                if namesOverlap mtgName satName
                                then score + 5 else score)
                             others score)
                        names score).
  { induction names as [|n names IH]; intro score; simpl; [lia|].
    pose proof (overlap_fold_grows n others score).
    specialize (IH (fold_left
                      (fun score satName =>
                         if namesOverlap n satName then score + 5 else score)
                      others score)). lia. }
  split.
  - specialize (H (map Js.toLowerCase (grantors mtg))
                  (if recordTimestamp sat >? recordTimestamp mtg then 10 else 0)).
    destruct (recordTimestamp sat >? recordTimestamp mtg); lia.
  - intro Hlater.
    specialize (H (map Js.toLowerCase (grantors mtg))
                  (if recordTimestamp sat >? recordTimestamp mtg then 10 else 0)).
    destruct (Z.gtb_spec (recordTimestamp sat) (recordTimestamp mtg)); lia.
Qed.

Lemma scanSatisfactions_spec (mtg : Document) (pool : list Document) :
  forall i bestMatchIndex bestMatchScore found foundScore,
    scanSatisfactions mtg i pool bestMatchIndex bestMatchScore = (found, foundScore) ->
    bestMatchScore <= foundScore
    /\ Forall (fun s => nameScore mtg s <= foundScore) pool
    /\ ((found = bestMatchIndex /\ foundScore = bestMatchScore)
        \/ exists k s,
             nth_error pool k = Some s
             /\ found = Some (i + k)%nat
             /\ foundScore = nameScore mtg s
             /\ bestMatchScore < foundScore).
Proof.
  induction pool as [|sat rest IH]; intros i best bs found fs H; simpl in H.
  - injection H as <- <-. split; [lia|]. split; [constructor|]. now left.
  - destruct (Z.gtb_spec (nameScore mtg sat) bs) as [Hgt|Hle];
      apply IH in H; destruct H as (Hmono & Hall & Hcase).
    + split; [lia|]. split; [constructor; [lia|exact Hall]|]. right.
      destruct Hcase as [[-> ->]|(k & s & Hk & -> & -> & Hlt)].
      * exists 0%nat, sat. rewrite Nat.add_0_r. repeat split; lia.
      * exists (S k), s. replace (i + S k)%nat with (S i + k)%nat by lia.
        repeat split; try assumption; lia.
    + split; [lia|]. split; [constructor; [lia|exact Hall]|].
      destruct Hcase as [[-> ->]|(k & s & Hk & -> & -> & Hlt)].
      * now left.
      * right. exists (S k), s. replace (i + S k)%nat with (S i + k)%nat by lia.
        repeat split; try assumption; lia.
Qed.

(** What one turn of the loop of [analyzeMortgages] does. *)
Lemma analyzeStep_cases (analysis : MortgageAnalysis.t) (pool : list Document)
      (mtg : Document) :
  (Forall (fun s => nameScore mtg s < 10) pool
   /\ analyzeStep (analysis, pool) mtg
      = ({| MortgageAnalysis.total := MortgageAnalysis.total analysis;
            MortgageAnalysis.satisfied := MortgageAnalysis.satisfied analysis;
            MortgageAnalysis.open := MortgageAnalysis.open analysis ++ [mtg];
            MortgageAnalysis.satisfiedList := MortgageAnalysis.satisfiedList analysis;
            MortgageAnalysis.unmatchedSatisfactions := None;
            MortgageAnalysis.scanData := None |}, pool))
  \/ exists k sat,
       nth_error pool k = Some sat
       /\ 10 <= nameScore mtg sat
       /\ analyzeStep (analysis, pool) mtg
          = ({| MortgageAnalysis.total := MortgageAnalysis.total analysis;
                MortgageAnalysis.satisfied := S (MortgageAnalysis.satisfied analysis);
                MortgageAnalysis.open := MortgageAnalysis.open analysis;
                MortgageAnalysis.satisfiedList :=
                  MortgageAnalysis.satisfiedList analysis ++
                    [ {| SatisfiedEntry.mortgage := mtg;
                         SatisfiedEntry.satisfaction := sat;
                         SatisfiedEntry.confidence := "low";
                         SatisfiedEntry.matchMethod := Some "name";
                         SatisfiedEntry.matchReasons := None |} ];
                MortgageAnalysis.unmatchedSatisfactions := None;
                MortgageAnalysis.scanData := None |},
             removeAt k pool).
Proof.
  unfold analyzeStep.
  destruct (scanSatisfactions mtg 0 pool None 0) as [found foundScore] eqn:E.
  apply scanSatisfactions_spec in E. destruct E as (Hmono & Hall & Hcase).
  destruct Hcase as [[-> ->]|(k & s & Hk & -> & -> & Hlt)].
  - left. split; [|reflexivity].
    eapply Forall_impl; [|exact Hall]. simpl. intros; lia.
  - simpl. rewrite Hk.
    destruct (Z.geb_spec (nameScore mtg s) 10) as [Hge|Hlow].
    + right. exists k, s. repeat split; assumption.
    + left. split; [|reflexivity].
      eapply Forall_impl; [|exact Hall]. simpl. intros; lia.
Qed.

Lemma removeAt_Forall {A : Type} (P : A -> Prop) (k : nat) (l : list A) :
  Forall P l -> Forall P (removeAt k l).
Proof.
  intro H. rewrite Forall_forall in *. intros x Hx. apply H.
  now apply removeAt_In in Hx.
Qed.

Lemma analysis_fold (sats : list Document) (mortgages : list Document) :
  forall processed state,
    analysisInvariant processed sats state ->
    analysisInvariant (processed ++ mortgages) sats
                      (fold_left analyzeStep mortgages state)
    /\ MortgageAnalysis.total (fst (fold_left analyzeStep mortgages state))
       = MortgageAnalysis.total (fst state).
Proof.
  induction mortgages as [|m mortgages IH]; intros processed [analysis pool] Hinv.
  - simpl. rewrite app_nil_r. now split.
  - cbn [fold_left].
    replace (processed ++ m :: mortgages) with ((processed ++ [m]) ++ mortgages)
      by now rewrite <- app_assoc.
    destruct Hinv as (Hm & Hs & Hcount & Hentries & Hopen).
    simpl in Hm, Hs, Hcount, Hentries, Hopen.
    destruct (analyzeStep_cases analysis pool m)
      as [[Hlow ->]|(k & s & Hk & Hge & ->)].
    + destruct (IH (processed ++ [m])
                  ({| MortgageAnalysis.total := MortgageAnalysis.total analysis;
                      MortgageAnalysis.satisfied := MortgageAnalysis.satisfied analysis;
                      MortgageAnalysis.open := MortgageAnalysis.open analysis ++ [m];
                      MortgageAnalysis.satisfiedList :=
                        MortgageAnalysis.satisfiedList analysis;
                      MortgageAnalysis.unmatchedSatisfactions := None;
                      MortgageAnalysis.scanData := None |}, pool)) as [H1 H2];
        [|split; [exact H1|exact H2]].
      unfold analysisInvariant; simpl. repeat split; try assumption.
      * rewrite app_assoc. now apply Permutation_app_tail.
      * apply Forall_app. split; [exact Hopen|]. constructor; [exact Hlow|constructor].
    + destruct (IH (processed ++ [m])
                  ({| MortgageAnalysis.total := MortgageAnalysis.total analysis;
                      MortgageAnalysis.satisfied :=
                        S (MortgageAnalysis.satisfied analysis);
                      MortgageAnalysis.open := MortgageAnalysis.open analysis;
                      MortgageAnalysis.satisfiedList :=
                        MortgageAnalysis.satisfiedList analysis ++
                          [ {| SatisfiedEntry.mortgage := m;
                               SatisfiedEntry.satisfaction := s;
                               SatisfiedEntry.confidence := "low";
                               SatisfiedEntry.matchMethod := Some "name";
                               SatisfiedEntry.matchReasons := None |} ];
                      MortgageAnalysis.unmatchedSatisfactions := None;
                      MortgageAnalysis.scanData := None |}, removeAt k pool))
        as [H1 H2]; [|split; [exact H1|exact H2]].
      unfold analysisInvariant; simpl. repeat split.
      * rewrite map_app. simpl. rewrite <- app_assoc. simpl.
        apply Permutation_trans with
          (m :: map SatisfiedEntry.mortgage (MortgageAnalysis.satisfiedList analysis)
             ++ MortgageAnalysis.open analysis).
        -- apply Permutation_sym, Permutation_middle.
        -- apply Permutation_trans with (m :: processed);
             [now apply perm_skip|]. apply Permutation_cons_append.
      * rewrite map_app. simpl. rewrite <- app_assoc. simpl.
        eapply Permutation_trans; [|exact Hs].
        apply Permutation_app_head. now apply removeAt_perm.
      * rewrite length_app. simpl. lia.
      * apply Forall_app. split; [exact Hentries|].
        constructor; [|constructor]. simpl. now repeat split.
      * eapply Forall_impl; [|exact Hopen]. intros a Ha.
        now apply removeAt_Forall.
Qed.

Lemma analysis_run (mortgages satisfactions : list Document) :
  analysisInvariant mortgages satisfactions
    (fold_left analyzeStep mortgages (analysisStart mortgages satisfactions))
  /\ MortgageAnalysis.total (analyzeMortgages mortgages satisfactions)
     = List.length mortgages.
Proof.
  destruct (analysis_fold satisfactions mortgages []
              (analysisStart mortgages satisfactions)) as [H1 H2].
  - unfold analysisInvariant, analysisStart. simpl.
    repeat split; try constructor. apply Permutation_refl.
  - split; [exact H1|exact H2].
Qed.

(** X6. The name-based analysis accounts for every mortgage and uses no
    satisfaction twice: each mortgage is in exactly one satisfied entry or in
    the open list, the satisfactions of the entries together with those left
    in the pool are the satisfactions given, and the counters agree with the
    lists, so satisfied plus open equals total. *)
Theorem name_analysis_accounts (mortgages satisfactions : list Document) :
  let analysis := analyzeMortgages mortgages satisfactions in
  Permutation (map SatisfiedEntry.mortgage (MortgageAnalysis.satisfiedList analysis)
                 ++ MortgageAnalysis.open analysis)
              mortgages
  /\ Permutation (map SatisfiedEntry.satisfaction
                      (MortgageAnalysis.satisfiedList analysis)
                    ++ remainingSatisfactions mortgages satisfactions)
                 satisfactions
  /\ MortgageAnalysis.total analysis = List.length mortgages
  /\ MortgageAnalysis.satisfied analysis
     = List.length (MortgageAnalysis.satisfiedList analysis)
  /\ (MortgageAnalysis.satisfied analysis
      + List.length (MortgageAnalysis.open analysis)
      = MortgageAnalysis.total analysis)%nat
  /\ (MortgageAnalysis.satisfied analysis <= List.length satisfactions)%nat.
Proof.
  intro analysis.
  destruct (analysis_run mortgages satisfactions)
    as [(Hm & Hs & Hcount & _ & _) Htotal].
  fold (remainingSatisfactions mortgages satisfactions) in Hs.
  change (fst (fold_left analyzeStep mortgages
                 (analysisStart mortgages satisfactions))) with analysis in *.
  split; [exact Hm|]. split; [exact Hs|]. split; [exact Htotal|].
  split; [exact Hcount|].
  apply Permutation_length in Hm. apply Permutation_length in Hs.
  rewrite length_app, length_map in Hm, Hs. fold analysis in Htotal. lia.
Qed.

(** X7. What the name-based analysis calls satisfied and open: every entry
    has confidence low and method name and its pair scores at least 10; a
    mortgage reported open scores below 10 with every satisfaction left in
    the pool, so none of those is recorded after it; and without
    satisfactions every mortgage is open, in the order given. *)
Theorem name_analysis_entries (mortgages satisfactions : list Document) :
  let analysis := analyzeMortgages mortgages satisfactions in
  Forall (fun entry =>
            SatisfiedEntry.confidence entry = "low"
            /\ SatisfiedEntry.matchMethod entry = Some "name"
            /\ 10 <= nameScore (SatisfiedEntry.mortgage entry)
                               (SatisfiedEntry.satisfaction entry))
         (MortgageAnalysis.satisfiedList analysis)
  /\ Forall (fun m =>
               Forall (fun s => nameScore m s < 10
                                /\ recordTimestamp s <= recordTimestamp m)
                      (remainingSatisfactions mortgages satisfactions))
            (MortgageAnalysis.open analysis)
  /\ MortgageAnalysis.open (analyzeMortgages mortgages []) = mortgages
  /\ MortgageAnalysis.satisfiedList (analyzeMortgages mortgages []) = [].
Proof.
  intro analysis.
  destruct (analysis_run mortgages satisfactions)
    as [(_ & _ & _ & Hentries & Hopen) _].
  split; [exact Hentries|]. split.
  - eapply Forall_impl; [|exact Hopen]. intros m Hm.
    eapply Forall_impl; [|exact Hm]. intros s Hs. simpl in *. split; [exact Hs|].
    destruct (nameScore_dated m s) as [_ Hlater].
    destruct (Z.le_gt_cases (recordTimestamp s) (recordTimestamp m)) as [H|H];
      [exact H|]. apply Z.lt_gt in H. apply Hlater in H. lia.
  - destruct (analysis_run mortgages []) as [(Hm & Hs & _ & _ & _) _].
    assert (Hnone : MortgageAnalysis.satisfiedList (analyzeMortgages mortgages []) = []).
    { apply Permutation_length in Hs. rewrite length_app, length_map in Hs.
      simpl in Hs.
      change (fst (fold_left analyzeStep mortgages (analysisStart mortgages [])))
        with (analyzeMortgages mortgages []) in Hs.
      destruct (MortgageAnalysis.satisfiedList (analyzeMortgages mortgages []));
        [reflexivity|simpl in Hs; lia]. }
    split; [|exact Hnone].
    unfold analyzeMortgages.
    assert (H : forall ms analysis0,
               MortgageAnalysis.open
                 (fst (fold_left analyzeStep ms (analysis0, [])))
               = MortgageAnalysis.open analysis0 ++ ms).
    { induction ms as [|m ms IH]; intro a0; cbn [fold_left].
      - simpl. now rewrite app_nil_r.
      - destruct (analyzeStep_cases a0 [] m) as [[_ ->]|(k & s & Hk & _)].
        + rewrite IH. simpl. now rewrite <- app_assoc.
        + destruct k; discriminate. }
    apply (H mortgages).
Qed.

(** ** Open liens *)

Lemma identifyOpenLiens_unfold (liens found : list Document) :
  identifyOpenLiens liens found = fst (fold_left lienStep liens ([], found)).
Proof. reflexivity. Qed.

Lemma findRelease_spec (lien : Document) (pool : list Document) :
  forall i,
    match findRelease lien i pool with
    | Some j =>
        exists k rel,
          j = (i + k)%nat /\ nth_error pool k = Some rel
          /\ releases lien rel = true
    | None => Forall (fun rel => releases lien rel = false) pool
    end.
Proof.
  induction pool as [|rel rest IH]; intro i; simpl; [constructor|].
  fold (releases lien rel).
  destruct (releases lien rel) eqn:E.
  - exists 0%nat, rel. rewrite Nat.add_0_r. now repeat split.
  - specialize (IH (S i)). destruct (findRelease lien (S i) rest).
    + destruct IH as (k & r & -> & Hk & Hr). exists (S k), r.
      repeat split; [lia|exact Hk|exact Hr].
    + now constructor.
Qed.

Lemma removeAt_length {A : Type} (k : nat) (l : list A) (x : A) :
  nth_error l k = Some x -> S (List.length (removeAt k l)) = List.length l.
Proof.
  intro H. apply removeAt_perm in H. apply Permutation_length in H. exact H.
Qed.

Lemma lien_fold (found : list Document) (liens : list Document) :
  forall processed state,
    lienInvariant processed found state ->
    lienInvariant (processed ++ liens) found (fold_left lienStep liens state).
Proof.
  induction liens as [|lien liens IH]; intros processed [openLiens pool] Hinv.
  - simpl. now rewrite app_nil_r.
  - cbn [fold_left].
    replace (processed ++ lien :: liens) with ((processed ++ [lien]) ++ liens)
      by now rewrite <- app_assoc.
    apply IH. destruct Hinv as (Hcount & Hle & Hopen & Hpool & Hnone).
    simpl in Hcount, Hle, Hopen, Hpool, Hnone.
    unfold lienStep. pose proof (findRelease_spec lien pool 0) as Hfind.
    destruct (findRelease lien 0 pool) as [j|].
    + destruct Hfind as (k & rel & -> & Hk & _). simpl.
      unfold lienInvariant; simpl. repeat split.
      * rewrite length_app. simpl. pose proof (removeAt_length k pool rel Hk). lia.
      * rewrite length_app. simpl. lia.
      * intros x Hx. apply in_or_app. left. now apply Hopen.
      * intros x Hx. apply Hpool. now apply removeAt_In in Hx.
      * eapply Forall_impl; [|exact Hnone]. intros a Ha. now apply removeAt_Forall.
    + unfold lienInvariant; simpl. repeat split.
      * rewrite !length_app. simpl. lia.
      * rewrite !length_app. simpl. lia.
      * intros x Hx. apply in_app_or in Hx. apply in_or_app.
        destruct Hx as [Hx|[<-|[]]]; [left; now apply Hopen|right; now left].
      * exact Hpool.
      * apply Forall_app. split; [exact Hnone|]. constructor; [exact Hfind|constructor].
Qed.

Lemma lien_run (liens found : list Document) :
  lienInvariant liens found (fold_left lienStep liens ([], found)).
Proof.
  apply (lien_fold found liens [] ([], found)).
  unfold lienInvariant; simpl.
  repeat split; [lia|intros x []|apply incl_refl|constructor].
Qed.

(** X8. Open liens: a release discharges at most one lien, so the liens
    reported open are as many as the liens given less the releases used up;
    every open lien is one of the liens given, and no release left over is
    recorded after it under a shared name; without releases every lien is
    open. *)
Theorem open_liens_rule (liens found : list Document) :
  let openLiens := identifyOpenLiens liens found in
  let left := remainingReleases liens found in
  (List.length openLiens + List.length found
   = List.length liens + List.length left)%nat
  /\ (List.length openLiens <= List.length liens)%nat
  /\ (List.length liens <= List.length openLiens + List.length found)%nat
  /\ incl openLiens liens
  /\ incl left found
  /\ Forall (fun lien => Forall (fun rel => releases lien rel = false) left)
            openLiens
  /\ identifyOpenLiens liens [] = liens.
Proof.
  intros openLiens left.
  destruct (lien_run liens found) as (Hcount & Hle & Hopen & Hpool & Hnone).
  split; [exact Hcount|]. split; [exact Hle|].
  split; [unfold openLiens; rewrite identifyOpenLiens_unfold; lia|].
  split; [exact Hopen|]. split; [exact Hpool|]. split; [exact Hnone|].
  rewrite identifyOpenLiens_unfold.
  assert (H : forall ls opened,
             fst (fold_left lienStep ls (opened, [])) = opened ++ ls).
  { induction ls as [|l ls IH]; intro opened; cbn [fold_left].
    - simpl. now rewrite app_nil_r.
    - simpl. rewrite IH. now rewrite <- app_assoc. }
  apply (H liens []).
Qed.

(** ** Flags and the summary built from them *)

Lemma identifyFlags_parts (documents : list Document) :
  identifyFlags documents
  = highFlagPart "lis_pendens" lisPendensMessage (filter (hasCode "LP") documents)
    ++ highFlagPart "judgment" judgmentMessage (filter (hasCode "JUD") documents)
    ++ highFlagPart "tax_lien" taxLienMessage (filter isTaxLien documents)
    ++ quickFlipPart documents.
Proof.
  unfold identifyFlags, highFlagPart, quickFlipPart, lisPendensMessage,
    judgmentMessage, taxLienMessage.
  change (fun d : Document => String.eqb (docTypeShort d) "LP") with (hasCode "LP").
  change (fun d : Document => String.eqb (docTypeShort d) "JUD") with (hasCode "JUD").
  change (fun d : Document => String.eqb (docTypeShort d) "D") with (hasCode "D").
  destruct (Nat.ltb 0 (List.length (filter (hasCode "LP") documents)));
    destruct (Nat.ltb 0 (List.length (filter (hasCode "JUD") documents)));
    destruct (Nat.ltb 0 (List.length (filter isTaxLien documents)));
    destruct (Nat.leb 2 (List.length (filter (hasCode "D") documents)));
    try reflexivity;
    destruct (jsSort newestFirst (filter (hasCode "D") documents)) as [|r [|p rest]];
    try reflexivity;
    destruct (Qltb (daysBetween r p) (inject_Z 90)); reflexivity.
Qed.

Lemma highFlagPart_In (type : string) (describe : nat -> string)
      (found : list Document) (f : Flag.t) :
  In f (highFlagPart type describe found)
  <-> found <> []
      /\ f = {| Flag.severity := "high";
                Flag.type := type;
                Flag.message := describe (List.length found);
                Flag.documents := found |}.
Proof.
  unfold highFlagPart. destruct found as [|d found]; simpl.
  - split; [contradiction|]. intros [H _]. congruence.
  - split.
    + intros [<-|[]]. split; [discriminate|reflexivity].
    + intros [_ ->]. now left.
Qed.

Lemma quickFlipPart_shape (documents : list Document) :
  quickFlipPart documents = []
  \/ exists recentDeed previousDeed,
       quickFlipPart documents = [quickFlipFlag recentDeed previousDeed].
Proof.
  unfold quickFlipPart.
  destruct (Nat.leb 2 _); [|now left].
  destruct (jsSort newestFirst _) as [|r [|p rest]]; try now left.
  destruct (Qltb _ _); [right; now exists r, p|now left].
Qed.

Lemma filter_empty_iff {A : Type} (p : A -> bool) (l : list A) :
  filter p l <> [] <-> exists x, In x l /\ p x = true.
Proof.
  rewrite <- filter_nonempty. rewrite Nat.ltb_lt.
  destruct (filter p l); simpl; split; intro H; try congruence; try lia.
Qed.

(** X9. The three high-severity rules: a flag of type lis_pendens, judgment
    or tax_lien is raised exactly when some document has code LP, code JUD,
    or code LNCORPTX or a label containing TAX; the flag has severity high,
    lists all those documents in input order and states their number. *)
Theorem high_flags_rule (documents : list Document) :
  let flags := identifyFlags documents in
  let rule (type : string) (describe : nat -> string) (test : Document -> bool) :=
    ((exists f, In f flags /\ Flag.type f = type)
     <-> exists d, In d documents /\ test d = true)
    /\ forall f, In f flags -> Flag.type f = type ->
                 f = {| Flag.severity := "high";
                        Flag.type := type;
                        Flag.message := describe (List.length (filter test documents));
                        Flag.documents := filter test documents |} in
  rule "lis_pendens"
       (fun n => ("Found " ++ Js.showNat n ++ " lis pendens (pending litigation)")%string)
       (fun d => String.eqb (docTypeShort d) "LP")
  /\ rule "judgment"
          (fun n => ("Found " ++ Js.showNat n ++ " judgment(s)")%string)
          (fun d => String.eqb (docTypeShort d) "JUD")
  /\ rule "tax_lien"
          (fun n => ("Found " ++ Js.showNat n ++ " tax-related lien(s)")%string)
          (fun d => orb (String.eqb (docTypeShort d) "LNCORPTX")
                        (Js.includes (docType d) "TAX")).
Proof.
  intros flags rule.
  assert (Hquick : forall f, In f (quickFlipPart documents) ->
                             Flag.type f = "quick_flip").
  { intros f Hf. destruct (quickFlipPart_shape documents) as [E|(r & p & E)];
      rewrite E in Hf; simpl in Hf; [contradiction|].
    destruct Hf as [<-|[]]. reflexivity. }
  assert (Hin : forall f,
             In f flags
             <-> In f (highFlagPart "lis_pendens" lisPendensMessage
                                    (filter (hasCode "LP") documents))
                 \/ In f (highFlagPart "judgment" judgmentMessage
                                       (filter (hasCode "JUD") documents))
                 \/ In f (highFlagPart "tax_lien" taxLienMessage
                                       (filter isTaxLien documents))
                 \/ In f (quickFlipPart documents)).
  { intro f. unfold flags. rewrite identifyFlags_parts. rewrite !in_app_iff. tauto. }
  unfold rule.
  split; [|split]; (split; [split|]).
  - intros (f & Hf & Hty). apply Hin in Hf.
    destruct Hf as [Hf|[Hf|[Hf|Hf]]];
      try (apply highFlagPart_In in Hf; destruct Hf as [Hne ->];
           try discriminate Hty; now apply filter_empty_iff in Hne).
    apply Hquick in Hf. congruence.
  - intro Hd. apply (filter_empty_iff (hasCode "LP")) in Hd.
    eexists. split; [apply Hin; left; apply highFlagPart_In; split;
                     [exact Hd|reflexivity]|reflexivity].
  - intros f Hf Hty. apply Hin in Hf.
    destruct Hf as [Hf|[Hf|[Hf|Hf]]];
      try (apply highFlagPart_In in Hf; destruct Hf as [Hne ->];
           try discriminate Hty; reflexivity).
    apply Hquick in Hf. congruence.
  - intros (f & Hf & Hty). apply Hin in Hf.
    destruct Hf as [Hf|[Hf|[Hf|Hf]]];
      try (apply highFlagPart_In in Hf; destruct Hf as [Hne ->];
           try discriminate Hty; now apply filter_empty_iff in Hne).
    apply Hquick in Hf. congruence.
  - intro Hd. apply (filter_empty_iff (hasCode "JUD")) in Hd.
    eexists. split; [apply Hin; right; left; apply highFlagPart_In; split;
                     [exact Hd|reflexivity]|reflexivity].
  - intros f Hf Hty. apply Hin in Hf.
    destruct Hf as [Hf|[Hf|[Hf|Hf]]];
      try (apply highFlagPart_In in Hf; destruct Hf as [Hne ->];
           try discriminate Hty; reflexivity).
    apply Hquick in Hf. congruence.
  - intros (f & Hf & Hty). apply Hin in Hf.
    destruct Hf as [Hf|[Hf|[Hf|Hf]]];
      try (apply highFlagPart_In in Hf; destruct Hf as [Hne ->];
           try discriminate Hty; now apply filter_empty_iff in Hne).
    apply Hquick in Hf. congruence.
  - intro Hd. apply (filter_empty_iff isTaxLien) in Hd.
    eexists. split; [apply Hin; right; right; left; apply highFlagPart_In; split;
                     [exact Hd|reflexivity]|reflexivity].
  - intros f Hf Hty. apply Hin in Hf.
    destruct Hf as [Hf|[Hf|[Hf|Hf]]];
      try (apply highFlagPart_In in Hf; destruct Hf as [Hne ->];
           try discriminate Hty; reflexivity).
    apply Hquick in Hf. congruence.
Qed.

(** X10. The flag list has at most four flags, one per type at most and in
    the order lis_pendens, judgment, tax_lien, quick_flip; in the summary
    built from it the high and medium counts add up to the number of flags,
    with at most three high and at most one medium. *)
Theorem flags_and_their_counts (documents : list Document)
        (chainOfTitle : list ChainEntry.t) (mortgageAnalysis : MortgageAnalysis.t)
        (openLiens : list Document) :
  let flags := identifyFlags documents in
  let summary :=
    generateSummary documents chainOfTitle mortgageAnalysis openLiens flags in
  (List.length flags <= 4)%nat
  /\ NoDup (map Flag.type flags)
  /\ map Flag.type flags
     = filter (fun type => existsb (fun f => String.eqb (Flag.type f) type) flags)
              ["lis_pendens"; "judgment"; "tax_lien"; "quick_flip"]
  /\ (Summary.highSeverityFlags summary + Summary.mediumSeverityFlags summary
      = List.length flags)%nat
  /\ (Summary.highSeverityFlags summary <= 3)%nat
  /\ (Summary.mediumSeverityFlags summary <= 1)%nat.
Proof.
  intros flags summary. unfold summary, generateSummary, flags.
  cbn [Summary.highSeverityFlags Summary.mediumSeverityFlags].
  rewrite identifyFlags_parts. unfold highFlagPart.
  destruct (quickFlipPart_shape documents) as [->|(r & p & ->)];
    destruct (Nat.ltb 0 (List.length (filter (hasCode "LP") documents)));
    destruct (Nat.ltb 0 (List.length (filter (hasCode "JUD") documents)));
    destruct (Nat.ltb 0 (List.length (filter isTaxLien documents)));
    simpl; repeat split; try lia; try reflexivity;
    repeat (constructor; [simpl; intuition discriminate|]); constructor.
Qed.

(** ** Reading a batch of documents *)

Section BatchFacts.
Variable readPdf : JsVal -> Result PdfData.t.
Variable ocrPage : JsVal -> nat -> Result string.
Variable reMatch : string -> string -> option (list (option string)).
Variable reMatchAll : string -> string -> list (list (option string)).
Variable parseFloat : string -> option Q.
Variable enableOCR : bool.
Variable maxOCRPages : nat.

Abbreviation step :=
  (batchStep readPdf ocrPage reMatch reMatchAll parseFloat enableOCR maxOCRPages).
Abbreviation pushed :=
  (scannedDocument readPdf ocrPage reMatch reMatchAll parseFloat enableOCR maxOCRPages).

Lemma withExtractedData_same (doc : Document) :
  withExtractedData (extractedData doc) doc = doc.
Proof. destruct doc; reflexivity. Qed.

Lemma meaningful_long (text : string) :
  meaningful text = true ->
  (100 < String.length (Js.trim text))%nat /\ tooShort text = false.
Proof.
  unfold meaningful, tooShort. intro H. apply andb_true_iff in H.
  destruct H as [Hne Hlen]. apply Nat.ltb_lt in Hlen. split; [exact Hlen|].
  apply negb_true_iff in Hne. rewrite Hne. simpl.
  apply Nat.ltb_ge. lia.
Qed.

Lemma extraction_flags (documentId : JsVal) :
  let extraction :=
    extractTextFromDocument readPdf ocrPage enableOCR maxOCRPages documentId in
  Extraction.needsManualReview extraction = negb (Extraction.hasText extraction)
  /\ (Extraction.hasText extraction = true ->
      Extraction.success extraction = true
      /\ meaningful (Extraction.text extraction) = true)
  /\ (Extraction.usedOCR extraction = true ->
      Extraction.success extraction = true /\ enableOCR = true).
Proof.
  unfold extractTextFromDocument. destruct (readPdf documentId) as [data|message].
  - destruct (andb (negb (meaningful (PdfData.text data))) enableOCR) eqn:E.
    + destruct (ocrPages _ _ _ _) as [text used]. simpl.
      apply andb_true_iff in E. destruct E as [_ ->]. repeat split; auto.
    + simpl. repeat split; auto; discriminate.
  - simpl. repeat split; discriminate.
Qed.

Lemma pushed_cases (doc : Document) :
  let note := snd (pushed doc) in
  noteNeedsReview note = negb (noteHasText note)
  /\ (noteUsedOCR note = true -> noteSuccess note = true)
  /\ (noteHasText note = true -> noteSuccess note = true)
  /\ (noteHasText note = false -> fst (pushed doc) = doc)
  /\ (noteHasText note = true ->
      exists text,
        (100 < String.length (Js.trim text))%nat
        /\ tooShort text = false
        /\ fst (pushed doc)
           = withExtractedData
               (parseByType reMatch reMatchAll parseFloat doc text) doc).
Proof.
  unfold scannedDocument, noteOf, noteNeedsReview, noteHasText, noteUsedOCR,
    noteSuccess. simpl.
  destruct (extraction_flags (documentId doc)) as (Hreview & Htext & Hocr).
  split; [exact Hreview|]. split; [intro H; now apply Hocr|].
  split; [intro H; now apply Htext|]. split.
  - intros ->. now rewrite andb_false_r.
  - intro H. destruct (Htext H) as [Hs Hm]. rewrite H, Hs. simpl.
    exists (Extraction.text
              (extractTextFromDocument readPdf ocrPage enableOCR maxOCRPages
                                       (documentId doc))).
    destruct (meaningful_long _ Hm) as [Hlen Hshort]. now repeat split.
Qed.

Lemma step_fields (results : BatchResults.t) (doc : Document) :
  let note := snd (pushed doc) in
  BatchResults.documents (step results doc)
  = BatchResults.documents results ++ [pushed doc]
  /\ BatchResults.scanned (step results doc) = S (BatchResults.scanned results)
  /\ BatchResults.failed (step results doc) = BatchResults.failed results
  /\ BatchResults.successful (step results doc)
     = (BatchResults.successful results + countIf (noteHasText note))%nat
  /\ BatchResults.needsManualReview (step results doc)
     = (BatchResults.needsManualReview results
        + countIf (negb (noteHasText note)))%nat
  /\ BatchResults.usedOCR (step results doc)
     = (BatchResults.usedOCR results
        + countIf (andb (noteHasText note) (noteUsedOCR note)))%nat.
Proof.
  destruct (extraction_flags (documentId doc)) as (_ & Htext & _).
  unfold batchStep, scannedDocument, noteOf, noteHasText, noteUsedOCR, countIf.
  simpl.
  destruct (Extraction.hasText _) eqn:Eh.
  - destruct (Htext eq_refl) as [-> _]. simpl.
    destruct (Extraction.usedOCR _); repeat split; lia.
  - rewrite andb_false_r. simpl. repeat split; lia.
Qed.

Lemma filter_cons_length {A : Type} (p : A -> bool) (x : A) (l : list A) :
  List.length (filter p (x :: l)) = (countIf (p x) + List.length (filter p l))%nat.
Proof. simpl. destruct (p x); reflexivity. Qed.

Lemma batch_fold (documents : list Document) :
  forall results,
    let final := fold_left step documents results in
    BatchResults.documents final
    = BatchResults.documents results ++ map pushed documents
    /\ BatchResults.scanned final
       = (BatchResults.scanned results + List.length documents)%nat
    /\ BatchResults.failed final = BatchResults.failed results
    /\ BatchResults.successful final
       = (BatchResults.successful results
          + List.length (filter (fun o => noteHasText (snd o)) (map pushed documents)))%nat
    /\ BatchResults.needsManualReview final
       = (BatchResults.needsManualReview results
          + List.length (filter (fun o => negb (noteHasText (snd o)))
                                (map pushed documents)))%nat
    /\ BatchResults.usedOCR final
       = (BatchResults.usedOCR results
          + List.length (filter (fun o => andb (noteHasText (snd o))
                                               (noteUsedOCR (snd o)))
                                (map pushed documents)))%nat.
Proof.
  induction documents as [|doc documents IH]; intro results; cbn [fold_left].
  - simpl. rewrite app_nil_r. repeat split; lia.
  - destruct (IH (step results doc)) as (Hd & Hs & Hf & Hok & Hrev & Hocr).
    destruct (step_fields results doc) as (Sd & Ss & Sf & Sok & Srev & Socr).
    cbv zeta. rewrite Hd, Hs, Hf, Hok, Hrev, Hocr, Sd, Ss, Sf, Sok, Srev, Socr.
    cbn [map]. rewrite !filter_cons_length. cbn [List.length].
    rewrite <- app_assoc. repeat split; lia.
Qed.
End BatchFacts.

Lemma Forall2_map_self {A B : Type} (R : A -> B -> Prop) (f : A -> B) (l : list A) :
  (forall a, R a (f a)) -> Forall2 R l (map f l).
Proof. intro H. induction l as [|a l IH]; simpl; constructor; auto. Qed.

Lemma filter_complement_length {A : Type} (p : A -> bool) (l : list A) :
  (List.length (filter p l) + List.length (filter (fun x => negb (p x)) l)
   = List.length l)%nat.
Proof.
  pose proof (filter_split p l) as H. apply Permutation_length in H.
  now rewrite length_app in H.
Qed.

Lemma filter_weaker_length {A : Type} (p q : A -> bool) (l : list A) :
  (List.length (filter (fun x => andb (p x) (q x)) l)
   <= List.length (filter p l))%nat.
Proof.
  induction l as [|x l IH]; simpl; [lia|].
  destruct (p x), (q x); simpl; lia.
Qed.

(** X11. The counters of a batch: every document is scanned and pushed once,
    in order, and differs from the document given at most in its extracted
    data; a document counts as successful exactly when it has text and as
    needing manual review otherwise, so the two counters add up to the
    number scanned; OCR is only counted for successful documents. *)
Theorem batch_counts
        (readPdf : JsVal -> Result PdfData.t)
        (ocrPage : JsVal -> nat -> Result string)
        (reMatch : string -> string -> option (list (option string)))
        (reMatchAll : string -> string -> list (list (option string)))
        (parseFloat : string -> option Q)
        (enableOCR : bool) (maxOCRPages : nat) (documents : list Document) :
  let results :=
    batchExtractDocuments readPdf ocrPage reMatch reMatchAll parseFloat
                          enableOCR maxOCRPages documents in
  BatchResults.scanned results = List.length documents
  /\ Forall2 (fun doc pushed =>
                fst pushed = withExtractedData (extractedData (fst pushed)) doc)
             documents (BatchResults.documents results)
  /\ BatchResults.successful results
     = List.length (filter (fun pushed => noteHasText (snd pushed))
                           (BatchResults.documents results))
  /\ BatchResults.needsManualReview results
     = List.length (filter (fun pushed => noteNeedsReview (snd pushed))
                           (BatchResults.documents results))
  /\ (BatchResults.successful results + BatchResults.needsManualReview results
      = BatchResults.scanned results)%nat
  /\ (BatchResults.usedOCR results <= BatchResults.successful results)%nat.
Proof.
  intro results.
  destruct (batch_fold readPdf ocrPage reMatch reMatchAll parseFloat enableOCR
                       maxOCRPages documents batchStart)
    as (Hd & Hs & _ & Hok & Hrev & Hocr).
  fold (batchExtractDocuments readPdf ocrPage reMatch reMatchAll parseFloat
          enableOCR maxOCRPages documents) in *.
  fold results in Hd, Hs, Hok, Hrev, Hocr. simpl in Hd, Hs, Hok, Hrev, Hocr.
  set (pushedOf := scannedDocument readPdf ocrPage reMatch reMatchAll parseFloat
                                   enableOCR maxOCRPages) in *.
  assert (Hnote : forall l : list Document,
             filter (fun o => noteNeedsReview (snd o)) (map pushedOf l)
             = filter (fun o => negb (noteHasText (snd o))) (map pushedOf l)).
  { intro l. apply filter_ext_in. intros o Ho. apply in_map_iff in Ho.
    destruct Ho as (d & <- & _). unfold pushedOf.
    now destruct (pushed_cases readPdf ocrPage reMatch reMatchAll parseFloat
                               enableOCR maxOCRPages d) as (-> & _). }
  rewrite Hd, Hs, Hok, Hrev, Hocr.
  split; [reflexivity|]. split.
  - apply Forall2_map_self. intro doc.
    destruct (pushed_cases readPdf ocrPage reMatch reMatchAll parseFloat
                           enableOCR maxOCRPages doc) as (_ & _ & _ & Hno & Hyes).
    fold pushedOf in Hno, Hyes.
    destruct (noteHasText (snd (pushedOf doc))) eqn:E.
    + destruct (Hyes eq_refl) as (text & _ & _ & ->). reflexivity.
    + rewrite (Hno eq_refl). symmetry. apply withExtractedData_same.
  - split; [reflexivity|]. split; [now rewrite Hnote|]. split.
    + pose proof (filter_complement_length
                    (fun o => noteHasText (snd o)) (map pushedOf documents)) as H.
      rewrite length_map in H. lia.
    + apply filter_weaker_length.
Qed.

(** X12. The batch hands a parser only text whose trimmed length exceeds 100
    characters: a pushed document without text is the document given, and
    one with text carries what the parser for its code returned on such a
    text, so the parsers' short-text guard never decides inside a batch. *)
Theorem batch_parses_only_meaningful_text
        (readPdf : JsVal -> Result PdfData.t)
        (ocrPage : JsVal -> nat -> Result string)
        (reMatch : string -> string -> option (list (option string)))
        (reMatchAll : string -> string -> list (list (option string)))
        (parseFloat : string -> option Q)
        (enableOCR : bool) (maxOCRPages : nat) (documents : list Document) :
  Forall2 (fun doc pushed =>
             (noteHasText (snd pushed) = false /\ fst pushed = doc)
             \/ (noteHasText (snd pushed) = true
                 /\ noteSuccess (snd pushed) = true
                 /\ exists text,
                      (100 < String.length (Js.trim text))%nat
                      /\ tooShort text = false
                      /\ fst pushed
                         = withExtractedData
                             (parseByType reMatch reMatchAll parseFloat doc text)
                             doc))
          documents
          (BatchResults.documents
             (batchExtractDocuments readPdf ocrPage reMatch reMatchAll parseFloat
                                    enableOCR maxOCRPages documents)).
Proof.
  destruct (batch_fold readPdf ocrPage reMatch reMatchAll parseFloat enableOCR
                       maxOCRPages documents batchStart) as (Hd & _).
  fold (batchExtractDocuments readPdf ocrPage reMatch reMatchAll parseFloat
          enableOCR maxOCRPages documents) in Hd.
  rewrite Hd. simpl. apply Forall2_map_self. intro doc.
  destruct (pushed_cases readPdf ocrPage reMatch reMatchAll parseFloat
                         enableOCR maxOCRPages doc) as (_ & _ & Hs & Hno & Hyes).
  destruct (noteHasText _) eqn:E.
  - right. split; [reflexivity|]. split; [now apply Hs|]. now apply Hyes.
  - left. split; [reflexivity|]. now apply Hno.
Qed.

Lemma ocrPages_ext (ocr1 ocr2 : nat -> Result string) (count : nat) :
  forall first text,
    (forall page, (first <= page < first + count)%nat -> ocr1 page = ocr2 page) ->
    ocrPages ocr1 first count text = ocrPages ocr2 first count text.
Proof.
  induction count as [|count IH]; intros first text H; simpl; [reflexivity|].
  rewrite <- (H first) by lia. destruct (ocr1 first); [|reflexivity].
  apply IH. intros page Hp. apply H. lia.
Qed.

(** X13. [extractTextFromDocument] reads pages 1 to [maxOCRPages] at most:
    two page readers that agree on those pages give the same result,
    whatever they do on later pages. *)
Theorem ocr_reads_bounded_pages
        (readPdf : JsVal -> Result PdfData.t)
        (ocr1 ocr2 : JsVal -> nat -> Result string)
        (enableOCR : bool) (maxOCRPages : nat) (documentId : JsVal) :
  (forall page, (1 <= page <= maxOCRPages)%nat ->
                ocr1 documentId page = ocr2 documentId page) ->
  extractTextFromDocument readPdf ocr1 enableOCR maxOCRPages documentId
  = extractTextFromDocument readPdf ocr2 enableOCR maxOCRPages documentId.
Proof.
  intro H. unfold extractTextFromDocument.
  destruct (readPdf documentId) as [data|message]; [|reflexivity].
  destruct (andb _ enableOCR); [|reflexivity].
  rewrite (ocrPages_ext (ocr1 documentId) (ocr2 documentId)); [reflexivity|].
  intros page Hp. apply H. lia.
Qed.

Lemma ocr_reads_bounded_pages_witness :
  extractTextFromDocument thinPdf stampedPage true 3 (VStr "doc-1")
  = extractTextFromDocument thinPdf otherStampedPage true 3 (VStr "doc-1").
Proof.
  apply (ocr_reads_bounded_pages thinPdf stampedPage otherStampedPage true 3
                                 (VStr "doc-1")).
  intros page Hp. unfold stampedPage, otherStampedPage.
  destruct (Nat.leb_spec page 3); [reflexivity|lia].
Defined.

(** X14. The page reader is left alone when OCR is disabled, when the PDF
    has a text layer of more than 100 characters, and when the PDF cannot be
    read: the result is then the same for every page reader and does not
    claim OCR; with a read PDF its text is the text layer. *)
Theorem ocr_not_consulted
        (readPdf : JsVal -> Result PdfData.t)
        (ocr1 ocr2 : JsVal -> nat -> Result string)
        (enableOCR : bool) (maxOCRPages : nat) (documentId : JsVal) :
  enableOCR = false
  \/ (exists data, readPdf documentId = Ok data
                   /\ meaningful (PdfData.text data) = true)
  \/ (exists message, readPdf documentId = Throw message) ->
  extractTextFromDocument readPdf ocr1 enableOCR maxOCRPages documentId
  = extractTextFromDocument readPdf ocr2 enableOCR maxOCRPages documentId
  /\ Extraction.usedOCR
       (extractTextFromDocument readPdf ocr1 enableOCR maxOCRPages documentId)
     = false
  /\ forall data, readPdf documentId = Ok data ->
       Extraction.text
         (extractTextFromDocument readPdf ocr1 enableOCR maxOCRPages documentId)
       = PdfData.text data.
Proof.
  intro H. unfold extractTextFromDocument.
  destruct (readPdf documentId) as [data|message] eqn:E.
  - assert (Hskip : andb (negb (meaningful (PdfData.text data))) enableOCR = false).
    { destruct H as [->|[(d & Hd & Hm)|(m & Hm)]].
      - apply andb_false_r.
      - injection Hd as <-. now rewrite Hm.
      - discriminate. }
    rewrite Hskip. simpl. repeat split. intros d Hd. now injection Hd as <-.
  - simpl. repeat split. intros d Hd. discriminate.
Qed.

Lemma ocr_not_consulted_witness :
  extractTextFromDocument thinPdf stampedPage false 3 (VStr "doc-1")
  = extractTextFromDocument thinPdf blankPage false 3 (VStr "doc-1").
Proof.
  apply (ocr_not_consulted thinPdf stampedPage blankPage false 3 (VStr "doc-1")).
  left. reflexivity.
Defined.

(** ** The search pipeline *)

Lemma riskLevel_high_only (documents : list Document)
      (chainOfTitle : list ChainEntry.t) (mortgageAnalysis : MortgageAnalysis.t)
      (openLiens : list Document) (flags : list Flag.t) :
  Summary.riskLevel
    (generateSummary documents chainOfTitle mortgageAnalysis openLiens flags)
  = "HIGH" ->
  exists f, In f flags /\ Flag.severity f = "high".
Proof.
  unfold generateSummary. cbn [Summary.riskLevel].
  destruct (Nat.ltb 0 (List.length (filter _ flags))) eqn:E.
  - intros _. apply filter_nonempty in E. destruct E as (f & Hf & Hs).
    exists f. split; [exact Hf|]. now apply String.eqb_eq.
  - destruct (orb _ _); discriminate.
Qed.

(** X15. A search is rated HIGH exactly when some document has code LP, JUD
    or LNCORPTX or a label containing TAX, whether or not the documents are
    scanned and whatever the scan returns. *)
Theorem package_high_iff (batch : list Document -> ScanResults.t)
        (scanDocuments : bool) (documents : list Document) :
  Summary.riskLevel
    (TitlePackage.summary (titlePackage batch scanDocuments documents)) = "HIGH"
  <-> exists d, In d documents
                /\ (String.eqb (docTypeShort d) "LP"
                    || String.eqb (docTypeShort d) "JUD"
                    || String.eqb (docTypeShort d) "LNCORPTX"
                    || Js.includes (docType d) "TAX")%bool = true.
Proof.
  unfold titlePackage. cbn [TitlePackage.summary]. split.
  - intro H. apply riskLevel_high_only in H. destruct H as (f & Hf & Hs).
    rewrite identifyFlags_parts in Hf. rewrite !in_app_iff in Hf.
    destruct Hf as [Hf|[Hf|[Hf|Hf]]].
    + apply highFlagPart_In in Hf. destruct Hf as [Hne _].
      apply filter_empty_iff in Hne. destruct Hne as (d & Hd & Ht).
      exists d. split; [exact Hd|]. unfold hasCode in Ht. now rewrite Ht.
    + apply highFlagPart_In in Hf. destruct Hf as [Hne _].
      apply filter_empty_iff in Hne. destruct Hne as (d & Hd & Ht).
      exists d. split; [exact Hd|]. unfold hasCode in Ht. rewrite Ht.
      now rewrite orb_true_r.
    + apply highFlagPart_In in Hf. destruct Hf as [Hne _].
      apply filter_empty_iff in Hne. destruct Hne as (d & Hd & Ht).
      exists d. split; [exact Hd|]. unfold isTaxLien in Ht.
      rewrite <- !orb_assoc. rewrite Ht. now rewrite !orb_true_r.
    + destruct (quickFlipPart_shape documents) as [E|(r & p & E)];
        rewrite E in Hf; simpl in Hf; [contradiction|].
      destruct Hf as [<-|[]]. discriminate.
  - intros (d & Hd & Ht). apply riskLevel_high.
    rewrite identifyFlags_parts.
    assert (Hraise : forall type describe test,
               test d = true ->
               exists f, In f (highFlagPart type describe (filter test documents))
                         /\ Flag.severity f = "high").
    { intros type describe test Htest. eexists. split.
      - apply highFlagPart_In. split; [|reflexivity].
        apply filter_empty_iff. now exists d.
      - reflexivity. }
    apply orb_true_iff in Ht. destruct Ht as [Ht|Ht];
      [apply orb_true_iff in Ht; destruct Ht as [Ht|Ht];
       [apply orb_true_iff in Ht; destruct Ht as [Ht|Ht]|]|].
    + destruct (Hraise "lis_pendens" lisPendensMessage (hasCode "LP") Ht)
        as (f & Hf & Hs).
      exists f. rewrite !in_app_iff. tauto.
    + destruct (Hraise "judgment" judgmentMessage (hasCode "JUD") Ht)
        as (f & Hf & Hs).
      exists f. rewrite !in_app_iff. tauto.
    + destruct (Hraise "tax_lien" taxLienMessage isTaxLien) as (f & Hf & Hs).
      * unfold isTaxLien. now rewrite Ht.
      * exists f. rewrite !in_app_iff. tauto.
    + destruct (Hraise "tax_lien" taxLienMessage isTaxLien) as (f & Hf & Hs).
      * unfold isTaxLien. rewrite Ht. apply orb_true_r.
      * exists f. rewrite !in_app_iff. tauto.
Qed.

Lemma inBucket_Deeds (d : Document) : inBucket Deeds d = hasCode "D" d.
Proof.
  unfold inBucket, hasCode, categoryOf, oneOf. simpl.
  destruct (String.eqb (docTypeShort d) "D"); [reflexivity|]. simpl.
  repeat match goal with
         | |- context [if ?b then _ else _] => destruct b
         end; reflexivity.
Qed.

Lemma mortgage_codes (d : Document) :
  inBucket Mortgages d = true -> codeIncludes "MTG" d = true.
Proof.
  unfold inBucket, codeIncludes, categoryOf, oneOf. simpl.
  repeat match goal with
         | |- context [String.eqb (docTypeShort d) ?lit] =>
             destruct (String.eqb_spec (docTypeShort d) lit) as [->|_];
             [try discriminate; intros _; reflexivity|]
         end.
  discriminate.
Qed.

Lemma satisfaction_codes (d : Document) :
  inBucket Satisfactions d = true -> codeIncludes "MTG" d = false.
Proof.
  unfold inBucket, codeIncludes, categoryOf, oneOf. simpl.
  repeat match goal with
         | |- context [String.eqb (docTypeShort d) ?lit] =>
             destruct (String.eqb_spec (docTypeShort d) lit) as [->|_];
             [try discriminate; intros _; reflexivity|]
         end.
  discriminate.
Qed.

Lemma bucket_members (documents : list Document) (c : Category) :
  Forall (fun d => inBucket c d = true) (groupByDocType documents c)
  /\ List.length (groupByDocType documents c)
     = List.length (filter (inBucket c) documents).
Proof.
  rewrite groupByDocType_bucket. split.
  - rewrite Forall_forall. intros d Hd.
    apply (Permutation_in _ (jsSort_perm newestFirst _)) in Hd.
    apply filter_In in Hd. now destruct Hd.
  - apply jsSort_length.
Qed.

Lemma filter_all {A : Type} (p : A -> bool) (l : list A) :
  Forall (fun x => p x = true) l -> filter p l = l.
Proof.
  induction 1 as [|x l Hx _ IH]; simpl; [reflexivity|]. now rewrite Hx, IH.
Qed.

Lemma filter_none {A : Type} (p : A -> bool) (l : list A) :
  Forall (fun x => p x = false) l -> filter p l = [].
Proof.
  induction 1 as [|x l Hx _ IH]; simpl; [reflexivity|]. now rewrite Hx, IH.
Qed.

Lemma pushed_keeps_code
      (readPdf : JsVal -> Result PdfData.t)
      (ocrPage : JsVal -> nat -> Result string)
      (reMatch : string -> string -> option (list (option string)))
      (reMatchAll : string -> string -> list (list (option string)))
      (parseFloat : string -> option Q)
      (enableOCR : bool) (maxOCRPages : nat) (code : string) (doc : Document) :
  codeIncludes code
    (fst (scannedDocument readPdf ocrPage reMatch reMatchAll parseFloat
                          enableOCR maxOCRPages doc))
  = codeIncludes code doc.
Proof.
  unfold scannedDocument. simpl. destruct (andb _ _); reflexivity.
Qed.

(** X16. The counts of the summary, with the batch reader as the code has
    it, scanned or not: the documents and the deeds of the chain are counted
    as they are, the total of mortgages is the number of documents with a
    mortgage code, satisfied plus open mortgages equals that total, and the
    open liens are at most the documents with a lien code. *)
Theorem package_counts
        (readPdf : JsVal -> Result PdfData.t)
        (ocrPage : JsVal -> nat -> Result string)
        (reMatch : string -> string -> option (list (option string)))
        (reMatchAll : string -> string -> list (list (option string)))
        (parseFloat : string -> option Q)
        (scanDocuments : bool) (documents : list Document) :
  let package :=
    titlePackage (scanBatch readPdf ocrPage reMatch reMatchAll parseFloat)
                 scanDocuments documents in
  let summary := TitlePackage.summary package in
  Summary.totalDocuments summary = List.length documents
  /\ Summary.chainOfTitleLength summary
     = List.length (filter (fun d => String.eqb (docTypeShort d) "D") documents)
  /\ List.length (TitlePackage.chainOfTitle package)
     = Summary.chainOfTitleLength summary
  /\ Summary.totalMortgages summary
     = List.length (filter (inBucket Mortgages) documents)
  /\ (Summary.satisfiedMortgages summary + Summary.openMortgages summary
      = Summary.totalMortgages summary)%nat
  /\ (Summary.openLiens summary
      <= List.length (filter (inBucket Liens) documents))%nat.
Proof.
  intros package summary. unfold summary, package, titlePackage.
  cbn [TitlePackage.summary TitlePackage.chainOfTitle].
  unfold generateSummary.
  cbn [Summary.totalDocuments Summary.chainOfTitleLength Summary.totalMortgages
       Summary.satisfiedMortgages Summary.openMortgages Summary.openLiens].
  destruct (bucket_members documents Deeds) as [_ Hdeeds].
  destruct (bucket_members documents Mortgages) as [Hmtg Hmtgs].
  destruct (bucket_members documents Satisfactions) as [Hsat _].
  destruct (bucket_members documents Liens) as [_ Hliens].
  assert (Hchain : List.length (buildChainOfTitle (groupByDocType documents Deeds))
                   = List.length (filter (hasCode "D") documents)).
  { rewrite buildChainOfTitle_unfold, mapIndexed_length, jsSort_length, Hdeeds.
    f_equal. apply filter_ext. exact inBucket_Deeds. }
  split; [reflexivity|]. split; [exact Hchain|]. split; [reflexivity|].
  assert (Hname :
            MortgageAnalysis.total
              (analyzeMortgages (groupByDocType documents Mortgages)
                                (groupByDocType documents Satisfactions))
            = List.length (filter (inBucket Mortgages) documents)
            /\ (MortgageAnalysis.satisfied
                  (analyzeMortgages (groupByDocType documents Mortgages)
                                    (groupByDocType documents Satisfactions))
                + List.length
                    (MortgageAnalysis.open
                       (analyzeMortgages (groupByDocType documents Mortgages)
                                         (groupByDocType documents Satisfactions)))
                = List.length (filter (inBucket Mortgages) documents))%nat).
  { destruct (analysis_run (groupByDocType documents Mortgages)
                           (groupByDocType documents Satisfactions))
      as [(Hm & _ & Hcount & _ & _) Htotal].
    split; [now rewrite Htotal|].
    apply Permutation_length in Hm. rewrite length_app, length_map in Hm.
    unfold analyzeMortgages. fold (analysisStart
      (groupByDocType documents Mortgages) (groupByDocType documents Satisfactions)).
    simpl in Hcount. rewrite Hcount. lia. }
  assert (Hlien : (List.length (identifyOpenLiens (groupByDocType documents Liens)
                                                  (groupByDocType documents Releases))
                   <= List.length (filter (inBucket Liens) documents))%nat).
  { destruct (lien_run (groupByDocType documents Liens)
                       (groupByDocType documents Releases)) as (_ & Hle & _).
    rewrite identifyOpenLiens_unfold. simpl in Hle. lia. }
  destruct (andb scanDocuments _).
  - unfold scannedAnalysis.
    cbn [MortgageAnalysis.total MortgageAnalysis.satisfied MortgageAnalysis.open].
    split; [exact Hmtgs|]. split; [|exact Hlien].
    pose proof (matcher_mortgages_partition NodeExtractor
      (filter (codeIncludes "MTG")
         (ScanResults.documents
            (scanBatch readPdf ocrPage reMatch reMatchAll parseFloat
               (groupByDocType documents Mortgages
                  ++ groupByDocType documents Satisfactions))))
      (filter (codeIncludes "SAT")
         (ScanResults.documents
            (scanBatch readPdf ocrPage reMatch reMatchAll parseFloat
               (groupByDocType documents Mortgages
                  ++ groupByDocType documents Satisfactions))))) as Hpart.
    apply Permutation_length in Hpart. rewrite length_app, length_map in Hpart.
    rewrite Hpart. clear Hpart.
    unfold scanBatch. cbn [ScanResults.documents].
    destruct (batch_fold readPdf ocrPage reMatch reMatchAll parseFloat true 3
                (groupByDocType documents Mortgages
                   ++ groupByDocType documents Satisfactions) batchStart)
      as (Hd & _).
    fold (batchExtractDocuments readPdf ocrPage reMatch reMatchAll parseFloat
            true 3 (groupByDocType documents Mortgages
                      ++ groupByDocType documents Satisfactions)) in Hd.
    rewrite Hd. simpl. rewrite map_map.
    set (scanned := fun d => fst (scannedDocument readPdf ocrPage reMatch reMatchAll
                                                   parseFloat true 3 d)).
    assert (Hfilter : forall l : list Document,
               filter (codeIncludes "MTG") (map scanned l)
               = map scanned (filter (codeIncludes "MTG") l)).
    { induction l as [|d l IH]; simpl; [reflexivity|].
      unfold scanned at 1. rewrite pushed_keeps_code, IH.
      destruct (codeIncludes "MTG" d); reflexivity. }
    rewrite Hfilter, length_map, filter_app.
    rewrite (filter_all (codeIncludes "MTG") (groupByDocType documents Mortgages)).
    + rewrite (filter_none (codeIncludes "MTG")
                           (groupByDocType documents Satisfactions)).
      * rewrite app_nil_r. reflexivity.
      * eapply Forall_impl; [|exact Hsat]. intros d Hd'. now apply satisfaction_codes.
    + eapply Forall_impl; [|exact Hmtg]. intros d Hd'. now apply mortgage_codes.
  - destruct Hname as [Ht Hsum]. split; [exact Ht|]. split; [|exact Hlien].
    rewrite Ht. exact Hsum.
Qed.

(** ** What the parsers keep true of their results *)

Lemma firstAccepted_spec {B : Type}
      (reMatch : string -> string -> option (list (option string)))
      (patterns : list string) (text : string)
      (accept : list (option string) -> option B) (v : B) :
  firstAccepted reMatch patterns text accept = Some v ->
  exists pattern m,
    In pattern patterns /\ reMatch pattern text = Some m /\ accept m = Some v.
Proof.
  induction patterns as [|pattern rest IH]; simpl; [discriminate|].
  intro H.
  assert (Hrest : firstAccepted reMatch rest text accept = Some v ->
                  exists p m, (pattern = p \/ In p rest)
                              /\ reMatch p text = Some m /\ accept m = Some v).
  { intro H'. destruct (IH H') as (p & m & Hp & Hm & Ha). exists p, m. tauto. }
  destruct (reMatch pattern text) as [m|] eqn:E; [|now apply Hrest].
  destruct (accept m) as [w|] eqn:A; [|now apply Hrest].
  injection H as <-. exists pattern, m. tauto.
Qed.

Lemma amountWhere_ok (parseFloat : string -> option Q) (ok : Q -> bool)
      (m : list (option string)) (amount : Q) :
  amountWhere parseFloat ok m = Some amount -> ok amount = true.
Proof.
  unfold amountWhere. destruct (parseFloat _) as [a|]; [|discriminate].
  destruct (ok a) eqn:E; [|discriminate]. intro H. injection H as <-. exact E.
Qed.

Lemma addReference_NoDup (refs : list string) (m : list (option string)) :
  NoDup refs -> NoDup (addReference refs m).
Proof.
  intro H. unfold addReference.
  set (ref := if groupTruthy 2 m then bookPage m else group 1 m).
  destruct (existsb (String.eqb ref) refs) eqn:E; [exact H|].
  apply (Permutation_NoDup (Permutation_cons_append refs ref)).
  constructor; [|exact H]. intro Hin.
  assert (Hex : existsb (String.eqb ref) refs = true).
  { apply existsb_exists. exists ref. split; [exact Hin|apply String.eqb_refl]. }
  congruence.
Qed.

Lemma collectReferences_NoDup
      (reMatchAll : string -> string -> list (list (option string)))
      (patterns : list string) (text : string) :
  NoDup (collectReferences reMatchAll patterns text).
Proof.
  unfold collectReferences.
  assert (Hinner : forall ms refs, NoDup refs -> NoDup (fold_left addReference ms refs)).
  { induction ms as [|m ms IH]; intros refs H; simpl; [exact H|].
    apply IH. now apply addReference_NoDup. }
  assert (Houter : forall ps refs,
             NoDup refs ->
             NoDup (fold_left
                      (fun refs pattern =>
                         fold_left addReference (reMatchAll pattern text) refs)
                      ps refs)).
  { induction ps as [|p ps IH]; intros refs H; simpl; [exact H|].
    apply IH. now apply Hinner. }
  apply Houter. constructor.
Qed.

Lemma take_length (n : nat) (s : string) : (String.length (Js.take n s) <= n)%nat.
Proof.
  revert s. induction n as [|n IH]; intro s; simpl; [lia|].
  destruct s as [|c s]; simpl; [lia|]. specialize (IH s). lia.
Qed.

(** X17. Whatever the text and the pattern engine, a principal amount
    reported by [parseMortgageText] lies between 10,000 and 50,000,000, a
    reported lender name has more than three characters, and the instrument
    references are free of duplicates. *)
Theorem parseMortgageText_keeps
        (reMatch : string -> string -> option (list (option string)))
        (reMatchAll : string -> string -> list (list (option string)))
        (parseFloat : string -> option Q) (text : string) :
  let info := parseMortgageText reMatch reMatchAll parseFloat text in
  (forall amount, MortgageInfo.principalAmount info = Some amount ->
                  (inject_Z 10000 <= amount /\ amount <= inject_Z 50000000)%Q)
  /\ (forall name, MortgageInfo.lenderName info = Some name ->
                   (3 < String.length name)%nat)
  /\ NoDup (MortgageInfo.instrumentReferences info)
  /\ MortgageInfo.propertyAddress info = None.
Proof.
  intro info. unfold info, parseMortgageText.
  destruct (tooShort text).
  - simpl. repeat split; try discriminate. constructor.
  - cbv zeta.
    cbn [MortgageInfo.principalAmount MortgageInfo.lenderName
         MortgageInfo.instrumentReferences MortgageInfo.propertyAddress].
    split; [|split; [|split; [apply collectReferences_NoDup|reflexivity]]].
    + intros amount H. apply firstAccepted_spec in H.
      destruct H as (_ & m & _ & _ & H). apply amountWhere_ok in H.
      apply andb_true_iff in H. destruct H as [H1 H2].
      split; now apply Qle_bool_iff.
    + intros name H. apply firstAccepted_spec in H.
      destruct H as (_ & m & _ & _ & H).
      destruct (andb _ _) eqn:E; [|discriminate]. injection H as <-.
      apply andb_true_iff in E. destruct E as [E _]. now apply Nat.ltb_lt in E.
Qed.

(** *** Binary64 rounding *)

Lemma roundHalfEven_close (x : Q) :
  (inject_Z (Js.roundHalfEven x) - (1 # 2) <= x
   /\ x <= inject_Z (Js.roundHalfEven x) + (1 # 2))%Q.
Proof.
  unfold Js.roundHalfEven.
  pose proof (Qfloor_le x) as Hlow.
  pose proof (Qlt_floor x) as Hhigh.
  rewrite inject_Z_plus in Hhigh. change (inject_Z 1) with 1%Q in Hhigh.
  destruct (x - inject_Z (Qfloor x) ?= 1 # 2)%Q eqn:E.
  - apply Qeq_alt in E.
    destruct (Z.even (Qfloor x));
      [|rewrite inject_Z_plus; change (inject_Z 1) with 1%Q]; lra.
  - apply Qlt_alt in E. lra.
  - apply Qgt_alt in E. rewrite inject_Z_plus. change (inject_Z 1) with 1%Q. lra.
Qed.

Lemma two_pow_pos (e : Z) : (0 < (2 # 1) ^ e)%Q.
Proof. apply Qpower_0_lt. reflexivity. Qed.

Lemma two_not_zero : ~ ((2 # 1) == 0)%Q.
Proof. discriminate. Qed.

(** The significand is at least 2^52. *)
Lemma binaryExponent_low (x : Q) :
  (0 < x)%Q ->
  (inject_Z (2 ^ 52) <= x / (2 # 1) ^ Js.binaryExponent x)%Q.
Proof.
  intro Hx. unfold Js.binaryExponent.
  set (a := Z.log2 (Qnum x)). set (b := Z.log2 (Zpos (Qden x))).
  set (e := a - b - 52).
  destruct (Qle_bool (inject_Z (2 ^ 52)) (x / (2 # 1) ^ e)) eqn:E.
  - now apply Qle_bool_iff.
  - assert (Hn : 0 < Qnum x).
    { unfold Qlt in Hx. simpl in Hx. lia. }
    pose proof (Z.log2_spec (Qnum x) Hn) as [Ha _]. fold a in Ha.
    pose proof (Z.log2_spec (Zpos (Qden x)) ltac:(lia)) as [_ Hb]. fold b in Hb.
    assert (Ha0 : 0 <= a) by apply Z.log2_nonneg.
    assert (Hb0 : 0 <= b) by apply Z.log2_nonneg.
    assert (Hq : (inject_Z (2 ^ a) <= x * inject_Z (2 ^ Z.succ b))%Q).
    { unfold Qle, Qmult, inject_Z. simpl. nia. }
    rewrite (Zpower_Qpower 2 a Ha0) in Hq.
    rewrite (Zpower_Qpower 2 (Z.succ b) ltac:(lia)) in Hq.
    change (inject_Z 2) with (2 # 1)%Q in Hq.
    change (inject_Z (2 ^ 52)) with ((2 # 1) ^ 52)%Q.
    pose proof (two_pow_pos (e - 1)) as Hp.
    apply Qle_shift_div_l; [exact Hp|].
    rewrite <- Qpower_plus by exact two_not_zero.
    replace (52 + (e - 1)) with (a - Z.succ b) by (unfold e; lia).
    rewrite Qpower_minus by exact two_not_zero.
    apply Qle_shift_div_r; [apply two_pow_pos|]. exact Hq.
Qed.

Lemma roundPositive_close (x : Q) :
  (0 < x)%Q ->
  (x * (1 - (1 # 2 ^ 53)) <= Js.roundPositive x
   /\ Js.roundPositive x <= x * (1 + (1 # 2 ^ 53)))%Q.
Proof.
  intro Hx. unfold Js.roundPositive.
  pose proof (binaryExponent_low x Hx) as Hlow.
  set (e := Js.binaryExponent x) in *.
  pose proof (two_pow_pos e) as Hp.
  set (P := ((2 # 1) ^ e)%Q) in *.
  set (y := (x / P)%Q) in *.
  destruct (roundHalfEven_close y) as [H1 H2].
  set (m := inject_Z (Js.roundHalfEven y)) in *.
  assert (Hxy : (x == y * P)%Q).
  { unfold y. field. intro H. rewrite H in Hp. discriminate. }
  change (inject_Z (2 ^ 52)) with (4503599627370496 # 1)%Q in Hlow.
  change (1 # 2 ^ 53)%Q with (1 # 9007199254740992)%Q.
  rewrite Hxy.
  split; nra.
Qed.

(** Rounding to binary64 changes a number by at most one part in 2^53. *)
Lemma toDouble_close (x : Q) :
  (0 <= x)%Q ->
  (x * (1 - (1 # 2 ^ 53)) <= Js.toDouble x
   /\ Js.toDouble x <= x * (1 + (1 # 2 ^ 53)))%Q.
Proof.
  intro Hx. unfold Js.toDouble. rewrite Qred_correct.
  destruct (x ?= 0)%Q eqn:E.
  - apply Qeq_alt in E. rewrite E. split; discriminate.
  - apply Qlt_alt in E. lra.
  - apply Qgt_alt in E. now apply roundPositive_close.
Qed.

(** The price derived from stamps is within one part in 2^51 of the stamps
    divided by 0.70 and multiplied by 100. *)
Lemma priceFromStamps_close (stamps : Q) :
  (0 <= stamps)%Q ->
  (stamps * (1000 # 7) * (1 - (1 # 2 ^ 51)) <= priceFromStamps stamps
   /\ priceFromStamps stamps <= stamps * (1000 # 7) * (1 + (1 # 2 ^ 51)))%Q.
Proof.
  intro Hs. unfold priceFromStamps, Js.fmul, Js.fdiv.
  assert (Hc : Js.toDouble (70 # 100) = (3152519739159347 # 4503599627370496)%Q)
    by (vm_compute; reflexivity).
  rewrite Hc.
  set (r := (stamps / (3152519739159347 # 4503599627370496))%Q).
  assert (Hr : (r == stamps * (4503599627370496 # 3152519739159347))%Q)
    by (unfold r; field).
  assert (Hr0 : (0 <= r)%Q) by (rewrite Hr; nra).
  destruct (toDouble_close r Hr0) as [Ha1 Ha2].
  set (a := Js.toDouble r) in *.
  assert (Ha0 : (0 <= a * inject_Z 100)%Q).
  { change (1 # 2 ^ 53)%Q with (1 # 9007199254740992)%Q in Ha1.
    change (inject_Z 100) with (100 # 1)%Q. nra. }
  destruct (toDouble_close (a * inject_Z 100) Ha0) as [Hb1 Hb2].
  set (b := Js.toDouble (a * inject_Z 100)) in *.
  change (1 # 2 ^ 53)%Q with (1 # 9007199254740992)%Q in *.
  change (1 # 2 ^ 51)%Q with (1 # 2251799813685248)%Q.
  change (inject_Z 100) with (100 # 1)%Q in *.
  split; nra.
Qed.

Lemma amountWhere_read (parseFloat : string -> option Q) (ok : Q -> bool)
      (m : list (option string)) (amount : Q) :
  amountWhere parseFloat ok m = Some amount ->
  parseFloat (Js.dropCommas (group 1 m)) = Some amount /\ ok amount = true.
Proof.
  unfold amountWhere. destruct (parseFloat _) as [a|]; [|discriminate].
  destruct (ok a) eqn:E; [|discriminate]. intro H. injection H as <-. now split.
Qed.

(** X18. Whatever the text and the pattern engine, a legal description
    reported by [parseDeedText] has at most 200 characters.  A consideration
    is either the amount that [parseFloat] read from the match of one of the
    four consideration patterns, at least 1,000, or the price computed from
    the documentary stamps that [parseFloat] read from the match of the
    stamp pattern; that price is the binary64 result of
    [(stamps / 0.70) * 100], within one part in 2^51 of the exact quotient
    and not always equal to it: stamps of 700 give 100000 + 2^-36.  The deed
    type is one of six fixed names, and grantors, grantees and property
    address are never filled. *)
Theorem parseDeedText_keeps
        (reMatch : string -> string -> option (list (option string)))
        (parseFloat : string -> option Q) (text : string) :
  let info := parseDeedText reMatch parseFloat text in
  (forall legal, DeedInfo.legalDescription info = Some legal ->
                 (String.length legal <= 200)%nat)
  /\ (forall amount, DeedInfo.consideration info = Some amount ->
        (exists pattern m,
            In pattern considerationPatterns
            /\ reMatch pattern text = Some m
            /\ parseFloat (Js.dropCommas (group 1 m)) = Some amount
            /\ (inject_Z 1000 <= amount)%Q)
        \/ (exists m stamps,
              reMatch "/DOCUMENTARY\s+STAMP/i" text <> None
              /\ reMatch stampAmountPattern text = Some m
              /\ parseFloat (Js.dropCommas (group 1 m)) = Some stamps
              /\ amount
                 = Js.toDouble
                     (Js.toDouble (stamps / Js.toDouble (70 # 100)) * inject_Z 100)
              /\ ((0 <= stamps)%Q ->
                  (stamps * (1000 # 7) * (1 - (1 # 2 ^ 51)) <= amount
                   /\ amount <= stamps * (1000 # 7) * (1 + (1 # 2 ^ 51)))%Q)))
  /\ Js.toDouble (70 # 100) = (3152519739159347 # 4503599627370496)%Q
  /\ priceFromStamps (inject_Z 700) = (inject_Z 100000 + (1 # 2 ^ 36))%Q
  /\ (forall kind, DeedInfo.deedType info = Some kind ->
        In kind ["WARRANTY"; "QUIT CLAIM"; "SPECIAL WARRANTY"; "TAX DEED";
                 "PR DEED"; "TRUSTEE DEED"])
  /\ DeedInfo.grantors info = [] /\ DeedInfo.grantees info = []
  /\ DeedInfo.propertyAddress info = None.
Proof.
  intro info.
  split; [|split; [|split; [vm_compute; reflexivity
                           |split; [vm_compute; reflexivity|]]]];
    unfold info, parseDeedText; destruct (tooShort text);
    try (simpl; repeat split; discriminate);
    cbv zeta;
    cbn [DeedInfo.legalDescription DeedInfo.consideration DeedInfo.deedType
         DeedInfo.grantors DeedInfo.grantees DeedInfo.propertyAddress].
  - intros legal H. apply firstAccepted_spec in H.
    destruct H as (_ & m & _ & _ & H).
    replace legal with (Js.take 200 (Js.trim (group 1 m))) by congruence.
    apply take_length.
  - intros amount H.
    assert (Hstated : firstAccepted reMatch considerationPatterns text
                        (amountWhere parseFloat
                           (fun amount => Qle_bool (inject_Z 1000) amount))
                      = Some amount ->
                      exists pattern m,
                        In pattern considerationPatterns
                        /\ reMatch pattern text = Some m
                        /\ parseFloat (Js.dropCommas (group 1 m)) = Some amount
                        /\ (inject_Z 1000 <= amount)%Q).
    { intro H'. apply firstAccepted_spec in H'.
      destruct H' as (pattern & m & Hin & Hm & H').
      apply amountWhere_read in H'. destruct H' as [Hp Hok].
      exists pattern, m. repeat split; try assumption. now apply Qle_bool_iff. }
    unfold reTest in H.
    destruct (reMatch "/DOCUMENTARY\s+STAMP/i" text) as [found|] eqn:Hdoc;
      [|rewrite andb_false_r in H; left; now apply Hstated].
    rewrite andb_true_r in H.
    destruct (negb _); [|left; now apply Hstated].
    destruct (reMatch stampAmountPattern text) as [m|] eqn:Hm;
      [|left; now apply Hstated].
    destruct (parseFloat _) as [stamps|] eqn:Hp; [|discriminate].
    injection H as <-. right. exists m, stamps.
    split; [discriminate|]. split; [reflexivity|]. split; [exact Hp|].
    split; [reflexivity|]. intro Hs. now apply priceFromStamps_close.
  - split; [|repeat split].
    intros kind H. unfold deedTypeOf in H.
    repeat match type of H with
           | (if ?b then _ else _) = _ => destruct b
           end; try discriminate; injection H as <-; simpl; tauto.
Qed.

(** X19. Whatever the text and the pattern engine, [parseSatisfactionText]
    reports an instrument number or a book and page, never both, an original
    amount of at least 10,000 only, and a lender name of more than three
    characters only. *)
Theorem parseSatisfactionText_keeps
        (reMatch : string -> string -> option (list (option string)))
        (parseFloat : string -> option Q) (text : string) :
  let info := parseSatisfactionText reMatch parseFloat text in
  (SatisfactionInfo.satisfiedInstrumentNumber info = None
   \/ SatisfactionInfo.satisfiedBookPage info = None)
  /\ (forall amount, SatisfactionInfo.originalAmount info = Some amount ->
                     (inject_Z 10000 <= amount)%Q)
  /\ (forall name, SatisfactionInfo.originalLender info = Some name ->
                   (3 < String.length name)%nat).
Proof.
  intro info. unfold info.
  split; [apply parseSatisfactionText_one_reference|].
  unfold parseSatisfactionText. destruct (tooShort text).
  - simpl. split; discriminate.
  - cbv zeta.
    cbn [SatisfactionInfo.originalAmount SatisfactionInfo.originalLender]. split.
    + intros amount H. apply firstAccepted_spec in H.
      destruct H as (_ & m & _ & _ & H). apply amountWhere_ok in H.
      now apply Qle_bool_iff.
    + intros name H. apply firstAccepted_spec in H.
      destruct H as (_ & m & _ & _ & H).
      destruct (Nat.ltb _ _) eqn:E; [|discriminate]. injection H as <-.
      now apply Nat.ltb_lt in E.
Qed.

(** X20. The confidence each parser reports, read from the fields of its
    result.  A mortgage is high with a principal amount and one more field,
    or with lender, rate and maturity together, and low with neither amount
    nor lender nor both of rate and maturity; a deed is high with
    consideration and legal description and low with neither; a satisfaction
    is high with a reference and a lender or an amount, and low with neither
    reference nor lender. *)
Theorem parser_confidence
        (reMatch : string -> string -> option (list (option string)))
        (reMatchAll : string -> string -> list (list (option string)))
        (parseFloat : string -> option Q) (text : string) :
  (let info := parseMortgageText reMatch reMatchAll parseFloat text in
   let amount := numTruthy (MortgageInfo.principalAmount info) in
   let lender := strTruthy (MortgageInfo.lenderName info) in
   let rate := numTruthy (MortgageInfo.interestRate info) in
   let maturity := strTruthy (MortgageInfo.maturityDate info) in
   String.eqb (MortgageInfo.confidence info) "high"
   = (amount && (lender || rate || maturity) || lender && rate && maturity)%bool
   /\ String.eqb (MortgageInfo.confidence info) "low"
      = (negb amount && negb lender && negb (rate && maturity))%bool)
  /\ (let info := parseDeedText reMatch parseFloat text in
      let consideration := numTruthy (DeedInfo.consideration info) in
      let legal := strTruthy (DeedInfo.legalDescription info) in
      String.eqb (DeedInfo.confidence info) "high" = (consideration && legal)%bool
      /\ String.eqb (DeedInfo.confidence info) "low"
         = (negb consideration && negb legal)%bool)
  /\ (let info := parseSatisfactionText reMatch parseFloat text in
      let reference :=
        (strTruthy (SatisfactionInfo.satisfiedInstrumentNumber info)
         || strTruthy (SatisfactionInfo.satisfiedBookPage info))%bool in
      let lender := strTruthy (SatisfactionInfo.originalLender info) in
      let amount := numTruthy (SatisfactionInfo.originalAmount info) in
      String.eqb (SatisfactionInfo.confidence info) "high"
      = (reference && (lender || amount))%bool
      /\ String.eqb (SatisfactionInfo.confidence info) "low"
         = (negb reference && negb lender)%bool).
Proof.
  split; [|split].
  - unfold parseMortgageText. destruct (tooShort text); [split; reflexivity|].
    cbv zeta.
    cbn [MortgageInfo.confidence MortgageInfo.principalAmount MortgageInfo.lenderName
         MortgageInfo.interestRate MortgageInfo.maturityDate].
    repeat match goal with
           | |- context [numTruthy ?x] => destruct (numTruthy x)
           | |- context [strTruthy ?x] => destruct (strTruthy x)
           end; split; reflexivity.
  - unfold parseDeedText. destruct (tooShort text); [split; reflexivity|].
    cbv zeta.
    cbn [DeedInfo.confidence DeedInfo.consideration DeedInfo.legalDescription].
    repeat match goal with
           | |- context [bump (numTruthy ?x) _] => destruct (numTruthy x) eqn:?
           | |- context [bump (strTruthy ?x) _] => destruct (strTruthy x) eqn:?
           end; split; reflexivity.
  - unfold parseSatisfactionText. destruct (tooShort text); [split; reflexivity|].
    cbv zeta.
    cbn [SatisfactionInfo.confidence SatisfactionInfo.satisfiedInstrumentNumber
         SatisfactionInfo.satisfiedBookPage SatisfactionInfo.originalLender
         SatisfactionInfo.originalAmount].
    repeat match goal with
           | |- context [numTruthy ?x] => destruct (numTruthy x)
           | |- context [strTruthy ?x] => destruct (strTruthy x)
           end; split; reflexivity.
Qed.

(** ** Property appraiser lookups *)

Lemma dropQuotes_clean (s : string) :
  Js.hasChar singleQuote (dropQuotes s) = false
  /\ Js.hasChar doubleQuote (dropQuotes s) = false
  /\ (String.length (dropQuotes s) <= String.length s)%nat.
Proof.
  induction s as [|c s (IH1 & IH2 & IH3)]; simpl; [repeat split; auto|].
  destruct (Ascii.eqb c singleQuote) eqn:E1; simpl.
  - repeat split; auto; lia.
  - destruct (Ascii.eqb c doubleQuote) eqn:E2; simpl.
    + repeat split; auto; lia.
    + rewrite E1, E2, IH1, IH2. repeat split; auto; lia.
Qed.

(** X21. [searchByAddress] refuses an address whose trimmed length is below
    three before any request; otherwise the search text it places between
    the quotes of the LIKE pattern contains neither a single nor a double
    quote, so the pattern is closed by the quote the code writes. *)
Theorem address_clause_is_quote_free (address : string) :
  ((String.length (Js.trim address) < 3)%nat ->
   addressWhereClause address = Throw "Address must be at least 3 characters")
  /\ ((3 <= String.length (Js.trim address))%nat ->
      exists searched,
        addressWhereClause address
        = Ok ("UPPER(SITEADD) LIKE " ++ String singleQuote "%"
                ++ searched ++ "%" ++ String singleQuote "")%string
        /\ Js.hasChar singleQuote searched = false
        /\ Js.hasChar doubleQuote searched = false).
Proof.
  unfold addressWhereClause. split; intro H.
  - destruct (Nat.ltb_spec (String.length (Js.trim address)) 3); [|lia].
    now rewrite orb_true_r.
  - destruct (Nat.ltb_spec (String.length (Js.trim address)) 3); [lia|].
    destruct (String.eqb_spec address "") as [->|_]; [simpl in H; lia|]. simpl.
    exists (cleanAddress address). split; [reflexivity|].
    unfold cleanAddress.
    destruct (dropQuotes_clean (Js.toUpperCase (Js.trim address))) as (H1 & H2 & H3).
    split; assumption.
Qed.

Lemma keepDigits_digits (s : string) : allChars isDigit (keepDigits s) = true.
Proof.
  induction s as [|c s IH]; simpl; [reflexivity|].
  destruct (isDigit c) eqn:E; simpl; [now rewrite E|exact IH].
Qed.

Lemma keepDigits_fixed (s : string) :
  allChars isDigit s = true -> keepDigits s = s.
Proof.
  induction s as [|c s IH]; simpl; [reflexivity|].
  intro H. apply andb_true_iff in H. destruct H as [Hc Hs].
  now rewrite Hc, IH.
Qed.

(** X22. [getParcelByFolio] refuses the empty folio; otherwise the value it
    places between the quotes consists of digits only, and a folio that
    already consists of digits is used unchanged. *)
Theorem folio_clause_has_digits_only (folio : string) :
  folioWhereClause "" = Throw "Folio number is required"
  /\ (folio <> "" ->
      folioWhereClause folio
      = Ok ("FOLIONUM = " ++ String singleQuote (keepDigits folio)
              ++ String singleQuote "")%string
      /\ allChars isDigit (keepDigits folio) = true
      /\ (allChars isDigit folio = true -> keepDigits folio = folio)).
Proof.
  split; [reflexivity|]. intro H. unfold folioWhereClause.
  destruct (String.eqb_spec folio ""); [contradiction|].
  split; [reflexivity|]. split; [apply keepDigits_digits|apply keepDigits_fixed].
Qed.

Lemma distinct_spec (items : list string) :
  forall seen,
    NoDup (distinct seen items)
    /\ forall x, In x (distinct seen items) <-> In x items /\ ~ In x seen.
Proof.
  induction items as [|item items IH]; intro seen; simpl.
  - split; [constructor|]. intro x. tauto.
  - destruct (existsb (String.eqb item) seen) eqn:E.
    + destruct (IH seen) as [Hnd Hin]. split; [exact Hnd|].
      intro x. rewrite Hin. split; [tauto|].
      intros [[<-|Hx] Hs]; [|tauto]. exfalso. apply Hs.
      apply existsb_exists in E. destruct E as (y & Hy & Heq).
      apply String.eqb_eq in Heq. now subst y.
    + assert (Hfresh : ~ In item seen).
      { intro Hs.
        assert (existsb (String.eqb item) seen = true); [|congruence].
        apply existsb_exists. exists item. split; [exact Hs|apply String.eqb_refl]. }
      destruct (IH (seen ++ [item])) as [Hnd Hin]. split.
      * constructor; [|exact Hnd]. rewrite Hin. intros [_ Hn]. apply Hn.
        apply in_or_app. right. now left.
      * intro x. simpl. rewrite Hin, in_app_iff. simpl. split.
        -- intros [<-|[Hx Hn]]; [tauto|]. split; [tauto|]. tauto.
        -- intros [[<-|Hx] Hs]; [now left|].
           destruct (string_dec item x) as [->|Hne]; [now left|]. right.
           split; [exact Hx|]. intros [H|[H|[]]]; tauto.
Qed.

(** X23. [getOwnersByAddress] returns every owner name once: the list has no
    duplicates, and a name is in it exactly when it is the owner name of
    some parcel found and is not blank. *)
Theorem owners_are_unique (ownerNames : list string) :
  NoDup (uniqueOwners ownerNames)
  /\ forall name,
       In name (uniqueOwners ownerNames)
       <-> In name ownerNames /\ name <> ""
           /\ (0 < String.length (Js.trim name))%nat.
Proof.
  unfold uniqueOwners.
  destruct (distinct_spec
              (filter (fun name =>
                         andb (negb (String.eqb name ""))
                              (Nat.ltb 0 (String.length (Js.trim name))))
                      ownerNames) []) as [Hnd Hin].
  split; [exact Hnd|]. intro name. rewrite Hin, filter_In, andb_true_iff.
  rewrite negb_true_iff, Nat.ltb_lt. split.
  - intros [(H1 & H2 & H3) _]. repeat split; try assumption.
    intros ->. discriminate.
  - intros (H1 & H2 & H3). split; [|tauto]. repeat split; try assumption.
    now apply String.eqb_neq.
Qed.

(** ** Parser and matcher together *)

(** X24. For a satisfaction that carries what [parseSatisfactionText] read,
    a mortgage whose instrument number matches outscores every mortgage
    whose number does not: the parser never gives a book and page along with
    an instrument number, so the other mortgage reaches 65 at most. *)
Theorem parsed_number_outscores_the_rest
        (reMatch : string -> string -> option (list (option string)))
        (parseFloat : string -> option Q) (text : string)
        (v : Variant) (sat mtg other : Document) :
  extractedData sat
  = Some (SatisfactionData (parseSatisfactionText reMatch parseFloat text)) ->
  instrumentMatches v sat mtg = true ->
  instrumentMatches v sat other = false ->
  pairScore v sat other <= 65
  /\ 80 <= pairScore v sat mtg
  /\ pairScore v sat other < pairScore v sat mtg.
Proof.
  intros Hdata Hmtg Hother.
  assert (Hbook : satisfactionField SatisfactionInfo.satisfiedBookPage sat = None).
  { unfold satisfactionField. rewrite Hdata.
    destruct (parseSatisfactionText_one_reference reMatch parseFloat text)
      as [Hnone|Hnone]; [|exact Hnone].
    unfold instrumentMatches, satisfactionField in Hmtg.
    rewrite Hdata, Hnone in Hmtg. discriminate. }
  destruct (signalScore_bounds v sat mtg) as [Hhigh _].
  destruct (signalScore_bounds v sat other) as [_ Hlow].
  specialize (Hhigh Hmtg).
  specialize (Hlow Hother (bookPageMatches_absent sat other Hbook)).
  pose proof (dateAdjust_bounds sat mtg (fst (signalScore v sat mtg))).
  pose proof (dateAdjust_bounds sat other (fst (signalScore v sat other))).
  unfold pairScore. lia.
Qed.

Lemma parsed_number_outscores_the_rest_witness :
  pairScore NodeExtractor parsedSatisfaction Sample.otherMortgage
  < pairScore NodeExtractor parsedSatisfaction Sample.mortgage.
Proof.
  apply (parsed_number_outscores_the_rest citingEngine (fun _ => None) citingText
           NodeExtractor parsedSatisfaction Sample.mortgage Sample.otherMortgage);
    reflexivity.
Defined.
